(** * SafeTradeLab dataCollector: the gap reconciliation engine

    A shallow embedding of the candle collectors of the repository
    (src/collectors/historical_collector.py, src/collectors/realtime_collector.py,
    src/database/models.py, src/database/connection.py) and the properties of
    the specification that concern them.

    Conventions of the embedding.
    - A [datetime] is an instant, counted in microseconds since the Unix
      epoch (the resolution of Python's datetime); a [timedelta] is a
      difference of instants.  Datetimes are unbounded here (Python raises
      OverflowError outside years 1..9999).
    - The float arithmetic on timestamps ([kline[0] / 1000],
      [total_seconds() / 300], [timestamp() * 1000]) is exact on the
      magnitudes involved and is modelled by exact rational arithmetic.
    - [float(s)] on a price or volume string is modelled bit-exactly, as the
      correctly rounded IEEE 754 binary64 value (round half to even).
    - A row holds the Python objects handed to its [Numeric(20, 8)] columns
      (a string or a float); [numeric_value] is what the PostgreSQL server
      keeps of each (the driver sends a float as its [repr], the server
      rounds to 8 decimal places), and a commit fails with DataError when
      a value written has 13 digits or more before the point.
    - The outside world (wall clock, Binance REST answers, database
      availability) is an oracle [Env]; the code threads a [World] holding
      the table, the requests issued and the log.
    - Only [logger.warning] and [logger.error] lines are recorded in the log;
      [time.sleep] is not modelled. *)

From Stdlib Require Import ZArith List String Bool Lia QArith Qminmax.
From Stdlib Require Import Permutation.
Import ListNotations.

Local Open Scope string_scope.
Local Open Scope list_scope.
Local Open Scope Z_scope.

(** ** Time *)

Definition datetime := Z.
Definition timedelta := Z.

Module timedelta.
Definition microseconds (n : Z) : timedelta := n.
Definition seconds (n : Z) : timedelta := n * 1000000.
Definition minutes (n : Z) : timedelta := n * 60000000.
Definition hours (n : Z) : timedelta := n * 3600000000.
Definition days (n : Z) : timedelta := n * 86400000000.
(** [td.total_seconds()], a float in Python, here the exact rational. *)
Definition total_seconds (td : timedelta) : Q := td # 1000000.
End timedelta.

(** [datetime.fromtimestamp(ms / 1000, tz=timezone.utc)] for an integer
    number of milliseconds. *)
Definition fromtimestamp_ms (ms : Z) : datetime := ms * 1000.

(** [int(dt.timestamp() * 1000)]: [int] truncates towards zero. *)
Definition timestamp_ms (dt : datetime) : Z := Z.quot dt 1000.

(** [dt.minute] of a UTC datetime. *)
Definition minute (dt : datetime) : Z := (dt / 60000000) mod 60.

(** ** Decimal strings and binary floats *)

(** A decimal numeral as the exchange sends it, e.g. "0.01634790" is
    [{| unscaled := 1634790; scale := 8 |}]: [unscaled * 10^-scale]. *)
Record decimal := mkDecimal { unscaled : Z; scale : nat }.

Definition decimal_value (d : decimal) : Q :=
  Qmake (unscaled d) (Z.to_pos (10 ^ Z.of_nat (scale d))).

(** A Python float: a binary64 number [mant * 2^expo] with
    [|mant| < 2^53], normalised ([2^52 <= |mant|] unless [expo = -1074]),
    or an infinity. *)
Inductive float :=
| Finite (mant : Z) (expo : Z)
| Infinity (negative : bool).

Definition float_value (f : float) : option Q :=
  match f with
  | Finite m e =>
      Some (if 0 <=? e then Qmake (m * 2 ^ e) 1
            else Qmake m (Z.to_pos (2 ^ (- e))))
  | Infinity _ => None
  end.

(** Nearest integer to [n / d] for [0 <= n], [0 < d], ties to even. *)
Definition round_half_even (n d : Z) : Z :=
  let q := n / d in
  let r := n mod d in
  match 2 * r ?= d with
  | Lt => q
  | Gt => q + 1
  | Eq => if Z.even q then q else q + 1
  end.

(** [floor (log2 (n / d))] for [0 < n], [0 < d]. *)
Definition log2_ratio (n d : Z) : Z :=
  let g := Z.log2 n - Z.log2 d in
  if 0 <=? g
  then (if d * 2 ^ g <=? n then g else g - 1)
  else (if d <=? n * 2 ^ (- g) then g else g - 1).

(** The binary64 number nearest to [n / d], for [0 < n], [0 < d]. *)
Definition binary64_of_ratio (n d : Z) : Z * Z :=
  let e := Z.max (-1074) (log2_ratio n d - 52) in
  let m := if 0 <=? e then round_half_even n (d * 2 ^ e)
           else round_half_even (n * 2 ^ (- e)) d in
  if m =? 2 ^ 53 then (2 ^ 52, e + 1) else (m, e).

(** [float(s)] for a decimal numeral [s]. *)
Definition float_of_decimal (s : decimal) : float :=
  let n := unscaled s in
  let d := 10 ^ Z.of_nat (scale s) in
  if n =? 0 then Finite 0 (-1074)
  else
    let '(m, e) := binary64_of_ratio (Z.abs n) d in
    if 971 <? e then Infinity (n <? 0)
    else Finite (Z.sgn n * m) e.

(** ** [repr] of a float *)

(** Is [10^k <= n / d]?  For [0 < n], [0 < d]. *)
Definition ge_pow10 (n d k : Z) : bool :=
  if 0 <=? k then d * 10 ^ k <=? n else d <=? n * 10 ^ (- k).

Fixpoint log10_down (fuel : nat) (n d k : Z) : Z :=
  match fuel with
  | O => k
  | S fuel' => if ge_pow10 n d k then k else log10_down fuel' n d (k - 1)
  end.

Fixpoint log10_up (fuel : nat) (n d k : Z) : Z :=
  match fuel with
  | O => k
  | S fuel' => if ge_pow10 n d (k + 1) then log10_up fuel' n d (k + 1) else k
  end.

(** [floor (log10 (n / d))] for [0 < n], [0 < d]: the estimate from the
    binary logarithm is off by two at most. *)
Definition log10_ratio (n d : Z) : Z :=
  let k0 := log2_ratio n d * 30103 / 100000 in
  log10_up 4 n d (log10_down 4 n d k0).

(** [floor (n / d / 10^q)]. *)
Definition scaled_floor (n d q : Z) : Z :=
  if 0 <=? q then n / (d * 10 ^ q) else n * 10 ^ (- q) / d.

(** Does the decimal [c * 10^q] read back as the float [m * 2^e]? *)
Definition reads_back (m e c q : Z) : bool :=
  if c =? 0 then false
  else
    let '(m', e') :=
      if 0 <=? q then binary64_of_ratio (c * 10 ^ q) 1
      else binary64_of_ratio c (10 ^ (- q)) in
    (m' =? m) && (e' =? e).

(** Is [n / d] nearer to [c * 10^q] than to [(c + 1) * 10^q]
    (ties to the even one)? *)
Definition nearer_lower (n d c q : Z) : bool :=
  let '(l, r) :=
    if 0 <=? q then (2 * n, (2 * c + 1) * 10 ^ q * d)
    else (2 * n * 10 ^ (- q), (2 * c + 1) * d) in
  match l ?= r with
  | Lt => true
  | Gt => false
  | Eq => Z.even c
  end.

(** The shortest decimal [c * 10^q] that reads back as [m * 2^e = n / d],
    the nearest one among the shortest: tried for 1 to 16 significant
    digits; 17 digits always suffice for a binary64 number. *)
Fixpoint shortest (fuel : nat) (m e n d k digits : Z) : Z * Z :=
  let q := k - digits + 1 in
  let lo := scaled_floor n d q in
  match fuel with
  | O => (if nearer_lower n d lo q then lo else lo + 1, q)
  | S fuel' =>
      match reads_back m e lo q, reads_back m e (lo + 1) q with
      | true, true => (if nearer_lower n d lo q then lo else lo + 1, q)
      | true, false => (lo, q)
      | false, true => (lo + 1, q)
      | false, false => shortest fuel' m e n d k (digits + 1)
      end
  end.

(** [repr(x)] of a finite float [m * 2^e], as the decimal [c * 10^q] it
    denotes: the shortest digit string that [float] reads back as [x]
    (CPython 3). *)
Definition float_repr (m e : Z) : Z * Z :=
  if m =? 0 then (0, 0)
  else
    let n := if 0 <=? e then Z.abs m * 2 ^ e else Z.abs m in
    let d := if 0 <=? e then 1 else 2 ^ (- e) in
    let '(c, q) := shortest 16 (Z.abs m) e n d (log10_ratio n d) 1 in
    (Z.sgn m * c, q).

(** ** The table [ohlcv_data] (database/models.py) *)

(** The Python object handed to a [Numeric(20, 8)] column: the exchange's
    own decimal string (backfill path) or a float (live path). *)
Inductive numeric :=
| Str (s : decimal)
| Float (f : float).

(** Nearest integer to [n / d] for [0 <= n], [0 < d], ties away from
    zero: the rounding of PostgreSQL's [numeric]. *)
Definition round_half_up (n d : Z) : Z := (2 * n + d) / (2 * d).

(** A [Numeric(20, 8)] column keeps a value rounded to 8 decimal places
    and refuses one that then has more than 12 digits before the point. *)
Definition in_numeric_20_8 (units : Z) : option Z :=
  if Z.abs units <? 10 ^ 20 then Some units else None.

(** What the column keeps of the object handed to it, in units of
    [10^-8]; [None] when the server refuses the value.  The driver sends a
    string as it is and a float as its [repr]; an infinite float is
    refused. *)
Definition numeric_units (x : numeric) : option Z :=
  match x with
  | Str s =>
      in_numeric_20_8
        (Z.sgn (unscaled s)
         * round_half_up (Z.abs (unscaled s) * 10 ^ 8)
             (10 ^ Z.of_nat (scale s)))
  | Float (Finite m e) =>
      let '(c, q) := float_repr m e in
      in_numeric_20_8
        (Z.sgn c
         * (if 0 <=? q + 8 then Z.abs c * 10 ^ (q + 8)
            else round_half_up (Z.abs c) (10 ^ (- (q + 8)))))
  | Float (Infinity _) => None
  end.

(** The value read back from the column. *)
Definition numeric_value (x : numeric) : option Q :=
  match numeric_units x with
  | Some units => Some (units # 100000000)
  | None => None
  end.

(** Does the column accept the object? *)
Definition fits (x : numeric) : bool :=
  match numeric_units x with
  | Some _ => true
  | None => false
  end.

(** One row.  The surrogate [id] and [created_at], which the database
    server assigns and the collectors never write, are left out. *)
Record OHLCVData := mkOHLCVData {
  timestamp_utc : datetime;
  timestamp_turkey : datetime;
  symbol : string;
  timeframe : string;
  open : numeric;
  high : numeric;
  low : numeric;
  close : numeric;
  volume : numeric
}.

(** Can the row be written?  Each of its five numbers must fit its
    column. *)
Definition storable (r : OHLCVData) : bool :=
  fits (open r) && fits (high r) && fits (low r) && fits (close r)
  && fits (volume r).

Definition decimal_eqb (a b : decimal) : bool :=
  (unscaled a =? unscaled b) && Nat.eqb (scale a) (scale b).

Definition float_eqb (a b : float) : bool :=
  match a, b with
  | Finite m e, Finite m' e' => (m =? m') && (e =? e')
  | Infinity s, Infinity s' => Bool.eqb s s'
  | _, _ => false
  end.

Definition numeric_eqb (a b : numeric) : bool :=
  match a, b with
  | Str s, Str s' => decimal_eqb s s'
  | Float f, Float f' => float_eqb f f'
  | _, _ => false
  end.

(** Do two rows agree on every column? *)
Definition row_eqb (a b : OHLCVData) : bool :=
  (timestamp_utc a =? timestamp_utc b)
  && (timestamp_turkey a =? timestamp_turkey b)
  && String.eqb (symbol a) (symbol b)
  && String.eqb (timeframe a) (timeframe b)
  && numeric_eqb (open a) (open b)
  && numeric_eqb (high a) (high b)
  && numeric_eqb (low a) (low b)
  && numeric_eqb (close a) (close b)
  && numeric_eqb (volume a) (volume b).

(** A kline of the REST API:
    [[open time ms, open, high, low, close, volume, close time ms, ...]]. *)
Record kline := mkKline {
  k_open_time : Z;      (* kline[0] *)
  k_open : decimal;     (* kline[1] *)
  k_high : decimal;     (* kline[2] *)
  k_low : decimal;      (* kline[3] *)
  k_close : decimal;    (* kline[4] *)
  k_volume : decimal;   (* kline[5] *)
  k_close_time : Z      (* kline[6] *)
}.

(** [OHLCVData.from_binance_kline]. *)
Definition from_binance_kline (k : kline) (sym tf : string) : OHLCVData :=
  let utc_time := fromtimestamp_ms (k_open_time k) in
  let turkey_time := utc_time + timedelta.hours 3 in
  {| timestamp_utc := utc_time;
     timestamp_turkey := turkey_time;
     symbol := sym;
     timeframe := tf;
     open := Str (k_open k);
     high := Str (k_high k);
     low := Str (k_low k);
     close := Str (k_close k);
     volume := Str (k_volume k) |}.

(** The filter of every existence query:
    [timestamp_turkey == ts, symbol == sym, timeframe == tf]. *)
Definition matches (ts : datetime) (sym tf : string) (r : OHLCVData) : bool :=
  (timestamp_turkey r =? ts) && String.eqb (symbol r) sym
  && String.eqb (timeframe r) tf.

(** [session.query(OHLCVData).filter(...).first()]. *)
Definition query_first (ts : datetime) (sym tf : string)
  (rows : list OHLCVData) : option OHLCVData :=
  find (matches ts sym tf) rows.

(** Number of rows under a key. *)
Definition count_rows (ts : datetime) (sym tf : string)
  (rows : list OHLCVData) : nat :=
  List.length (filter (matches ts sym tf) rows).

(** [session.query(func.max(OHLCVData.timestamp_turkey)).filter(symbol, timeframe).scalar()]. *)
Fixpoint max_timestamp_turkey (sym tf : string) (rows : list OHLCVData)
  : option datetime :=
  match rows with
  | [] => None
  | r :: rest =>
      let m := max_timestamp_turkey sym tf rest in
      if String.eqb (symbol r) sym && String.eqb (timeframe r) tf
      then Some (match m with
                 | None => timestamp_turkey r
                 | Some t => Z.max (timestamp_turkey r) t
                 end)
      else m
  end.

(** The loaded rows that the attribute writes of a session have changed:
    those that are no longer rows of the committed table.  The flush sends
    an UPDATE for each of them and for no other loaded row. *)
Definition written (committed rows : list OHLCVData) : list OHLCVData :=
  filter (fun r => negb (existsb (row_eqb r) committed)) rows.

(** The unit of work of a SQLAlchemy session ([autoflush=False]): the rows
    loaded from the table, with the attribute writes made on them, and the
    objects added but not yet inserted.  Queries read [loaded] only. *)
Record Session := mkSession {
  loaded : list OHLCVData;
  pending : list OHLCVData
}.

(** The assignments [existing.timestamp_utc = ...; existing.open = ...; ...]
    on the object returned by [first()]: the first matching row. *)
Fixpoint update_first (ts : datetime) (sym tf : string) (new : OHLCVData)
  (rows : list OHLCVData) : list OHLCVData :=
  match rows with
  | [] => []
  | r :: rest =>
      if matches ts sym tf r
      then {| timestamp_utc := timestamp_utc new;
              timestamp_turkey := timestamp_turkey r;
              symbol := symbol r;
              timeframe := timeframe r;
              open := open new;
              high := high new;
              low := low new;
              close := close new;
              volume := volume new |} :: rest
      else r :: update_first ts sym tf new rest
  end.

(** The constraint [uix_timestamp_symbol_timeframe]: does inserting
    [news] into [rows] create two rows with one key? *)
Fixpoint violates_unique (rows news : list OHLCVData) : bool :=
  match news with
  | [] => false
  | n :: rest =>
      existsb (matches (timestamp_turkey n) (symbol n) (timeframe n)) rows
      || violates_unique (rows ++ [n]) rest
  end.

(** ** The outside world *)

Inductive exn :=
| BinanceAPIException
| OperationalError     (* the database cannot be reached *)
| IntegrityError       (* the unique constraint is violated *)
| DataError            (* a value does not fit its Numeric(20, 8) column *)
| NameError (name : string)
| AttributeError
| JSONDecodeError.

(** The INSERTs of a flush, row by row over [rows]: the first row that
    does not fit its columns or repeats a key stops the flush. *)
Fixpoint insert_error (rows news : list OHLCVData) : option exn :=
  match news with
  | [] => None
  | n :: rest =>
      if negb (storable n) then Some DataError
      else if existsb (matches (timestamp_turkey n) (symbol n) (timeframe n))
                rows
      then Some IntegrityError
      else insert_error (rows ++ [n]) rest
  end.

(** The flush of a session over the committed table: the UPDATEs of the
    written rows, then the INSERTs of the pending ones; the error it stops
    with, if any. *)
Definition flush_error (committed : list OHLCVData) (s : Session)
  : option exn :=
  if forallb storable (written committed (loaded s))
  then insert_error (loaded s) (pending s)
  else Some DataError.

Inductive result (A : Type) :=
| Ok (a : A)
| Raise (e : exn).
Arguments Ok {A} a.
Arguments Raise {A} e.

(** A call of [client.get_historical_klines]. *)
Record request := mkRequest {
  req_symbol : string;
  req_interval : string;
  start_str : Z;
  end_str : Z;
  limit : Z
}.

Inductive level := WARNING | ERROR.

Record Env := mkEnv {
  (** the n-th reading of the wall clock, [datetime.now()] *)
  clock : nat -> datetime;
  (** the answer of the exchange to the n-th REST call *)
  binance : nat -> request -> result (list kline);
  (** is the database unreachable during the n-th session? *)
  db_down : nat -> bool
}.

Record World := mkWorld {
  table : list OHLCVData;      (* the committed rows of ohlcv_data *)
  clock_reads : nat;
  requests : list request;     (* REST calls issued, oldest first *)
  sessions : nat;              (* sessions opened so far *)
  log : list (level * string)  (* oldest first *)
}.

(** ** A state and exception monad for the collectors *)

Definition M (A : Type) := World -> result A * World.

Definition ret {A} (a : A) : M A := fun w => (Ok a, w).

Definition raise {A} (e : exn) : M A := fun w => (Raise e, w).

Definition bind {A B} (m : M A) (f : A -> M B) : M B :=
  fun w =>
    match m w with
    | (Ok a, w') => f a w'
    | (Raise e, w') => (Raise e, w')
    end.

(** [try: m except Exception as e: h e]. *)
Definition try_except {A} (m : M A) (h : exn -> M A) : M A :=
  fun w =>
    match m w with
    | (Ok a, w') => (Ok a, w')
    | (Raise e, w') => h e w'
    end.

Notation "x <- m ;; k" := (bind m (fun x => k))
  (at level 61, m at next level, right associativity).
Notation "m ;;; k" := (bind m (fun _ => k))
  (at level 61, right associativity).

Definition logger (l : level) (msg : string) : M unit :=
  fun w => (Ok tt, {| table := table w; clock_reads := clock_reads w;
                      requests := requests w; sessions := sessions w;
                      log := log w ++ [(l, msg)] |}).

(** A collector object: [self.symbol], [self.interval]. *)
Record Collector := mkCollector {
  self_symbol : string;
  self_interval : string
}.

Definition Qlt_bool (x y : Q) : bool := negb (Qle_bool y x).

Section Primitives.
Variable E : Env.

(** [datetime.now(timezone.utc)], [datetime.now().astimezone(timezone.utc)]. *)
Definition now : M datetime :=
  fun w => (Ok (clock E (clock_reads w)),
            {| table := table w; clock_reads := S (clock_reads w);
               requests := requests w; sessions := sessions w;
               log := log w |}).

(** [self.client.get_historical_klines(...)]. *)
Definition get_historical_klines (r : request) : M (list kline) :=
  fun w => (binance E (List.length (requests w)) r,
            {| table := table w; clock_reads := clock_reads w;
               requests := requests w ++ [r]; sessions := sessions w;
               log := log w |}).

(** [self.SessionLocal()]: the number of the session and its empty unit
    of work over the committed table. *)
Definition begin_session : M (nat * Session) :=
  fun w => (Ok (sessions w, {| loaded := table w; pending := [] |}),
            {| table := table w; clock_reads := clock_reads w;
               requests := requests w; sessions := S (sessions w);
               log := log w |}).

(** A SELECT of session [n]. *)
Definition query {A} (n : nat) (s : Session) (q : list OHLCVData -> A)
  : M A :=
  if db_down E n then raise OperationalError else ret (q (loaded s)).

(** [session.commit()] of session [n]: the attribute writes and the
    pending inserts reach the table, or nothing does: a value that does
    not fit its column (DataError) or a repeated key (IntegrityError)
    fails the flush and the transaction is rolled back.  Every write of
    the collectors follows a successful query of the same session, so a
    session whose database is down has nothing to flush and its commit
    sends no statement. *)
Definition commit (n : nat) (s : Session) : M unit :=
  fun w =>
    match flush_error (table w) s with
    | Some e => (Raise e, w)
    | None => (Ok tt, {| table := loaded s ++ pending s;
                         clock_reads := clock_reads w;
                         requests := requests w; sessions := sessions w;
                         log := log w |})
    end.

(** [with db.get_session() as session: body] (database/connection.py).
    The context manager's own [session.commit()] after the body finds
    nothing left to flush. *)
Definition get_session {A} (body : nat -> Session -> M A) : M A :=
  ns <- begin_session ;;
  try_except (body (fst ns) (snd ns))
    (fun e => logger ERROR "Database session error" ;;; raise e).

(** [for x in l: st = f st x]. *)
Fixpoint for_each {A B} (f : B -> A -> M B) (l : list A) (st : B) : M B :=
  match l with
  | [] => ret st
  | x :: rest => st' <- f st x ;; for_each f rest st'
  end.
End Primitives.

(** ** HistoricalDataCollector (collectors/historical_collector.py) *)

(** The local counters and the session of [save_to_database]. *)
Record SaveState := mkSaveState {
  sess : Session;
  saved_count : nat;
  skipped_count : nat;
  open_candle_count : nat
}.

(** The loop variables of [fetch_range]. *)
Record RangeLoop := mkRangeLoop {
  current_start : datetime;
  iteration : nat;
  total_saved : nat
}.

Inductive control := Continue | Break.

Definition max_iterations : nat := 500.

(** [missing_time.total_seconds() / (5 * 60)]. *)
Definition estimated_missing_raw (current_time_utc last_record_utc : datetime)
  : Q :=
  let missing_time := current_time_utc - last_record_utc in
  (timedelta.total_seconds missing_time / (5 * 60))%Q.

(** Lines 224-230 of [backfill_data]: the estimate after the open candle
    is taken off. *)
Definition estimated_missing (current_time_utc last_record_utc : datetime)
  : Q :=
  let estimated_missing :=
    estimated_missing_raw current_time_utc last_record_utc in
  let minutes_since_candle_start := minute current_time_utc mod 5 in
  if minutes_since_candle_start <? 5
  then Qmax 0 (estimated_missing - 1)
  else estimated_missing.

(** Lines 213-219 of [backfill_data]: the start of the range to fetch and
    whether the lookback ceiling truncated it. *)
Definition backfill_start_time (current_time_utc last_record_utc : datetime)
  (days : Z) : bool * datetime :=
  let max_start_time := current_time_utc - timedelta.days days in
  if last_record_utc <? max_start_time
  then (true, max_start_time)
  else (false, last_record_utc + timedelta.minutes 5).

Section HistoricalDataCollector.
Variable E : Env.
Variable self : Collector.

(** [get_last_record_time]. *)
Definition get_last_record_time : M (option datetime) :=
  try_except
    (get_session (fun n session =>
       last_record <-
         query E n session
           (max_timestamp_turkey (self_symbol self) (self_interval self)) ;;
       ret last_record))
    (fun e => logger ERROR "Error getting last record time" ;;; ret None).

(** [fetch_historical_klines], called with both dates given. *)
Definition fetch_historical_klines (start_date end_date : datetime)
  (limit : Z) : M (list kline) :=
  try_except
    (get_historical_klines E
       {| req_symbol := self_symbol self;
          req_interval := self_interval self;
          start_str := timestamp_ms start_date;
          end_str := timestamp_ms end_date;
          limit := limit |})
    (fun e => logger ERROR "Error fetching historical data" ;;; raise e).

(** The body of the [for kline in klines] loop of [save_to_database]. *)
Definition save_kline (n : nat) (current_time_utc : datetime)
  (st : SaveState) (k : kline) : M SaveState :=
  let candle_close_time := fromtimestamp_ms (k_close_time k) in
  if current_time_utc <? candle_close_time
  then ret {| sess := sess st; saved_count := saved_count st;
              skipped_count := skipped_count st;
              open_candle_count := S (open_candle_count st) |}
  else
    let ohlcv :=
      from_binance_kline k (self_symbol self) (self_interval self) in
    existing <-
      query E n (sess st)
        (query_first (timestamp_turkey ohlcv) (symbol ohlcv)
           (timeframe ohlcv)) ;;
    match existing with
    | Some _ =>
        ret {| sess :=
                 {| loaded :=
                      update_first (timestamp_turkey ohlcv) (symbol ohlcv)
                        (timeframe ohlcv) ohlcv (loaded (sess st));
                    pending := pending (sess st) |};
               saved_count := saved_count st;
               skipped_count := S (skipped_count st);
               open_candle_count := open_candle_count st |}
    | None =>
        ret {| sess :=
                 {| loaded := loaded (sess st);
                    pending := pending (sess st) ++ [ohlcv] |};
               saved_count := S (saved_count st);
               skipped_count := skipped_count st;
               open_candle_count := open_candle_count st |}
    end.

(** [save_to_database]. *)
Definition save_to_database (klines : list kline) : M nat :=
  current_time_utc <- now E ;;
  st <- get_session (fun n session =>
          st <- for_each (save_kline n current_time_utc) klines
                  {| sess := session; saved_count := 0;
                     skipped_count := 0; open_candle_count := 0 |} ;;
          try_except (commit n (sess st))
            (fun e =>
               logger ERROR "Error committing to database" ;;; raise e) ;;;
          ret st) ;;
  ret (saved_count st).

(** One pass through the body of the [while] loop of [fetch_range]. *)
Definition fetch_range_body (end_time : datetime) (st0 : RangeLoop)
  : M (control * RangeLoop) :=
  let st := {| current_start := current_start st0;
               iteration := S (iteration st0);
               total_saved := total_saved st0 |} in
  try_except
    (klines <- fetch_historical_klines (current_start st) end_time 1000 ;;
     match klines with
     | [] =>
         if Qlt_bool 300
              (timedelta.total_seconds (end_time - current_start st))
         then
           logger WARNING "No klines returned, skipping 1 hour forward" ;;;
           ret (Continue,
                {| current_start := current_start st + timedelta.hours 1;
                   iteration := iteration st;
                   total_saved := total_saved st |})
         else ret (Break, st)
     | k :: rest =>
         saved <- save_to_database klines ;;
         let total := (total_saved st + saved)%nat in
         let last_kline_time :=
           fromtimestamp_ms (k_open_time (last klines k)) in
         let next_start := last_kline_time + timedelta.minutes 5 in
         if next_start <=? current_start st
         then
           logger WARNING "Time not advancing, forcing skip" ;;;
           ret (Continue,
                {| current_start := current_start st + timedelta.hours 1;
                   iteration := iteration st;
                   total_saved := total |})
         else
           ret (Continue,
                {| current_start := next_start;
                   iteration := iteration st;
                   total_saved := total |})
     end)
    (fun e =>
       logger ERROR "Error fetching range" ;;;
       let st' := {| current_start := current_start st + timedelta.hours 1;
                     iteration := iteration st;
                     total_saved := total_saved st |} in
       if end_time <=? current_start st'
       then ret (Break, st')
       else ret (Continue, st')).

(** [while current_start < end_time and iteration < max_iterations]. *)
Definition loop_guard (end_time : datetime) (st : RangeLoop) : bool :=
  (current_start st <? end_time) && (iteration st <? max_iterations)%nat.

(** The [while] loop, unrolled at most [fuel] times. *)
Fixpoint while_loop (fuel : nat) (end_time : datetime) (st : RangeLoop)
  : M RangeLoop :=
  match fuel with
  | O => ret st
  | S fuel' =>
      if loop_guard end_time st
      then
        r <- fetch_range_body end_time st ;;
        match fst r with
        | Break => ret (snd r)
        | Continue => while_loop fuel' end_time (snd r)
        end
      else ret st
  end.

(** [fetch_range]: every pass increments [iteration], so
    [max_iterations] unrollings exhaust the loop. *)
Definition fetch_range (start_time end_time : datetime) : M nat :=
  st <- while_loop max_iterations end_time
          {| current_start := start_time; iteration := 0;
             total_saved := 0 |} ;;
  ret (total_saved st).

(** [backfill_data]. *)
Definition backfill_data (days : Z) : M nat :=
  last_record_time_turkey <- get_last_record_time ;;
  current_time_utc <- now E ;;
  match last_record_time_turkey with
  | None =>
      let start_time := current_time_utc - timedelta.days days in
      total_saved <- fetch_range start_time current_time_utc ;;
      ret total_saved
  | Some last_record_time_turkey =>
      let last_record_utc :=
        last_record_time_turkey - timedelta.hours 3 in
      let '(too_old, start_time) :=
        backfill_start_time current_time_utc last_record_utc days in
      (if too_old then logger WARNING "Last record too old" else ret tt) ;;;
      let estimated_missing :=
        estimated_missing current_time_utc last_record_utc in
      if Qlt_bool estimated_missing 1
      then ret 0%nat
      else
        total_saved <- fetch_range start_time current_time_utc ;;
        ret total_saved
  end.
End HistoricalDataCollector.

(** ** RealtimeDataCollector (collectors/realtime_collector.py) *)

(** The object under key ['k'] of a stream message. *)
Record ws_kline := mkWsKline {
  ws_t : Z;          (* 't': open time, ms *)
  ws_o : decimal;    (* 'o' *)
  ws_h : decimal;    (* 'h' *)
  ws_l : decimal;    (* 'l' *)
  ws_c : decimal;    (* 'c' *)
  ws_v : decimal;    (* 'v' *)
  ws_x : bool;       (* 'x': is this candle closed? *)
  ws_s : string      (* 's' *)
}.

(** A decoded stream message: ['e'] when present, and ['k']. *)
Record ws_message := mkWsMessage {
  ws_e : option string;
  ws_k : ws_kline
}.

(** [int(x)] on a float: truncation towards zero. *)
Definition py_int (x : Q) : Z := Z.quot (Qnum x) (Zpos (Qden x)).

(** What a Python name can be bound to in [fill_missing_candles_before_start]. *)
Inductive pyobj :=
| Datetime (d : datetime)
| Timedelta (d : timedelta)
| Int (n : Z)
| Object.   (* a module, class, function or other object *)

(** The module-level names of realtime_collector.py. *)
Definition module_globals : list (string * pyobj) :=
  [("asyncio", Object); ("json", Object); ("datetime", Object);
   ("timedelta", Object); ("Optional", Object); ("websockets", Object);
   ("Client", Object); ("db", Object); ("OHLCVData", Object);
   ("Config", Object); ("get_logger", Object); ("logger", Object);
   ("RealtimeDataCollector", Object); ("main", Object)].

(** Reading a name: the local bindings, then the module's; no builtin is
    called [now]. *)
Definition load_name (locals : list (string * pyobj)) (name : string)
  : M pyobj :=
  match find (fun b => String.eqb (fst b) name) (locals ++ module_globals) with
  | Some b => ret (snd b)
  | None => raise (NameError name)
  end.

(** [obj.timestamp()]. *)
Definition timestamp_of (obj : pyobj) : M datetime :=
  match obj with
  | Datetime d => ret d
  | _ => raise AttributeError
  end.

Section RealtimeDataCollector.
Variable E : Env.
Variable self : Collector.

(** The row the live paths build from open time and OHLCV strings:
    every number goes through [float(...)]. *)
Definition float_row (open_time : Z) (o h l c v : decimal) : OHLCVData :=
  let utc_time := fromtimestamp_ms open_time in
  let turkey_time := utc_time + timedelta.hours 3 in
  {| timestamp_utc := utc_time;
     timestamp_turkey := turkey_time;
     symbol := self_symbol self;
     timeframe := self_interval self;
     open := Float (float_of_decimal o);
     high := Float (float_of_decimal h);
     low := Float (float_of_decimal l);
     close := Float (float_of_decimal c);
     volume := Float (float_of_decimal v) |}.

(** [save_kline_to_database]. *)
Definition save_kline_to_database (kline_data : ws_message) : M bool :=
  try_except
    (let kline := ws_k kline_data in
     if negb (ws_x kline) then ret false
     else
       get_session (fun n session =>
         let ohlcv :=
           float_row (ws_t kline) (ws_o kline) (ws_h kline) (ws_l kline)
             (ws_c kline) (ws_v kline) in
         let turkey_time := timestamp_turkey ohlcv in
         existing <-
           query E n session
             (query_first turkey_time (self_symbol self)
                (self_interval self)) ;;
         commit n
           (match existing with
            | Some _ =>
                {| loaded :=
                     update_first turkey_time (self_symbol self)
                       (self_interval self) ohlcv (loaded session);
                   pending := pending session |}
            | None =>
                {| loaded := loaded session;
                   pending := pending session ++ [ohlcv] |}
            end)) ;;;
       ret true)
    (fun e => logger ERROR "Error saving kline to database" ;;; ret false).

(** [handle_message], on the outcome of [json.loads(message)]:
    [None] when the text is not JSON. *)
Definition handle_message (message : option ws_message) : M unit :=
  try_except
    (match message with
     | None => raise JSONDecodeError
     | Some data =>
         match ws_e data with
         | Some e =>
             if String.eqb e "kline"
             then
               let kline := ws_k data in
               if ws_x kline
               then save_kline_to_database data ;;; ret tt
               else ret tt
             else ret tt
         | None => ret tt
         end
     end)
    (fun e =>
       match e with
       | JSONDecodeError => logger ERROR "Error decoding WebSocket message"
       | _ => logger ERROR "Error handling message"
       end).

(** The body of the [for kline in klines] loop of
    [fill_missing_candles_before_start] (lines 305-332), on the session
    and [saved_count]. *)
Definition gap_fill_kline (n : nat) (st : Session * nat) (kline : kline)
  : M (Session * nat) :=
  let ohlcv :=
    float_row (k_open_time kline) (k_open kline) (k_high kline)
      (k_low kline) (k_close kline) (k_volume kline) in
  existing <-
    query E n (fst st)
      (query_first (timestamp_turkey ohlcv) (self_symbol self)
         (self_interval self)) ;;
  match existing with
  | Some _ => ret st
  | None =>
      ret ({| loaded := loaded (fst st);
              pending := pending (fst st) ++ [ohlcv] |},
           S (snd st))
  end.

(** Lines 300-334 of [fill_missing_candles_before_start]: the session that
    stores the fetched klines. *)
Definition gap_fill_save (klines : list kline) : M nat :=
  get_session (fun n session =>
    st <- for_each (gap_fill_kline n) klines (session, 0%nat) ;;
    commit n (fst st) ;;;
    ret (snd st)).

(** [fill_missing_candles_before_start]. *)
Definition fill_missing_candles_before_start : M unit :=
  try_except
    (last_record <-
       get_session (fun n session =>
         query E n session
           (max_timestamp_turkey (self_symbol self) (self_interval self))) ;;
     match last_record with
     | None => ret tt
     | Some last_record =>
         let last_record_turkey := last_record in
         let last_record_utc := last_record - timedelta.hours 3 in
         local_time <- now E ;;
         let now_utc := local_time in
         let time_diff := now_utc - last_record_utc in
         let missing_candles :=
           py_int (timedelta.total_seconds time_diff / 300)%Q in
         let minutes_since_candle_start := minute now_utc mod 5 in
         let missing_candles :=
           if minutes_since_candle_start <? 5
           then Z.max 0 (missing_candles - 1)
           else missing_candles in
         if missing_candles <? 1 then ret tt
         else
           let locals :=
             [("self", Object); ("timezone", Object); ("func", Object);
              ("session", Object); ("last_record", Datetime last_record);
              ("last_record_turkey", Datetime last_record_turkey);
              ("last_record_utc", Datetime last_record_utc);
              ("local_time", Datetime local_time);
              ("now_utc", Datetime now_utc);
              ("time_diff", Timedelta time_diff);
              ("missing_candles", Int missing_candles);
              ("minutes_since_candle_start",
               Int minutes_since_candle_start)] in
           (* line 282: f"Filling from {last_record} to {now}" *)
           load_name locals "now" ;;;
           let start_ms :=
             timestamp_ms (last_record + timedelta.seconds 300) in
           now_ <- load_name locals "now" ;;
           now_timestamp <- timestamp_of now_ ;;
           let end_ms := timestamp_ms now_timestamp in
           klines <-
             get_historical_klines E
               {| req_symbol := self_symbol self;
                  req_interval := self_interval self;
                  start_str := start_ms;
                  end_str := end_ms;
                  limit := 1000 |} ;;
           match klines with
           | [] =>
               logger WARNING "No klines returned from Binance for gap fill"
           | _ :: _ => gap_fill_save klines ;;; ret tt
           end
     end)
    (fun e => logger ERROR "Error filling missing candles").
End RealtimeDataCollector.

(** ** Predicates and scenarios used by the statements *)

(** Has the candle closed at instant [t]?  The complement of the test
    [candle_close_time > current_time_utc] of [save_to_database]. *)
Definition is_closed (t : datetime) (k : kline) : bool :=
  fromtimestamp_ms (k_close_time k) <=? t.

(** Do the [Numeric(20, 8)] columns accept the five numbers of a kline,
    handed over as the strings the exchange sent (the backfill path)? *)
Definition kline_fits (k : kline) : bool :=
  fits (Str (k_open k)) && fits (Str (k_high k)) && fits (Str (k_low k))
  && fits (Str (k_close k)) && fits (Str (k_volume k)).

(** Do the columns accept the five numbers once each has gone through
    [float] (the live paths)? *)
Definition floats_fit (o h l c v : decimal) : bool :=
  fits (Float (float_of_decimal o)) && fits (Float (float_of_decimal h))
  && fits (Float (float_of_decimal l)) && fits (Float (float_of_decimal c))
  && fits (Float (float_of_decimal v)).

(** The unbounded [while] loop of [fetch_range] as a big-step relation:
    [while_exec E self end_time st w st' w'] when the loop entered with
    variables [st] in world [w] leaves with [st'] in [w']. *)
Inductive while_exec (E : Env) (self : Collector) (end_time : datetime)
  : RangeLoop -> World -> RangeLoop -> World -> Prop :=
| while_exit st w :
    loop_guard end_time st = false ->
    while_exec E self end_time st w st w
| while_break st w st' w' :
    loop_guard end_time st = true ->
    fetch_range_body E self end_time st w = (Ok (Break, st'), w') ->
    while_exec E self end_time st w st' w'
| while_continue st w st1 w1 st' w' :
    loop_guard end_time st = true ->
    fetch_range_body E self end_time st w = (Ok (Continue, st1), w1) ->
    while_exec E self end_time st1 w1 st' w' ->
    while_exec E self end_time st w st' w'.

(** The request [fetch_historical_klines] sends for a cursor. *)
Definition page_request (self : Collector) (cursor end_time : datetime)
  : request :=
  {| req_symbol := self_symbol self;
     req_interval := self_interval self;
     start_str := timestamp_ms cursor;
     end_str := timestamp_ms end_time;
     limit := 1000 |}.

(** Appending lines to the log of a world. *)
Definition with_log (w : World) (lines : list (level * string)) : World :=
  {| table := table w; clock_reads := clock_reads w;
     requests := requests w; sessions := sessions w;
     log := log w ++ lines |}.

(** Recording a REST call in a world. *)
Definition with_request (w : World) (r : request) : World :=
  {| table := table w; clock_reads := clock_reads w;
     requests := requests w ++ [r]; sessions := sessions w;
     log := log w |}.

(** The loop variables after a forced skip of one hour. *)
Definition skipped (st : RangeLoop) (total : nat) : RangeLoop :=
  {| current_start := current_start st + timedelta.hours 1;
     iteration := S (iteration st);
     total_saved := total |}.

(** Replacing the table of a world. *)
Definition with_table (w : World) (rows : list OHLCVData) : World :=
  {| table := rows; clock_reads := clock_reads w;
     requests := requests w; sessions := sessions w;
     log := log w |}.

(** Opening a session, reading the clock. *)
Definition opened (w : World) : World :=
  {| table := table w; clock_reads := clock_reads w;
     requests := requests w; sessions := S (sessions w);
     log := log w |}.

Definition ticked (w : World) : World :=
  {| table := table w; clock_reads := S (clock_reads w);
     requests := requests w; sessions := sessions w;
     log := log w |}.

(** The storage-time boundary under which a kline is stored. *)
Definition boundary (k : kline) : datetime :=
  fromtimestamp_ms (k_open_time k) + timedelta.hours 3.

(** Two runs of the loop of [save_to_database] that agree on everything
    [save_to_database] goes on to use. *)
Definition same_outcome (r1 r2 : result SaveState * World) : Prop :=
  snd r1 = snd r2 /\
  match fst r1, fst r2 with
  | Ok a, Ok b => sess a = sess b /\ saved_count a = saved_count b
  | Raise e1, Raise e2 => e1 = e2
  | _, _ => False
  end.

(** What [save_to_database] does with the outcome of its loop. *)
Definition finish_save (n : nat) (r : result SaveState * World)
  : result nat * World :=
  match r with
  | (Ok st, w) =>
      match flush_error (table w) (sess st) with
      | Some e =>
          (Raise e,
           with_log w [(ERROR, "Error committing to database");
                       (ERROR, "Database session error")])
      | None =>
          (Ok (saved_count st),
           {| table := loaded (sess st) ++ pending (sess st);
              clock_reads := clock_reads w; requests := requests w;
              sessions := sessions w; log := log w |})
      end
  | (Raise e, w) => (Raise e, with_log w [(ERROR, "Database session error")])
  end.

Module Scenario.
Definition btc : Collector := mkCollector "BTCUSDT" "5m".

(** 2024-01-01 00:00:00 UTC. *)
Definition T0 : datetime := 1704067200000000.

Definition fresh (rows : list OHLCVData) : World :=
  {| table := rows; clock_reads := 0; requests := []; sessions := 0;
     log := [] |}.

Definition price (n : Z) : decimal := mkDecimal n 8.

(** A five-minute candle opening at [open_ms] with every number [p]. *)
Definition candle (open_ms : Z) (p : decimal) : kline :=
  mkKline open_ms p p p p p (open_ms + 299999).

Fixpoint candles (n : nat) (open_ms : Z) : list kline :=
  match n with
  | O => []
  | S n' => candle open_ms (price 4200000000000)
            :: candles n' (open_ms + 300000)
  end.

(** An exchange that answers every request with the candles that open
    inside the requested window, the one in progress included. *)
Definition exchange (n : nat) (r : request) : result (list kline) :=
  let first := ((start_str r + 299999) / 300000) * 300000 in
  let cnt := (end_str r - first) / 300000 + 1 in
  Ok (candles (Z.to_nat (Z.min cnt (limit r))) first).

(** The clock stands at [t]; the exchange and the database work. *)
Definition healthy (t : datetime) : Env :=
  {| clock := fun _ => t; binance := exchange; db_down := fun _ => false |}.

(** As [healthy], but the database is unreachable in the first session. *)
Definition db_outage (t : datetime) : Env :=
  {| clock := fun _ => t; binance := exchange;
     db_down := fun n => Nat.eqb n 0 |}.

(** As [healthy], but every REST call fails. *)
Definition api_outage (t : datetime) : Env :=
  {| clock := fun _ => t;
     binance := fun _ _ => Raise BinanceAPIException;
     db_down := fun _ => false |}.

(** The row of the candle that opened at [T0]. *)
Definition row_T0 : OHLCVData :=
  from_binance_kline (candle (T0 / 1000) (price 4200000000000))
    "BTCUSDT" "5m".
End Scenario.

(** ** Invariants of the table *)

(** The columns of [uix_timestamp_symbol_timeframe]. *)
Definition key (r : OHLCVData) : datetime * string * string :=
  (timestamp_turkey r, symbol r, timeframe r).

(** The unique constraint holds of a table. *)
Definition unique_keys (rows : list OHLCVData) : Prop :=
  NoDup (map key rows).

(** A row that belongs to another symbol or interval than the collector's. *)
Definition foreign (self : Collector) (r : OHLCVData) : bool :=
  negb (String.eqb (symbol r) (self_symbol self)
        && String.eqb (timeframe r) (self_interval self)).

(** The storage timestamp of a row is its native timestamp shifted by the
    fixed three hours. *)
Definition offset_ok (r : OHLCVData) : Prop :=
  timestamp_turkey r = timestamp_utc r + timedelta.hours 3.


(** Row [r] is kline [k] as the backfill path stores it for the
    collector: keyed by the boundary, the five numbers the strings of the
    exchange. *)
Definition holds_strings (self : Collector) (k : kline) (r : OHLCVData)
  : Prop :=
  timestamp_utc r = fromtimestamp_ms (k_open_time k) /\
  timestamp_turkey r = fromtimestamp_ms (k_open_time k) + timedelta.hours 3 /\
  symbol r = self_symbol self /\
  timeframe r = self_interval self /\
  open r = Str (k_open k) /\
  high r = Str (k_high k) /\
  low r = Str (k_low k) /\
  close r = Str (k_close k) /\
  volume r = Str (k_volume k).

(** Row [r] is the candle opening at [open_time] ms as the live paths
    store it for the collector: the five numbers as floats. *)
Definition holds_floats (self : Collector) (open_time : Z)
  (o h l c v : decimal) (r : OHLCVData) : Prop :=
  timestamp_utc r = fromtimestamp_ms open_time /\
  timestamp_turkey r = fromtimestamp_ms open_time + timedelta.hours 3 /\
  symbol r = self_symbol self /\
  timeframe r = self_interval self /\
  open r = Float (float_of_decimal o) /\
  high r = Float (float_of_decimal h) /\
  low r = Float (float_of_decimal l) /\
  close r = Float (float_of_decimal c) /\
  volume r = Float (float_of_decimal v).

(** The candles of a page that [save_to_database] inserts when the
    database answers: those closed at [t] whose boundary the table lacks. *)
Definition fresh_candles (self : Collector) (t : datetime)
  (rows : list OHLCVData) (klines : list kline) : list kline :=
  filter (fun k =>
            is_closed t k
            && negb (existsb (matches (boundary k) (self_symbol self)
                                (self_interval self)) rows))
    klines.


(** The upsert of the live paths on the rows of a session: overwrite the
    row of [ohlcv]'s key, or append [ohlcv]. *)
Definition live_upsert (self : Collector) (ohlcv : OHLCVData)
  (rows : list OHLCVData) : list OHLCVData :=
  match query_first (timestamp_turkey ohlcv) (self_symbol self)
          (self_interval self) rows with
  | Some _ =>
      update_first (timestamp_turkey ohlcv) (self_symbol self)
        (self_interval self) ohlcv rows
  | None => rows ++ [ohlcv]
  end.

(** The unit of work of that upsert over the committed [rows]. *)
Definition live_session (self : Collector) (ohlcv : OHLCVData)
  (rows : list OHLCVData) : Session :=
  match query_first (timestamp_turkey ohlcv) (self_symbol self)
          (self_interval self) rows with
  | Some _ =>
      {| loaded :=
           update_first (timestamp_turkey ohlcv) (self_symbol self)
             (self_interval self) ohlcv rows;
         pending := [] |}
  | None => {| loaded := rows; pending := [ohlcv] |}
  end.

(** Does the commit of that upsert fail? *)
Definition live_refused (self : Collector) (ohlcv : OHLCVData)
  (rows : list OHLCVData) : bool :=
  match flush_error rows (live_session self ohlcv rows) with
  | Some _ => true
  | None => false
  end.

(** The row [save_kline_to_database] builds from a stream message. *)
Definition message_row (self : Collector) (msg : ws_message) : OHLCVData :=
  float_row self (ws_t (ws_k msg)) (ws_o (ws_k msg)) (ws_h (ws_k msg))
    (ws_l (ws_k msg)) (ws_c (ws_k msg)) (ws_v (ws_k msg)).


(** ** connect_and_stream (collectors/realtime_collector.py)

    The transport is an oracle: what the n-th call of
    [websockets.connect] leads to.  [asyncio.sleep] is not modelled, and
    neither is a concurrent call of [stop]: [self.is_running] changes only
    where [connect_and_stream] itself assigns it. *)

(** How the [async for] over an established connection ends. *)
Inductive ws_ending :=
| EndOfStream        (* closed normally: the iteration just ends *)
| ConnectionClosed   (* websockets.exceptions.ConnectionClosed is raised *)
| OtherError.        (* any other exception is raised *)

Inductive connection :=
| ConnectFailed      (* [websockets.connect] raises *)
| Connected (messages : list (option ws_message)) (ending : ws_ending).

(** [self.is_running], the local [retry_count] and the number of
    connection attempts made. *)
Record StreamLoop := mkStreamLoop {
  is_running : bool;
  retry_count : nat;
  attempt : nat
}.

Definition max_retries : nat := 5.

Section ConnectAndStream.
Variable E : Env.
Variable self : Collector.
Variable websocket : nat -> connection.

(** [async for message in websocket]: each message is [None] when its
    text is not JSON. *)
Fixpoint receive (running : bool) (messages : list (option ws_message))
  : M unit :=
  match messages with
  | [] => ret tt
  | message :: rest =>
      if negb running then ret tt
      else handle_message E self message ;;; receive running rest
  end.

(** The two [except] blocks, which differ in their first log line. *)
Definition on_disconnect (l : level) (line : string) (st : StreamLoop)
  : M StreamLoop :=
  logger l line ;;;
  let retry_count := S (retry_count st) in
  if (retry_count <? max_retries)%nat
  then ret {| is_running := is_running st; retry_count := retry_count;
              attempt := attempt st |}
  else
    logger ERROR "Max retries reached. Stopping collector." ;;;
    ret {| is_running := false; retry_count := retry_count;
           attempt := attempt st |}.

(** One pass through the body of the [while] loop. *)
Definition connect_once (st : StreamLoop) : M StreamLoop :=
  match websocket (attempt st) with
  | ConnectFailed =>
      on_disconnect ERROR "WebSocket error"
        {| is_running := is_running st; retry_count := retry_count st;
           attempt := S (attempt st) |}
  | Connected messages ending =>
      let st' := {| is_running := is_running st; retry_count := 0;
                    attempt := S (attempt st) |} in
      receive (is_running st') messages ;;;
      match ending with
      | EndOfStream => ret st'
      | ConnectionClosed =>
          on_disconnect WARNING "WebSocket connection closed" st'
      | OtherError => on_disconnect ERROR "WebSocket error" st'
      end
  end.

(** [while self.is_running and retry_count < max_retries], unrolled at
    most [fuel] times: [None] when the loop is still running after [fuel]
    connection attempts. *)
Fixpoint stream_loop (fuel : nat) (st : StreamLoop)
  : M (option StreamLoop) :=
  if is_running st && (retry_count st <? max_retries)%nat
  then
    match fuel with
    | O => ret None
    | S fuel' => st' <- connect_once st ;; stream_loop fuel' st'
    end
  else ret (Some st).

(** [connect_and_stream], entered with [self.is_running = running]. *)
Definition connect_and_stream (fuel : nat) (running : bool)
  : M (option StreamLoop) :=
  stream_loop fuel {| is_running := running; retry_count := 0;
                      attempt := 0 |}.
End ConnectAndStream.

(** What every step of the collectors keeps of a world: the requests
    issued (for the live path), the unique constraint, the rows of other
    symbols, the fixed offset and the keys stored. *)
Definition kept (self : Collector) (w w' : World) : Prop :=
  requests w' = requests w /\
  (unique_keys (table w) -> unique_keys (table w')) /\
  filter (foreign self) (table w') = filter (foreign self) (table w) /\
  (Forall offset_ok (table w) -> Forall offset_ok (table w')) /\
  incl (map key (table w)) (map key (table w')).


(** A request of the collector for a page of the range that starts at
    [start_time] and ends at [end_time]. *)
Definition page_of_range (self : Collector) (start_time end_time : datetime)
  (r : request) : Prop :=
  req_symbol r = self_symbol self /\
  req_interval r = self_interval self /\
  limit r = 1000 /\
  end_str r = timestamp_ms end_time /\
  timestamp_ms start_time <= start_str r.


(** ** fetch_and_save_current_kline (collectors/realtime_collector.py) *)

Section CurrentKline.
Variable E : Env.
Variable self : Collector.

(** [fetch_and_save_current_kline], on the outcome [get_klines] of
    [self.client.get_klines(symbol, interval, limit=2)].  The result is
    [Some True], [Some False], or [None] where the function falls off its
    end.  [klines[-2]] is the second element of the reversed list. *)
Definition fetch_and_save_current_kline (get_klines : result (list kline))
  : M (option bool) :=
  try_except
    (klines <- (fun w => (get_klines, w)) ;;
     match rev klines with
     | _ :: closed_kline :: _ =>
         get_session (fun n session =>
           let ohlcv :=
             float_row self (k_open_time closed_kline) (k_open closed_kline)
               (k_high closed_kline) (k_low closed_kline)
               (k_close closed_kline) (k_volume closed_kline) in
           let turkey_time := timestamp_turkey ohlcv in
           existing <-
             query E n session
               (query_first turkey_time (self_symbol self)
                  (self_interval self)) ;;
           commit n
             (match existing with
              | Some _ =>
                  {| loaded :=
                       update_first turkey_time (self_symbol self)
                         (self_interval self) ohlcv (loaded session);
                     pending := pending session |}
              | None =>
                  {| loaded := loaded session;
                     pending := pending session ++ [ohlcv] |}
              end)) ;;;
         ret (Some true)
     | _ => ret None
     end)
    (fun e => logger ERROR "Error fetching current kline" ;;; ret (Some false)).
End CurrentKline.

(** The row the live paths build from a REST kline. *)
Definition kline_float_row (self : Collector) (k : kline) : OHLCVData :=
  float_row self (k_open_time k) (k_open k) (k_high k) (k_low k) (k_close k)
    (k_volume k).

(** ** The administrative scripts (scripts/cleanup_database.py) and
       [test_connection] (database/connection.py) *)

(** [str.lower()] on the ASCII letters; other bytes are kept, which
    decides membership in [['yes', 'y']] as Python does. *)
Definition ascii_lower (c : Ascii.ascii) : Ascii.ascii :=
  let n := Ascii.nat_of_ascii c in
  if (65 <=? n)%nat && (n <=? 90)%nat then Ascii.ascii_of_nat (n + 32) else c.

Fixpoint lower (s : string) : string :=
  match s with
  | EmptyString => EmptyString
  | String c rest => String (ascii_lower c) (lower rest)
  end.

(** [response.lower() in ['yes', 'y']]. *)
Definition says_yes (response : string) : bool :=
  String.eqb (lower response) "yes" || String.eqb (lower response) "y".

Section Scripts.
Variable E : Env.

(** [db.test_connection()]: [SELECT 1] in a session of its own. *)
Definition test_connection : M bool :=
  try_except
    (get_session (fun n session => query E n session (fun _ => tt)) ;;;
     ret true)
    (fun e => logger ERROR "Database connection test failed" ;;; ret false).

(** [session.query(OHLCVData).filter(p).delete()] in session [n]: the
    number of rows deleted and the session without them. *)
Definition bulk_delete (n : nat) (session : Session)
  (p : OHLCVData -> bool) : M (nat * Session) :=
  if db_down E n then raise OperationalError
  else ret (List.length (filter p (loaded session)),
            {| loaded := filter (fun r => negb (p r)) (loaded session);
               pending := pending session |}).

(** The common body of [cleanup_database] and [cleanup_specific_symbol]:
    [p] selects the rows to delete, [confirm] is the [--yes] flag and
    [response] what the user types at the prompt (read only when
    [confirm] is false). *)
Definition cleanup (p : OHLCVData -> bool) (confirm : bool)
  (response : string) : M bool :=
  try_except
    (ok <- test_connection ;;
     if negb ok
     then logger ERROR "Database connection failed!" ;;; ret false
     else
       total_records <-
         get_session (fun n session =>
           query E n session (fun rows => List.length (filter p rows))) ;;
       if (total_records =? 0)%nat then ret true
       else if negb confirm && negb (says_yes response) then ret false
       else
         get_session (fun n session =>
           deleted <- bulk_delete n session p ;;
           commit n (snd deleted)) ;;;
         ret true)
    (fun e => logger ERROR "Error during cleanup" ;;; ret false).

(** [cleanup_database(confirm)]. *)
Definition cleanup_database (confirm : bool) (response : string) : M bool :=
  cleanup (fun _ => true) confirm response.

(** [cleanup_specific_symbol(symbol, confirm)]. *)
Definition cleanup_specific_symbol (sym : string) (confirm : bool)
  (response : string) : M bool :=
  cleanup (fun r => String.eqb (symbol r) sym) confirm response.
End Scripts.

(** ** Config (utils/config.py) *)

(** [s.split(sep)] for a one-character separator. *)
Fixpoint split (sep : Ascii.ascii) (s : string) : list string :=
  match s with
  | EmptyString => [EmptyString]
  | String c rest =>
      match split sep rest with
      | [] => []
      | piece :: pieces =>
          if Ascii.eqb c sep then EmptyString :: piece :: pieces
          else String c piece :: pieces
      end
  end.

(** The outcome of [Config.validate()]: [True], or ValueError with the
    errors collected. *)
Inductive validation :=
| Valid
| ValueError (errors : list string).

(** [Config.validate] on [cls.SYMBOLS] and [cls.DATABASE_URL]. *)
Definition validate (SYMBOLS : list string) (DATABASE_URL : string)
  : validation :=
  let errors := [] in
  let errors :=
    match SYMBOLS with
    | [] => errors ++ ["SYMBOLS is required"]
    | _ => errors
    end in
  let errors :=
    match DATABASE_URL with
    | EmptyString => errors ++ ["DATABASE_URL is required"]
    | _ => errors
    end in
  match errors with
  | [] => Valid
  | _ => ValueError errors
  end.

(** [Config.SYMBOLS] as computed from the environment value:
    [os.getenv('SYMBOLS', ...).split(',')]; the comma is character 44. *)
Definition config_symbols (env_SYMBOLS : string) : list string :=
  split (Ascii.ascii_of_nat 44) env_SYMBOLS.


(** ** An exchange that answers completely

    The REST endpoint as documented: the candles of the requested
    interval whose open time lies in the window [[startTime, endTime]],
    oldest first, at most [limit] of them.  For five-minute candles the
    open times are the multiples of 300000 ms.  The numbers of every
    candle are such as the [Numeric(20, 8)] columns accept. *)

(** [n] consecutive five-minute open times from [first]. *)
Fixpoint grid (n : nat) (first : Z) : list Z :=
  match n with
  | O => []
  | S n' => first :: grid n' (first + 300000)
  end.

(** The open times a complete answer to request [r] carries. *)
Definition window_opens (r : request) : list Z :=
  let first := (start_str r + 299999) / 300000 * 300000 in
  grid (Z.to_nat (Z.min (limit r) ((end_str r - first) / 300000 + 1))) first.

Definition complete_exchange (E : Env) : Prop :=
  forall n r,
    exists page,
      binance E n r = Ok page /\
      map k_open_time page = window_opens r /\
      Forall (fun k => k_close_time k = k_open_time k + 299999) page /\
      Forall (fun k => kline_fits k = true) page.

(** The candles a fetch of [[start_time, end_time)] is to store: open time
    [b] ms on the five-minute grid, inside the range, closed by [now0]. *)
Definition wanted (start_time end_time now0 : datetime) (b : Z) : Prop :=
  b mod 300000 = 0 /\
  start_time <= b * 1000 /\
  b * 1000 < end_time /\
  (b + 299999) * 1000 <= now0.

(** The candle opening at [b] ms is stored for the collector. *)
Definition stored (self : Collector) (rows : list OHLCVData) (b : Z) : Prop :=
  In (fromtimestamp_ms b + timedelta.hours 3, self_symbol self,
      self_interval self) (map key rows).

(** The invariant of the loop of [fetch_range] against a complete
    exchange: the cursor is not negative, every wanted candle before the
    cursor is stored, and the passes left suffice for what remains. *)
Definition range_inv (self : Collector)
  (start_time end_time now0 : datetime) (st : RangeLoop) (w : World)
  : Prop :=
  0 <= current_start st /\
  (forall b, wanted start_time end_time now0 b ->
             b * 1000 < current_start st -> stored self (table w) b) /\
  (current_start st < end_time ->
   timestamp_ms end_time - timestamp_ms (current_start st)
   < (500 - Z.of_nat (iteration st)) * 300000000).

(** * Properties *)

(** ** The monad *)

Lemma bind_ret_r {A} (m : M A) w : bind m ret w = m w.
Proof. unfold bind, ret. destruct (m w) as [[a | e] w']; reflexivity. Qed.

(** ** Rows and keys *)

Lemma matches_spec ts sym tf r :
  matches ts sym tf r = true <->
  timestamp_turkey r = ts /\ symbol r = sym /\ timeframe r = tf.
Proof.
  unfold matches. rewrite !andb_true_iff, Z.eqb_eq, !String.eqb_eq. tauto.
Qed.

Lemma query_first_None_filter ts sym tf rows :
  query_first ts sym tf rows = None ->
  filter (matches ts sym tf) rows = [].
Proof.
  unfold query_first. induction rows as [|r rows IH]; simpl; auto.
  destruct (matches ts sym tf r); [discriminate | exact IH].
Qed.

Lemma query_first_app_None ts sym tf rows more :
  query_first ts sym tf rows = None ->
  query_first ts sym tf (rows ++ more) = query_first ts sym tf more.
Proof.
  unfold query_first. induction rows as [|r rows IH]; simpl; auto.
  destruct (matches ts sym tf r); [discriminate | exact IH].
Qed.

Lemma update_first_app_None ts sym tf new rows more :
  query_first ts sym tf rows = None ->
  update_first ts sym tf new (rows ++ more)
  = rows ++ update_first ts sym tf new more.
Proof.
  unfold query_first. induction rows as [|r rows IH]; simpl; auto.
  destruct (matches ts sym tf r); [discriminate |].
  intros H. rewrite IH by exact H. reflexivity.
Qed.

(** Overwriting a row under its own key with [new] leaves exactly [new]. *)
Lemma update_first_hit ts sym tf new r rest :
  matches ts sym tf r = true ->
  timestamp_turkey new = ts -> symbol new = sym -> timeframe new = tf ->
  update_first ts sym tf new (r :: rest) = new :: rest.
Proof.
  intros Hm Ht Hs Hf. simpl. rewrite Hm.
  apply matches_spec in Hm. destruct Hm as (H1 & H2 & H3).
  rewrite H1, H2, H3, <- Ht, <- Hs, <- Hf. destruct new; reflexivity.
Qed.

Lemma query_first_update_first ts sym tf new rows r :
  query_first ts sym tf rows = Some r ->
  timestamp_turkey new = ts -> symbol new = sym -> timeframe new = tf ->
  query_first ts sym tf (update_first ts sym tf new rows) = Some new.
Proof.
  unfold query_first. intros H Ht Hs Hf.
  induction rows as [|r0 rows IH]; simpl in *; [discriminate |].
  destruct (matches ts sym tf r0) eqn:Hm.
  - assert (Hn : matches ts sym tf new = true) by (apply matches_spec; auto).
    apply matches_spec in Hm. destruct Hm as (H1 & H2 & H3).
    rewrite H1, H2, H3, <- Ht, <- Hs, <- Hf.
    replace {| timestamp_utc := timestamp_utc new;
               timestamp_turkey := timestamp_turkey new;
               symbol := symbol new; timeframe := timeframe new;
               open := open new; high := high new; low := low new;
               close := close new; volume := volume new |}
      with new by (destruct new; reflexivity).
    simpl. rewrite Ht, Hs, Hf, Hn. reflexivity.
  - simpl. rewrite Hm. apply IH. exact H.
Qed.

(** ** The column type *)

(** [repr] on some floats: 0.1, 0.3, 42000.0, 1234567890.1234567 (the
    float of "1234567890.12345678"), 9007199254740992.0 (the float of
    2^53 + 1) and the least positive float 5e-324. *)
Lemma float_repr_examples :
  float_repr 7205759403792794 (-56) = (1, -1) /\
  float_repr 5404319552844595 (-54) = (3, -1) /\
  float_repr 5772436045824000 (-37) = (42, 3) /\
  float_repr 5178153039816375 (-22) = (12345678901234567, -7) /\
  float_repr 4503599627370496 1 = (9007199254740992, 0) /\
  float_repr 1 (-1074) = (5, -324).
Proof. repeat split; vm_compute; reflexivity. Qed.

(** What [Numeric(20, 8)] keeps: a ninth decimal is rounded, half away
    from zero; 999999999999.99999999 is the largest value kept;
    1000000000000 and an infinite float are refused. *)
Lemma numeric_units_examples :
  numeric_units (Str (mkDecimal 123456785 9)) = Some 12345679 /\
  numeric_units (Str (mkDecimal (-123456785) 9)) = Some (-12345679) /\
  numeric_units (Str (mkDecimal 99999999999999999999 8))
  = Some 99999999999999999999 /\
  numeric_units (Str (mkDecimal 1000000000000 0)) = None /\
  numeric_units (Float (float_of_decimal (mkDecimal 1000000000000 0)))
  = None /\
  numeric_units (Float (float_of_decimal (mkDecimal 1 400))) = Some 0 /\
  numeric_units (Float (float_of_decimal (mkDecimal 1 0)))
  = Some 100000000 /\
  float_of_decimal (mkDecimal (10 ^ 400) 0) = Infinity false /\
  numeric_units (Float (Infinity false)) = None.
Proof. repeat split; vm_compute; reflexivity. Qed.

(** A decimal with at most 8 places that the column accepts is kept as it
    is. *)
Lemma numeric_value_exact d :
  (scale d <= 8)%nat ->
  fits (Str d) = true ->
  exists q, numeric_value (Str d) = Some q /\ Qeq q (decimal_value d).
Proof.
  intros Hs Hfit. unfold fits, numeric_value in *.
  destruct (numeric_units (Str d)) as [u |] eqn:Hu; [| discriminate].
  exists (u # 100000000). split; [reflexivity |].
  unfold numeric_units, in_numeric_20_8 in Hu.
  destruct (_ <? _); [| discriminate]. injection Hu as <-.
  unfold decimal_value, Qeq. cbn [Qnum Qden].
  set (s := Z.of_nat (scale d)).
  assert (Hs' : 0 <= s <= 8) by (unfold s; lia).
  assert (Hp : 0 < 10 ^ s) by (apply Z.pow_pos_nonneg; lia).
  rewrite Z2Pos.id by exact Hp.
  assert (H8 : 10 ^ 8 = 10 ^ (8 - s) * 10 ^ s)
    by (rewrite <- Z.pow_add_r by lia; f_equal; lia).
  assert (Hr : round_half_up (Z.abs (unscaled d) * 10 ^ 8) (10 ^ s)
               = Z.abs (unscaled d) * 10 ^ (8 - s)).
  { unfold round_half_up. rewrite H8.
    set (m := Z.abs (unscaled d) * 10 ^ (8 - s)).
    replace (2 * (Z.abs (unscaled d) * (10 ^ (8 - s) * 10 ^ s)) + 10 ^ s)
      with (10 ^ s + m * (2 * 10 ^ s)) by (unfold m; ring).
    rewrite Z.div_add by lia.
    rewrite Z.div_small by lia. reflexivity. }
  change (Z.pow_pos 10 8) with (10 ^ 8). rewrite Hr.
  assert (Hsgn : Z.sgn (unscaled d) * Z.abs (unscaled d) = unscaled d)
    by (destruct (unscaled d); reflexivity).
  rewrite Z.mul_assoc, Hsgn.
  change 100000000 with (10 ^ 8). rewrite H8. ring.
Qed.

(** ** The flush of a session *)

Lemma numeric_eqb_refl x : numeric_eqb x x = true.
Proof.
  destruct x as [s | [m e | b]]; simpl.
  - unfold decimal_eqb. rewrite Z.eqb_refl, Nat.eqb_refl. reflexivity.
  - rewrite !Z.eqb_refl. reflexivity.
  - apply Bool.eqb_reflx.
Qed.

Lemma row_eqb_refl r : row_eqb r r = true.
Proof.
  unfold row_eqb.
  rewrite !Z.eqb_refl, !String.eqb_refl, !numeric_eqb_refl. reflexivity.
Qed.

(** A row of the committed table is not a written row. *)
Lemma existsb_row_eqb r committed :
  In r committed -> existsb (row_eqb r) committed = true.
Proof.
  intros H. apply existsb_exists. exists r. split; [exact H |].
  apply row_eqb_refl.
Qed.

(** The UPDATEs of a flush pass when every loaded row is a committed row
    or fits its columns. *)
Lemma written_storable committed rows :
  Forall (fun r => In r committed \/ storable r = true) rows ->
  forallb storable (written committed rows) = true.
Proof.
  intros H. unfold written. apply forallb_forall. intros r Hr.
  apply filter_In in Hr. destruct Hr as [Hin Hw].
  rewrite Forall_forall in H. destruct (H r Hin) as [Hc | Hs]; [| exact Hs].
  rewrite (existsb_row_eqb _ _ Hc) in Hw. discriminate.
Qed.

Lemma written_committed committed :
  forallb storable (written committed committed) = true.
Proof.
  apply written_storable, Forall_forall. intros r Hr. left. exact Hr.
Qed.

(** The INSERTs of a flush pass exactly when every new row fits its
    columns and none repeats a key. *)
Lemma insert_error_None rows news :
  insert_error rows news = None <->
  forallb storable news = true /\ violates_unique rows news = false.
Proof.
  revert rows. induction news as [|n news IH]; intros rows.
  - simpl. tauto.
  - cbn [insert_error forallb violates_unique].
    destruct (storable n); cbn [negb andb].
    + destruct (existsb _ rows); cbn [orb].
      * split; [discriminate | intros [_ H]; discriminate].
      * apply IH.
    + split; [discriminate | intros [H _]; discriminate].
Qed.

(** An error of the INSERTs is one of two. *)
Lemma insert_error_cases rows news e :
  insert_error rows news = Some e -> e = DataError \/ e = IntegrityError.
Proof.
  revert rows. induction news as [|n news IH]; intros rows; simpl;
    [discriminate |].
  destruct (storable n); cbn [negb].
  - destruct (existsb _ rows); [| apply IH].
    intros H. injection H as <-. right. reflexivity.
  - intros H. injection H as <-. left. reflexivity.
Qed.

Lemma flush_error_cases committed s e :
  flush_error committed s = Some e -> e = DataError \/ e = IntegrityError.
Proof.
  unfold flush_error. destruct (forallb _ _).
  - apply insert_error_cases.
  - intros H. injection H as <-. left. reflexivity.
Qed.

(** A flush that passes has inserted no repeated key. *)
Lemma flush_error_unique committed s :
  flush_error committed s = None ->
  violates_unique (loaded s) (pending s) = false.
Proof.
  unfold flush_error. destruct (forallb _ _); [| discriminate].
  intros H. apply insert_error_None in H. tauto.
Qed.

(** A session that has written nothing flushes without error. *)
Lemma flush_error_clean committed :
  flush_error committed {| loaded := committed; pending := [] |} = None.
Proof.
  unfold flush_error. cbn [loaded pending].
  rewrite written_committed. reflexivity.
Qed.

(** A session that has only deleted rows flushes without error. *)
Lemma flush_error_deleted committed (f : OHLCVData -> bool) :
  flush_error committed {| loaded := filter f committed; pending := [] |}
  = None.
Proof.
  unfold flush_error. cbn [loaded pending].
  rewrite written_storable; [reflexivity |].
  apply Forall_forall. intros r Hr. left.
  apply filter_In in Hr. tauto.
Qed.

(** ** Closed candles only *)

Lemma save_kline_open E self n t st k w :
  is_closed t k = false ->
  save_kline E self n t st k w
  = (Ok {| sess := sess st; saved_count := saved_count st;
           skipped_count := skipped_count st;
           open_candle_count := S (open_candle_count st) |}, w).
Proof.
  unfold is_closed, save_kline. intros H.
  rewrite Z.ltb_antisym, H. reflexivity.
Qed.

Lemma save_kline_closed E self n t st k w :
  is_closed t k = true ->
  save_kline E self n t st k w
  = if db_down E n then (Raise OperationalError, w)
    else
      let ohlcv := from_binance_kline k (self_symbol self) (self_interval self) in
      match query_first (timestamp_turkey ohlcv) (symbol ohlcv)
              (timeframe ohlcv) (loaded (sess st)) with
      | Some _ =>
          (Ok {| sess :=
                   {| loaded :=
                        update_first (timestamp_turkey ohlcv) (symbol ohlcv)
                          (timeframe ohlcv) ohlcv (loaded (sess st));
                      pending := pending (sess st) |};
                 saved_count := saved_count st;
                 skipped_count := S (skipped_count st);
                 open_candle_count := open_candle_count st |}, w)
      | None =>
          (Ok {| sess :=
                   {| loaded := loaded (sess st);
                      pending := pending (sess st) ++ [ohlcv] |};
                 saved_count := S (saved_count st);
                 skipped_count := skipped_count st;
                 open_candle_count := open_candle_count st |}, w)
      end.
Proof.
  unfold is_closed, save_kline. intros H.
  rewrite Z.ltb_antisym, H. simpl. unfold bind, query.
  destruct (db_down E n); [reflexivity |]. unfold ret. simpl.
  destruct (query_first _ _ _ _); reflexivity.
Qed.

Lemma for_each_save_filter E self n t klines :
  forall st st' w,
    sess st = sess st' -> saved_count st = saved_count st' ->
    same_outcome
      (for_each (save_kline E self n t) klines st w)
      (for_each (save_kline E self n t) (filter (is_closed t) klines) st' w).
Proof.
  induction klines as [|k klines IH]; intros st st' w Hs Hc.
  - simpl. unfold ret, same_outcome. simpl. auto.
  - cbn [filter]. destruct (is_closed t k) eqn:Hk.
    + cbn [for_each]. unfold bind.
      rewrite !(save_kline_closed _ _ _ _ _ _ _ Hk).
      destruct (db_down E n).
      * unfold same_outcome. simpl. auto.
      * cbv zeta. rewrite <- Hs.
        destruct (query_first _ _ _ _); apply IH; simpl; congruence.
    + cbn [for_each]. unfold bind.
      rewrite (save_kline_open _ _ _ _ _ _ _ Hk).
      apply IH; simpl; assumption.
Qed.

Lemma save_to_database_unfold E self klines w :
  save_to_database E self klines w
  = finish_save (sessions w)
      (for_each (save_kline E self (sessions w) (clock E (clock_reads w)))
         klines
         {| sess := {| loaded := table w; pending := [] |};
            saved_count := 0; skipped_count := 0; open_candle_count := 0 |}
         {| table := table w; clock_reads := S (clock_reads w);
            requests := requests w; sessions := S (sessions w);
            log := log w |}).
Proof.
  unfold save_to_database, get_session, begin_session, now, finish_save.
  unfold bind at 1. unfold bind at 1. simpl.
  unfold bind at 1. unfold try_except at 1. unfold bind at 1.
  destruct (for_each _ _ _ _) as [[st | e] w1]; simpl.
  - unfold bind, try_except, commit.
    destruct (flush_error _ _); simpl.
    + unfold with_log. simpl. rewrite <- app_assoc. reflexivity.
    + reflexivity.
  - reflexivity.
Qed.

Lemma finish_save_same n r1 r2 :
  same_outcome r1 r2 -> finish_save n r1 = finish_save n r2.
Proof.
  destruct r1 as [[a | e1] w1], r2 as [[b | e2] w2];
    unfold same_outcome; simpl; intros [Hw H]; subst; try contradiction.
  - destruct H as [Hs Hc]. rewrite Hs, Hc. reflexivity.
  - reflexivity.
Qed.

Lemma save_to_database_filter E self klines w :
  save_to_database E self klines w
  = save_to_database E self
      (filter (is_closed (clock E (clock_reads w))) klines) w.
Proof.
  rewrite !save_to_database_unfold. apply finish_save_same.
  apply for_each_save_filter; reflexivity.
Qed.

Lemma save_kline_to_database_open E self msg w :
  ws_x (ws_k msg) = false ->
  save_kline_to_database E self msg w = (Ok false, w).
Proof.
  intros H. unfold save_kline_to_database, try_except. rewrite H. reflexivity.
Qed.

Lemma handle_message_open E self msg w :
  ws_x (ws_k msg) = false ->
  handle_message E self (Some msg) w = (Ok tt, w).
Proof.
  intros H. unfold handle_message, try_except. rewrite H.
  destruct (ws_e msg) as [e|]; [destruct (String.eqb e "kline") |];
    reflexivity.
Qed.

(** C3. Closed-only: a page saved by the Range Fetcher has exactly the
    effect and result of the same page with every candle removed whose close
    time is strictly after the clock reading the save takes
    ([candle_close_time > current_time_utc]), so such a candle is never
    stored; and a stream message whose closed flag is false leaves the
    world, hence the table, untouched, both in [save_kline_to_database] and
    in [handle_message]. *)
Theorem C3_closed_only E self w :
  (forall klines,
      save_to_database E self klines w
      = save_to_database E self
          (filter (is_closed (clock E (clock_reads w))) klines) w) /\
  (forall klines,
      Forall (fun k => clock E (clock_reads w)
                       < fromtimestamp_ms (k_close_time k)) klines ->
      exists w', save_to_database E self klines w = (Ok 0%nat, w') /\
                 table w' = table w) /\
  (forall msg,
      ws_x (ws_k msg) = false ->
      save_kline_to_database E self msg w = (Ok false, w) /\
      handle_message E self (Some msg) w = (Ok tt, w)).
Proof.
  split; [| split].
  - intros klines. apply save_to_database_filter.
  - intros klines Hall.
    rewrite save_to_database_filter.
    replace (filter _ klines) with (@nil kline).
    + rewrite save_to_database_unfold. simpl. unfold ret. simpl.
      rewrite flush_error_clean.
      eexists. split; [reflexivity |]. simpl. apply app_nil_r.
    + symmetry. induction Hall as [|k l Hk _ IH]; simpl; auto.
      unfold is_closed. destruct (Z.leb_spec (fromtimestamp_ms (k_close_time k))
                                    (clock E (clock_reads w))); [lia | exact IH].
  - intros msg H. split.
    + apply save_kline_to_database_open, H.
    + apply handle_message_open, H.
Qed.

(** ** Idempotent upsert *)

Lemma query_first_None_existsb ts sym tf rows :
  query_first ts sym tf rows = None ->
  existsb (matches ts sym tf) rows = false.
Proof.
  unfold query_first. induction rows as [|r rows IH]; simpl; auto.
  destruct (matches ts sym tf r); [discriminate | exact IH].
Qed.

(** The rows of a session after an attribute write on one of them. *)
Lemma update_first_written ts sym tf new committed rows :
  storable new = true ->
  Forall (fun r => In r committed \/ storable r = true) rows ->
  Forall (fun r => In r committed \/ storable r = true)
    (update_first ts sym tf new rows).
Proof.
  intros Hs H. induction H as [|r rows Hr H IH]; simpl; [constructor |].
  destruct (matches ts sym tf r).
  - constructor; [right; exact Hs | exact H].
  - constructor; [exact Hr | exact IH].
Qed.

Lemma committed_rows committed :
  Forall (fun r : OHLCVData => In r committed \/ storable r = true) committed.
Proof. apply Forall_forall. intros r Hr. left. exact Hr. Qed.

(** One closed kline, database up, key absent: the row is inserted when
    its numbers fit the columns. *)
Lemma save_to_database_insert E self k w :
  db_down E (sessions w) = false ->
  is_closed (clock E (clock_reads w)) k = true ->
  kline_fits k = true ->
  query_first (boundary k) (self_symbol self) (self_interval self) (table w)
  = None ->
  save_to_database E self [k] w
  = (Ok 1%nat,
     {| table := table w
                 ++ [from_binance_kline k (self_symbol self) (self_interval self)];
        clock_reads := S (clock_reads w); requests := requests w;
        sessions := S (sessions w); log := log w |}).
Proof.
  intros Hup Hk Hfit Hq. rewrite save_to_database_unfold.
  cbn [for_each]. unfold bind. rewrite (save_kline_closed _ _ _ _ _ _ _ Hk).
  rewrite Hup. cbv zeta. cbn [sess loaded pending].
  change (timestamp_turkey (from_binance_kline k (self_symbol self)
                              (self_interval self))) with (boundary k).
  cbn [symbol timeframe from_binance_kline]. rewrite Hq.
  unfold ret, finish_save. cbn [sess loaded pending saved_count app table].
  unfold flush_error. cbn [loaded pending].
  rewrite written_committed. cbn [insert_error].
  change (storable (from_binance_kline k (self_symbol self)
                      (self_interval self))) with (kline_fits k).
  rewrite Hfit. cbn [negb].
  change (timestamp_turkey (from_binance_kline k (self_symbol self)
                              (self_interval self))) with (boundary k).
  cbn [symbol timeframe from_binance_kline].
  rewrite (query_first_None_existsb _ _ _ _ Hq). reflexivity.
Qed.

(** One closed kline, database up, key present: the row is overwritten
    when the numbers fit the columns. *)
Lemma save_to_database_update E self k w r :
  db_down E (sessions w) = false ->
  is_closed (clock E (clock_reads w)) k = true ->
  kline_fits k = true ->
  query_first (boundary k) (self_symbol self) (self_interval self) (table w)
  = Some r ->
  save_to_database E self [k] w
  = (Ok 0%nat,
     {| table :=
          update_first (boundary k) (self_symbol self) (self_interval self)
            (from_binance_kline k (self_symbol self) (self_interval self))
            (table w);
        clock_reads := S (clock_reads w); requests := requests w;
        sessions := S (sessions w); log := log w |}).
Proof.
  intros Hup Hk Hfit Hq. rewrite save_to_database_unfold.
  cbn [for_each]. unfold bind. rewrite (save_kline_closed _ _ _ _ _ _ _ Hk).
  rewrite Hup. cbv zeta. cbn [sess loaded pending].
  change (timestamp_turkey (from_binance_kline k (self_symbol self)
                              (self_interval self))) with (boundary k).
  cbn [symbol timeframe from_binance_kline]. rewrite Hq.
  unfold ret, finish_save. cbn [sess loaded pending saved_count table].
  unfold flush_error. cbn [loaded pending insert_error].
  rewrite written_storable, app_nil_r; [reflexivity |].
  apply update_first_written; [exact Hfit | apply committed_rows].
Qed.

(** A closed candle with a number the columns refuse, database up, key
    absent: the commit fails, both handlers log, and nothing is stored. *)
Lemma save_to_database_refused E self k w :
  db_down E (sessions w) = false ->
  is_closed (clock E (clock_reads w)) k = true ->
  kline_fits k = false ->
  query_first (boundary k) (self_symbol self) (self_interval self) (table w)
  = None ->
  save_to_database E self [k] w
  = (Raise DataError,
     {| table := table w;
        clock_reads := S (clock_reads w); requests := requests w;
        sessions := S (sessions w);
        log := log w ++ [(ERROR, "Error committing to database");
                         (ERROR, "Database session error")] |}).
Proof.
  intros Hup Hk Hfit Hq. rewrite save_to_database_unfold.
  cbn [for_each]. unfold bind. rewrite (save_kline_closed _ _ _ _ _ _ _ Hk).
  rewrite Hup. cbv zeta. cbn [sess loaded pending].
  change (timestamp_turkey (from_binance_kline k (self_symbol self)
                              (self_interval self))) with (boundary k).
  cbn [symbol timeframe from_binance_kline]. rewrite Hq.
  unfold ret, finish_save. cbn [sess loaded pending saved_count app table].
  unfold flush_error. cbn [loaded pending].
  rewrite written_committed. cbn [insert_error].
  change (storable (from_binance_kline k (self_symbol self)
                      (self_interval self))) with (kline_fits k).
  rewrite Hfit. reflexivity.
Qed.

(** The claim of C2 fails for a candle the table cannot hold: a closed
    candle of volume 1000000000000.00000000 (13 digits before the point),
    key absent and database reachable.  The first save raises DataError,
    reports no count, and stores no row. *)
Lemma C2_refused_candle :
  let E := Scenario.healthy (Scenario.T0 + timedelta.hours 1) in
  let p := Scenario.price 4200000000000 in
  let k := mkKline (Scenario.T0 / 1000) p p p p
             (mkDecimal 100000000000000000000 8)
             (Scenario.T0 / 1000 + 299999) in
  is_closed (clock E 0) k = true /\
  fst (save_to_database E Scenario.btc [k] (Scenario.fresh []))
  = Raise DataError /\
  table (snd (save_to_database E Scenario.btc [k] (Scenario.fresh []))) = [] /\
  ~ (exists w1, save_to_database E Scenario.btc [k] (Scenario.fresh [])
                = (Ok 1%nat, w1)).
Proof.
  cbv zeta. split; [reflexivity |].
  assert (H : save_to_database
                (Scenario.healthy (Scenario.T0 + timedelta.hours 1))
                Scenario.btc
                [mkKline (Scenario.T0 / 1000) (Scenario.price 4200000000000)
                   (Scenario.price 4200000000000)
                   (Scenario.price 4200000000000)
                   (Scenario.price 4200000000000)
                   (mkDecimal 100000000000000000000 8)
                   (Scenario.T0 / 1000 + 299999)] (Scenario.fresh [])
              = (Raise DataError,
                 {| table := []; clock_reads := 1; requests := [];
                    sessions := 1;
                    log := [(ERROR, "Error committing to database");
                            (ERROR, "Database session error")] |}))
    by (vm_compute; reflexivity).
  rewrite H. split; [reflexivity |]. split; [reflexivity |].
  intros [w1 Hw]. discriminate.
Qed.

(** C2. Idempotent upsert, for candles the table can hold: saving a
    closed candle under a key the table does not yet hold, then saving a
    candle with the same symbol, interval and boundary again (database
    reachable both times, the five numbers of each candle accepted by the
    [Numeric(20, 8)] columns), reports 1 new row for the first call and 0
    for the second, and leaves exactly one row under that key, whose
    non-key fields are the second call's: its open time and its five
    numbers as the exchange sent them. *)
Theorem C2_idempotent_upsert E self k1 k2 w :
  k_open_time k1 = k_open_time k2 ->
  query_first (boundary k1) (self_symbol self) (self_interval self) (table w)
  = None ->
  db_down E (sessions w) = false ->
  db_down E (S (sessions w)) = false ->
  is_closed (clock E (clock_reads w)) k1 = true ->
  is_closed (clock E (S (clock_reads w))) k2 = true ->
  kline_fits k1 = true ->
  kline_fits k2 = true ->
  exists w1 w2 r,
    save_to_database E self [k1] w = (Ok 1%nat, w1) /\
    save_to_database E self [k2] w1 = (Ok 0%nat, w2) /\
    filter (matches (boundary k1) (self_symbol self) (self_interval self))
      (table w2) = [r] /\
    count_rows (boundary k1) (self_symbol self) (self_interval self)
      (table w2) = 1%nat /\
    timestamp_utc r = fromtimestamp_ms (k_open_time k2) /\
    open r = Str (k_open k2) /\
    high r = Str (k_high k2) /\
    low r = Str (k_low k2) /\
    close r = Str (k_close k2) /\
    volume r = Str (k_volume k2).
Proof.
  intros Hkey Habsent Hup1 Hup2 Hc1 Hc2 Hfit1 Hfit2.
  assert (Hb : boundary k2 = boundary k1) by (unfold boundary; congruence).
  set (row1 := from_binance_kline k1 (self_symbol self) (self_interval self)).
  set (row2 := from_binance_kline k2 (self_symbol self) (self_interval self)).
  assert (Hm1 : matches (boundary k1) (self_symbol self) (self_interval self)
                  row1 = true) by (apply matches_spec; auto).
  assert (Hm2 : matches (boundary k1) (self_symbol self) (self_interval self)
                  row2 = true)
    by (apply matches_spec; rewrite <- Hb; auto).
  pose proof (save_to_database_insert E self k1 w Hup1 Hc1 Hfit1 Habsent)
    as H1.
  fold row1 in H1.
  match type of H1 with _ = (_, ?x) => set (w1 := x) in * end.
  assert (Hq : query_first (boundary k2) (self_symbol self)
                 (self_interval self) (table w1) = Some row1).
  { rewrite Hb. unfold w1. cbn [table].
    rewrite (query_first_app_None _ _ _ _ _ Habsent).
    unfold query_first. simpl. rewrite Hm1. reflexivity. }
  pose proof (save_to_database_update E self k2 w1 row1 Hup2 Hc2 Hfit2 Hq)
    as H2.
  fold row2 in H2. rewrite Hb in H2.
  assert (Ht : update_first (boundary k1) (self_symbol self)
                 (self_interval self) row2 (table w1) = table w ++ [row2]).
  { unfold w1. cbn [table].
    rewrite (update_first_app_None _ _ _ _ _ _ Habsent).
    rewrite (update_first_hit _ _ _ _ _ _ Hm1);
      [reflexivity | rewrite <- Hb; reflexivity | reflexivity | reflexivity]. }
  rewrite Ht in H2.
  assert (Hf : filter (matches (boundary k1) (self_symbol self)
                         (self_interval self)) (table w ++ [row2]) = [row2]).
  { rewrite filter_app, (query_first_None_filter _ _ _ _ Habsent).
    simpl. rewrite Hm2. reflexivity. }
  exists w1. eexists. exists row2.
  split; [exact H1 |]. split; [exact H2 |].
  cbn [table]. unfold count_rows. rewrite Hf.
  repeat (split; [reflexivity |]). reflexivity.
Qed.

(** ** The fetch loop *)

Lemma fetch_historical_klines_eq E self cursor end_time w :
  fetch_historical_klines E self cursor end_time 1000 w
  = match binance E (List.length (requests w))
            (page_request self cursor end_time) with
    | Ok page => (Ok page, with_request w (page_request self cursor end_time))
    | Raise e =>
        (Raise e,
         with_log (with_request w (page_request self cursor end_time))
           [(ERROR, "Error fetching historical data")])
    end.
Proof.
  unfold fetch_historical_klines, try_except, get_historical_klines.
  fold (page_request self cursor end_time).
  destruct (binance E _ _); reflexivity.
Qed.

(** A page request that raises: the cursor is forced one hour on, and the
    loop goes on unless the cursor has reached [end_time]. *)
Lemma fetch_range_body_error E self end_time st w e :
  binance E (List.length (requests w))
    (page_request self (current_start st) end_time) = Raise e ->
  fetch_range_body E self end_time st w
  = (Ok (if end_time <=? current_start st + timedelta.hours 1
         then Break else Continue,
         skipped st (total_saved st)),
     with_log (with_request w (page_request self (current_start st) end_time))
       [(ERROR, "Error fetching historical data");
        (ERROR, "Error fetching range")]).
Proof.
  intros H. unfold fetch_range_body. cbn [current_start iteration total_saved].
  unfold try_except at 1. unfold bind at 1.
  rewrite fetch_historical_klines_eq, H.
  unfold bind, logger, ret, with_log, with_request, skipped. simpl.
  rewrite <- app_assoc.
  destruct (end_time <=? _); reflexivity.
Qed.

Lemma fetch_range_body_empty E self end_time st w :
  binance E (List.length (requests w))
    (page_request self (current_start st) end_time) = Ok [] ->
  fetch_range_body E self end_time st w
  = if Qlt_bool 300 (timedelta.total_seconds (end_time - current_start st))
    then (Ok (Continue, skipped st (total_saved st)),
          with_log
            (with_request w (page_request self (current_start st) end_time))
            [(WARNING, "No klines returned, skipping 1 hour forward")])
    else (Ok (Break,
              {| current_start := current_start st;
                 iteration := S (iteration st);
                 total_saved := total_saved st |}),
          with_request w (page_request self (current_start st) end_time)).
Proof.
  intros H. unfold fetch_range_body. cbn [current_start iteration total_saved].
  unfold try_except at 1. unfold bind at 1.
  rewrite fetch_historical_klines_eq, H.
  destruct (Qlt_bool _ _); reflexivity.
Qed.

Lemma fetch_range_body_page E self end_time st w k page :
  binance E (List.length (requests w))
    (page_request self (current_start st) end_time) = Ok (k :: page) ->
  fetch_range_body E self end_time st w
  = match save_to_database E self (k :: page)
            (with_request w (page_request self (current_start st) end_time))
    with
    | (Ok saved, w') =>
        let total := (total_saved st + saved)%nat in
        let next_start :=
          fromtimestamp_ms (k_open_time (last (k :: page) k))
          + timedelta.minutes 5 in
        if next_start <=? current_start st
        then (Ok (Continue, skipped st total),
              with_log w' [(WARNING, "Time not advancing, forcing skip")])
        else (Ok (Continue,
                  {| current_start := next_start;
                     iteration := S (iteration st);
                     total_saved := total |}), w')
    | (Raise e, w') =>
        (Ok (if end_time <=? current_start st + timedelta.hours 1
             then Break else Continue,
             skipped st (total_saved st)),
         with_log w' [(ERROR, "Error fetching range")])
    end.
Proof.
  intros H. unfold fetch_range_body. cbn [current_start iteration total_saved].
  unfold try_except at 1. unfold bind at 1.
  rewrite fetch_historical_klines_eq, H.
  unfold bind at 1.
  destruct (save_to_database E self (k :: page) _) as [[saved | e] w'].
  - cbv zeta.
    destruct (_ <=? current_start st); reflexivity.
  - unfold bind, logger, ret, with_log, skipped. simpl.
    destruct (end_time <=? _); reflexivity.
Qed.

(** Every pass through the body returns normally, has counted itself, and
    has moved the cursor forward unless it leaves the loop. *)
Lemma fetch_range_body_total E self end_time st w :
  exists c st' w',
    fetch_range_body E self end_time st w = (Ok (c, st'), w') /\
    iteration st' = S (iteration st) /\
    (current_start st < current_start st' \/ c = Break).
Proof.
  destruct (binance E (List.length (requests w))
              (page_request self (current_start st) end_time))
    as [[|k page] | e] eqn:Hb.
  - rewrite (fetch_range_body_empty _ _ _ _ _ Hb).
    destruct (Qlt_bool _ _); eexists _, _, _; (split; [reflexivity |]);
      simpl; split; auto.
    left. unfold timedelta.hours. lia.
  - rewrite (fetch_range_body_page _ _ _ _ _ _ _ Hb).
    destruct (save_to_database _ _ _ _) as [[saved | e] w'].
    + cbv zeta. destruct (Z.leb_spec
        (fromtimestamp_ms (k_open_time (last (k :: page) k))
         + timedelta.minutes 5) (current_start st));
        eexists _, _, _; (split; [reflexivity |]); simpl; split; auto;
        left; unfold timedelta.hours; lia.
    + eexists _, _, _. split; [reflexivity |]. simpl. split; auto.
      left. unfold timedelta.hours. lia.
  - rewrite (fetch_range_body_error _ _ _ _ _ _ Hb).
    eexists _, _, _. split; [reflexivity |]. simpl. split; auto.
    left. unfold timedelta.hours. lia.
Qed.

(** A non-empty page always moves the cursor strictly forward. *)
Lemma fetch_range_body_progress E self end_time st w k page :
  binance E (List.length (requests w))
    (page_request self (current_start st) end_time) = Ok (k :: page) ->
  exists c st' w',
    fetch_range_body E self end_time st w = (Ok (c, st'), w') /\
    current_start st < current_start st'.
Proof.
  intros Hb. rewrite (fetch_range_body_page _ _ _ _ _ _ _ Hb).
  destruct (save_to_database _ _ _ _) as [[saved | e] w'].
  - cbv zeta. destruct (Z.leb_spec
      (fromtimestamp_ms (k_open_time (last (k :: page) k))
       + timedelta.minutes 5) (current_start st));
      eexists _, _, _; (split; [reflexivity |]);
      cbn [current_start skipped]; unfold timedelta.hours; lia.
  - eexists _, _, _. split; [reflexivity |]. cbn [current_start skipped].
    unfold timedelta.hours. lia.
Qed.

(** Enough unrollings run the [while] loop to its end. *)
Lemma while_loop_terminates E self end_time fuel :
  forall st w,
    (iteration st <= max_iterations)%nat ->
    (max_iterations - iteration st <= fuel)%nat ->
    exists st' w',
      while_loop E self fuel end_time st w = (Ok st', w') /\
      while_exec E self end_time st w st' w' /\
      (iteration st' <= max_iterations)%nat.
Proof.
  induction fuel as [|fuel IH]; intros st w Hle Hfuel.
  - exists st, w. split; [reflexivity |]. split; [| exact Hle].
    apply while_exit. unfold loop_guard.
    replace (iteration st <? max_iterations)%nat with false.
    + apply andb_false_r.
    + symmetry. apply Nat.ltb_ge. lia.
  - cbn [while_loop]. destruct (loop_guard end_time st) eqn:Hg.
    + destruct (fetch_range_body_total E self end_time st w)
        as (c & st1 & w1 & Hbody & Hit & _).
      assert (Hlt : (iteration st < max_iterations)%nat).
      { unfold loop_guard in Hg. apply andb_true_iff in Hg.
        apply Nat.ltb_lt. apply Hg. }
      unfold bind. rewrite Hbody. cbn [fst snd].
      destruct c.
      * destruct (IH st1 w1) as (st' & w' & Hrun & Hexec & Hbound);
          [lia | lia |].
        exists st', w'. split; [exact Hrun |]. split; [| exact Hbound].
        eapply while_continue; eauto.
      * exists st1, w1. split; [reflexivity |]. split; [| lia].
        apply while_break; assumption.
    + exists st, w. split; [reflexivity |]. split; [| exact Hle].
      apply while_exit. exact Hg.
Qed.

Lemma fetch_range_terminates E self start_time end_time w :
  exists st' w',
    while_exec E self end_time
      {| current_start := start_time; iteration := 0; total_saved := 0 |}
      w st' w' /\
    (iteration st' <= max_iterations)%nat /\
    fetch_range E self start_time end_time w = (Ok (total_saved st'), w').
Proof.
  destruct (while_loop_terminates E self end_time max_iterations
              {| current_start := start_time; iteration := 0;
                 total_saved := 0 |} w)
    as (st' & w' & Hrun & Hexec & Hbound);
    [cbn [iteration]; lia | cbn [iteration]; lia |].
  exists st', w'. split; [exact Hexec |]. split; [exact Hbound |].
  unfold fetch_range, bind. rewrite Hrun. reflexivity.
Qed.

(** The loop leaves in one state only. *)
Lemma while_exec_deterministic E self end_time st w st1 w1 :
  while_exec E self end_time st w st1 w1 ->
  forall st2 w2,
    while_exec E self end_time st w st2 w2 -> st1 = st2 /\ w1 = w2.
Proof.
  intros H. induction H as [| | ? ? ? ? ? ? ? ? ? IH];
    intros st2 w2 H2; inversion H2; subst; try congruence.
  - split; reflexivity.
  - split; congruence.
  - apply IH. congruence.
Qed.

(** C5. Forced progress: when the exchange answers a page request with a
    non-empty page whose candles all carry timestamps at or before the
    current cursor, the pass returns with a cursor strictly beyond the
    previous one; and for every range the [while] loop of [fetch_range]
    terminates, in one final state only, after at most [max_iterations]
    (500) passes, with the result [fetch_range] returns. *)
Theorem C5_forced_progress E self end_time :
  (forall st w k page,
      binance E (List.length (requests w))
        (page_request self (current_start st) end_time) = Ok (k :: page) ->
      Forall (fun c => fromtimestamp_ms (k_open_time c) <= current_start st)
        (k :: page) ->
      exists c st' w',
        fetch_range_body E self end_time st w = (Ok (c, st'), w') /\
        current_start st < current_start st') /\
  (forall start_time w,
      exists st' w',
        while_exec E self end_time
          {| current_start := start_time; iteration := 0; total_saved := 0 |}
          w st' w' /\
        (iteration st' <= max_iterations)%nat /\
        fetch_range E self start_time end_time w = (Ok (total_saved st'), w') /\
        (forall st2 w2,
            while_exec E self end_time
              {| current_start := start_time; iteration := 0;
                 total_saved := 0 |} w st2 w2 ->
            st2 = st' /\ w2 = w')).
Proof.
  split.
  - intros st w k page Hb _. eapply fetch_range_body_progress; eauto.
  - intros start_time w.
    destruct (fetch_range_terminates E self start_time end_time w)
      as (st' & w' & Hexec & Hbound & Hrun).
    exists st', w'. repeat split; auto;
      eapply while_exec_deterministic; eauto.
Qed.

Lemma fetch_range_returns E self start_time end_time w :
  exists n w', fetch_range E self start_time end_time w = (Ok n, w').
Proof.
  destruct (fetch_range_terminates E self start_time end_time w)
    as (st' & w' & _ & _ & Hrun).
  eauto.
Qed.

(** C6 as stated fails: the only page request of the range raises and the
    forced skip of one hour passes [end_time], yet [fetch_range] returns
    the count 0 normally instead of raising. *)
Lemma C6_error_not_propagated :
  let E := Scenario.api_outage (Scenario.T0 + timedelta.minutes 30) in
  let end_time := Scenario.T0 + timedelta.minutes 30 in
  binance E 0 (page_request Scenario.btc Scenario.T0 end_time)
  = Raise BinanceAPIException /\
  end_time <= Scenario.T0 + timedelta.hours 1 /\
  fst (fetch_range E Scenario.btc Scenario.T0 end_time (Scenario.fresh []))
  = Ok 0%nat /\
  ~ (exists e,
        fst (fetch_range E Scenario.btc Scenario.T0 end_time
               (Scenario.fresh [])) = Raise e).
Proof.
  cbv zeta. split; [reflexivity |]. split; [vm_compute; discriminate |].
  assert (H : fst (fetch_range
                     (Scenario.api_outage
                        (Scenario.T0 + timedelta.minutes 30))
                     Scenario.btc Scenario.T0
                     (Scenario.T0 + timedelta.minutes 30)
                     (Scenario.fresh [])) = Ok 0%nat)
    by (vm_compute; reflexivity).
  split; [exact H |]. intros [e He]. rewrite H in He. discriminate.
Qed.

(** ** The gap reconciler *)

Lemma get_last_record_time_eq E self w :
  get_last_record_time E self w
  = if db_down E (sessions w)
    then (Ok None,
          with_log (opened w)
            [(ERROR, "Database session error");
             (ERROR, "Error getting last record time")])
    else (Ok (max_timestamp_turkey (self_symbol self) (self_interval self)
                (table w)),
          opened w).
Proof.
  unfold get_last_record_time, get_session, begin_session, try_except, bind,
    query, logger, raise, ret, with_log, opened.
  simpl. destruct (db_down E (sessions w)); simpl.
  - rewrite <- app_assoc. reflexivity.
  - reflexivity.
Qed.

Lemma minute_mod_5 t : (minute t mod 5 <? 5) = true.
Proof. apply Z.ltb_lt. apply Z.mod_pos_bound. lia. Qed.

Lemma estimated_missing_eq t l :
  estimated_missing t l = Qmax 0 (estimated_missing_raw t l - 1).
Proof. unfold estimated_missing. rewrite minute_mod_5. reflexivity. Qed.

(** Two whole intervals or more since the last record: the estimate
    reaches one candle. *)
Lemma estimated_missing_ge_1 t l :
  timedelta.minutes 10 <= t - l ->
  Qlt_bool (estimated_missing t l) 1 = false.
Proof.
  intros H. unfold Qlt_bool. apply negb_false_iff. apply Qle_bool_iff.
  rewrite estimated_missing_eq.
  apply Qle_trans with (estimated_missing_raw t l - 1)%Q;
    [| apply Q.le_max_r].
  unfold estimated_missing_raw, timedelta.total_seconds, timedelta.minutes,
    Qle, Qminus, Qplus, Qopp, Qdiv, Qmult, Qinv in *.
  simpl. lia.
Qed.

(** What [backfill_data] does once the latest boundary and the clock are
    read. *)
Lemma backfill_data_unfold E self days w :
  backfill_data E self days w
  = match get_last_record_time E self w with
    | (Ok None, w1) =>
        let t := clock E (clock_reads w1) in
        fetch_range E self (t - timedelta.days days) t (ticked w1)
    | (Ok (Some last), w1) =>
        let t := clock E (clock_reads w1) in
        let last_record_utc := last - timedelta.hours 3 in
        let w2 :=
          if fst (backfill_start_time t last_record_utc days)
          then with_log (ticked w1) [(WARNING, "Last record too old")]
          else ticked w1 in
        if Qlt_bool (estimated_missing t last_record_utc) 1
        then (Ok 0%nat, w2)
        else fetch_range E self
               (snd (backfill_start_time t last_record_utc days)) t w2
    | (Raise e, w1) => (Raise e, w1)
    end.
Proof.
  unfold backfill_data. unfold bind at 1.
  destruct (get_last_record_time E self w) as [[[last|] | e] w1];
    [| | reflexivity].
  - unfold bind at 1. unfold now at 1. cbv zeta.
    fold (ticked w1).
    destruct (backfill_start_time _ _ _) as [too_old start_time].
    cbn [fst snd]. unfold bind at 1.
    destruct too_old.
    + unfold logger at 1. fold (with_log (ticked w1)
                                  [(WARNING, "Last record too old")]).
      destruct (Qlt_bool _ _); [reflexivity | apply bind_ret_r].
    + unfold ret at 1.
      destruct (Qlt_bool _ _); [reflexivity | apply bind_ret_r].
  - unfold bind at 1. unfold now at 1. cbv zeta. fold (ticked w1).
    apply bind_ret_r.
Qed.

Lemma backfill_data_returns E self days w :
  exists n w', backfill_data E self days w = (Ok n, w').
Proof.
  rewrite backfill_data_unfold, get_last_record_time_eq.
  destruct (db_down E (sessions w)).
  - apply fetch_range_returns.
  - destruct (max_timestamp_turkey _ _ _) as [last|].
    + cbv zeta. destruct (Qlt_bool _ _); [eauto | apply fetch_range_returns].
    + apply fetch_range_returns.
Qed.

(** C7 as stated fails: the database is unreachable while
    [get_last_record_time] runs its query, yet the function returns [None]
    instead of raising, and [backfill_data] goes on to issue REST requests
    and returns a count. *)
Lemma C7_storage_error_swallowed :
  let E := Scenario.db_outage (Scenario.T0 + timedelta.minutes 23) in
  let w := Scenario.fresh [Scenario.row_T0] in
  db_down E (sessions w) = true /\
  fst (get_last_record_time E Scenario.btc w) = Ok None /\
  fst (backfill_data E Scenario.btc 1 w) = Ok 286%nat /\
  requests (snd (backfill_data E Scenario.btc 1 w)) <> [] /\
  ~ (exists e, fst (get_last_record_time E Scenario.btc w) = Raise e) /\
  ~ (exists e, fst (backfill_data E Scenario.btc 1 w) = Raise e).
Proof.
  cbv zeta.
  assert (H1 : fst (get_last_record_time
                      (Scenario.db_outage
                         (Scenario.T0 + timedelta.minutes 23))
                      Scenario.btc (Scenario.fresh [Scenario.row_T0]))
               = Ok None) by (vm_compute; reflexivity).
  assert (H2 : fst (backfill_data
                      (Scenario.db_outage
                         (Scenario.T0 + timedelta.minutes 23))
                      Scenario.btc 1 (Scenario.fresh [Scenario.row_T0]))
               = Ok 286%nat) by (vm_compute; reflexivity).
  split; [reflexivity |]. split; [exact H1 |]. split; [exact H2 |].
  split; [vm_compute; discriminate |]. split.
  - intros [e He]. rewrite H1 in He. discriminate.
  - intros [e He]. rewrite H2 in He. discriminate.
Qed.

(** C7, amended. A persistence error raised during the latest-boundary
    query is caught and logged inside [get_last_record_time], which returns
    [None] as it does for an empty table; [backfill_data] then proceeds
    with the bootstrap fetch of [[now - days, now)]; and no invocation of
    [backfill_data] raises: it always returns a count. *)
Theorem C7_query_error_is_logged E self days w :
  db_down E (sessions w) = true ->
  let w1 := with_log (opened w)
              [(ERROR, "Database session error");
               (ERROR, "Error getting last record time")] in
  let t := clock E (clock_reads w) in
  get_last_record_time E self w = (Ok None, w1) /\
  backfill_data E self days w
  = fetch_range E self (t - timedelta.days days) t (ticked w1) /\
  (forall w0, exists n w', backfill_data E self days w0 = (Ok n, w')).
Proof.
  intros Hdown w1 t.
  assert (H : get_last_record_time E self w = (Ok None, w1))
    by (rewrite get_last_record_time_eq, Hdown; reflexivity).
  split; [exact H |]. split.
  - rewrite backfill_data_unfold, H. reflexivity.
  - intros w0. apply backfill_data_returns.
Qed.

Lemma C7_query_error_is_logged_witness :
  fst (get_last_record_time (Scenario.db_outage Scenario.T0) Scenario.btc
         (Scenario.fresh [Scenario.row_T0])) = Ok None.
Proof.
  exact (f_equal fst
           (proj1 (C7_query_error_is_logged
                     (Scenario.db_outage Scenario.T0) Scenario.btc 180
                     (Scenario.fresh [Scenario.row_T0]) eq_refl))).
Defined.

(** C8. Lookback ceiling: when the last stored boundary, taken back to
    native time, is older than [now - days], the start of the range is
    exactly [now - days]; [backfill_data] then either fetches
    [[now - days, now)] or, when less than one whole candle is estimated
    missing, fetches nothing; and with a ceiling of one day or more it
    does fetch [[now - days, now)]. *)
Theorem C8_lookback_ceiling E self days w last_record_time_turkey w1 :
  get_last_record_time E self w = (Ok (Some last_record_time_turkey), w1) ->
  let t := clock E (clock_reads w1) in
  let last_record_utc := last_record_time_turkey - timedelta.hours 3 in
  let w2 := with_log (ticked w1) [(WARNING, "Last record too old")] in
  last_record_utc < t - timedelta.days days ->
  backfill_start_time t last_record_utc days
  = (true, t - timedelta.days days) /\
  backfill_data E self days w
  = (if Qlt_bool (estimated_missing t last_record_utc) 1
     then (Ok 0%nat, w2)
     else fetch_range E self (t - timedelta.days days) t w2) /\
  (1 <= days ->
   backfill_data E self days w
   = fetch_range E self (t - timedelta.days days) t w2).
Proof.
  intros Hlast t last_record_utc w2 Hold.
  assert (Hstart : backfill_start_time t last_record_utc days
                   = (true, t - timedelta.days days)).
  { unfold backfill_start_time.
    destruct (Z.ltb_spec last_record_utc (t - timedelta.days days));
      [reflexivity | lia]. }
  assert (Hrun : backfill_data E self days w
                 = (if Qlt_bool (estimated_missing t last_record_utc) 1
                    then (Ok 0%nat, w2)
                    else fetch_range E self (t - timedelta.days days) t w2)).
  { rewrite backfill_data_unfold, Hlast. cbv zeta.
    fold t. fold last_record_utc. rewrite Hstart. reflexivity. }
  split; [exact Hstart |]. split; [exact Hrun |].
  intros Hdays. rewrite Hrun, estimated_missing_ge_1; [reflexivity |].
  unfold timedelta.minutes, timedelta.days in *. lia.
Qed.

(** The example of the specification: the last record is 400 days old and
    the ceiling is 180 days. *)
Lemma C8_lookback_ceiling_witness :
  let old_row :=
    from_binance_kline
      (Scenario.candle ((Scenario.T0 - timedelta.days 400) / 1000)
         (Scenario.price 4200000000000)) "BTCUSDT" "5m" in
  let E := Scenario.healthy Scenario.T0 in
  backfill_start_time Scenario.T0 (Scenario.T0 - timedelta.days 400) 180
  = (true, Scenario.T0 - timedelta.days 180) /\
  backfill_data E Scenario.btc 180 (Scenario.fresh [old_row])
  = fetch_range E Scenario.btc (Scenario.T0 - timedelta.days 180) Scenario.T0
      (with_log (ticked (opened (Scenario.fresh [old_row])))
         [(WARNING, "Last record too old")]).
Proof.
  cbv zeta.
  pose proof (C8_lookback_ceiling (Scenario.healthy Scenario.T0) Scenario.btc
                180
                (Scenario.fresh
                   [from_binance_kline
                      (Scenario.candle
                         ((Scenario.T0 - timedelta.days 400) / 1000)
                         (Scenario.price 4200000000000)) "BTCUSDT" "5m"])
                (Scenario.T0 - timedelta.days 400 + timedelta.hours 3)
                _ eq_refl) as H.
  cbv zeta in H.
  destruct H as (H1 & _ & H3); [vm_compute; reflexivity |].
  split.
  - exact H1.
  - apply H3. lia.
Defined.

(** ** The gap estimate *)

(** C4 as stated fails: with the last stored candle at [T0] and the clock
    at [T0 + 23 minutes], the estimate of [backfill_data] is 3.6, logged as
    3, and not 4. *)
Lemma C4_estimate_is_not_4 :
  py_int (estimated_missing (Scenario.T0 + timedelta.minutes 23) Scenario.T0)
  <> 4 /\
  ~ Qeq (estimated_missing (Scenario.T0 + timedelta.minutes 23) Scenario.T0)
        (4 # 1).
Proof.
  split.
  - vm_compute. discriminate.
  - vm_compute. discriminate.
Qed.

Lemma estimated_missing_23_minutes T :
  Qeq (estimated_missing (T + timedelta.minutes 23) T) (18 # 5) /\
  py_int (estimated_missing (T + timedelta.minutes 23) T) = 3.
Proof.
  rewrite estimated_missing_eq. unfold estimated_missing_raw.
  replace (T + timedelta.minutes 23 - T) with 1380000000
    by (unfold timedelta.minutes; lia).
  split; vm_compute; reflexivity.
Qed.

(** C4, amended. Given [lastStored = T] in native time and
    [now = T + 23 minutes], the estimated number of missing closed candles
    is 23/5 - 1 = 3.6, reported as 3, and (for a lookback ceiling of one
    day or more) [backfill_data] delegates a fetch over exactly
    [[T + 5 minutes, now)]. *)
Theorem C4_gap_estimate E self days w T w1 :
  get_last_record_time E self w
  = (Ok (Some (T + timedelta.hours 3)), w1) ->
  clock E (clock_reads w1) = T + timedelta.minutes 23 ->
  1 <= days ->
  Qeq (estimated_missing (T + timedelta.minutes 23) T) (18 # 5) /\
  py_int (estimated_missing (T + timedelta.minutes 23) T) = 3 /\
  backfill_data E self days w
  = fetch_range E self (T + timedelta.minutes 5) (T + timedelta.minutes 23)
      (ticked w1).
Proof.
  intros Hlast Hnow Hdays.
  destruct (estimated_missing_23_minutes T) as [Hq Hint].
  split; [exact Hq |]. split; [exact Hint |].
  rewrite backfill_data_unfold, Hlast. cbv zeta. rewrite Hnow.
  replace (T + timedelta.hours 3 - timedelta.hours 3) with T by lia.
  rewrite estimated_missing_ge_1
    by (unfold timedelta.minutes; lia).
  unfold backfill_start_time.
  destruct (Z.ltb_spec T (T + timedelta.minutes 23 - timedelta.days days))
    as [Hlt | Hge].
  - unfold timedelta.minutes, timedelta.days in Hlt. lia.
  - reflexivity.
Qed.

Lemma C4_gap_estimate_witness :
  let E := Scenario.healthy (Scenario.T0 + timedelta.minutes 23) in
  py_int (estimated_missing (Scenario.T0 + timedelta.minutes 23) Scenario.T0)
  = 3 /\
  backfill_data E Scenario.btc 180 (Scenario.fresh [Scenario.row_T0])
  = fetch_range E Scenario.btc (Scenario.T0 + timedelta.minutes 5)
      (Scenario.T0 + timedelta.minutes 23)
      (ticked (opened (Scenario.fresh [Scenario.row_T0]))).
Proof.
  cbv zeta.
  destruct (C4_gap_estimate
              (Scenario.healthy (Scenario.T0 + timedelta.minutes 23))
              Scenario.btc 180 (Scenario.fresh [Scenario.row_T0])
              Scenario.T0 _ eq_refl eq_refl) as (_ & H2 & H3).
  - lia.
  - split; [exact H2 | exact H3].
Defined.

(** ** The live paths *)

Lemma query_first_app_Some ts sym tf rows more r :
  query_first ts sym tf rows = Some r ->
  query_first ts sym tf (rows ++ more) = Some r.
Proof.
  unfold query_first. induction rows as [|r0 rows IH]; simpl;
    [discriminate |].
  destruct (matches ts sym tf r0); auto.
Qed.

(** A closed stream message with the database up, whose numbers fit the
    columns as floats: the row is inserted or overwritten, every number as
    a float. *)
Lemma save_kline_to_database_closed E self msg w :
  ws_x (ws_k msg) = true ->
  db_down E (sessions w) = false ->
  floats_fit (ws_o (ws_k msg)) (ws_h (ws_k msg)) (ws_l (ws_k msg))
    (ws_c (ws_k msg)) (ws_v (ws_k msg)) = true ->
  let k := ws_k msg in
  let ohlcv :=
    float_row self (ws_t k) (ws_o k) (ws_h k) (ws_l k) (ws_c k) (ws_v k) in
  save_kline_to_database E self msg w
  = (Ok true,
     with_table (opened w)
       match query_first (timestamp_turkey ohlcv) (self_symbol self)
               (self_interval self) (table w) with
       | Some _ =>
           update_first (timestamp_turkey ohlcv) (self_symbol self)
             (self_interval self) ohlcv (table w)
       | None => table w ++ [ohlcv]
       end).
Proof.
  intros Hx Hup Hfit k ohlcv.
  assert (Hs : storable ohlcv = true) by exact Hfit.
  unfold save_kline_to_database, try_except. rewrite Hx. cbn [negb].
  unfold bind at 1. unfold get_session, begin_session.
  unfold bind at 1. cbn [fst snd]. unfold try_except.
  unfold bind at 1. unfold query at 1. cbn [sessions].
  rewrite Hup. unfold ret at 1. cbn [loaded pending].
  fold k. fold ohlcv.
  destruct (query_first _ _ _ (table w)) eqn:Hq; unfold commit, flush_error;
    cbn [loaded pending app table insert_error].
  - rewrite written_storable
      by (apply update_first_written; [exact Hs | apply committed_rows]).
    unfold ret, with_table, opened. simpl. rewrite app_nil_r. reflexivity.
  - rewrite written_committed, Hs. cbn [negb].
    change (symbol ohlcv) with (self_symbol self).
    change (timeframe ohlcv) with (self_interval self).
    rewrite (query_first_None_existsb _ _ _ _ Hq).
    reflexivity.
Qed.

Lemma gap_fill_kline_eq E self n st k w :
  gap_fill_kline E self n st k w
  = if db_down E n then (Raise OperationalError, w)
    else
      let ohlcv :=
        float_row self (k_open_time k) (k_open k) (k_high k) (k_low k)
          (k_close k) (k_volume k) in
      match query_first (timestamp_turkey ohlcv) (self_symbol self)
              (self_interval self) (loaded (fst st)) with
      | Some _ => (Ok st, w)
      | None =>
          (Ok ({| loaded := loaded (fst st);
                  pending := pending (fst st) ++ [ohlcv] |}, S (snd st)), w)
      end.
Proof.
  unfold gap_fill_kline, bind, query.
  destruct (db_down E n); [reflexivity |]. unfold ret. cbv zeta.
  destruct (query_first _ _ _ _); reflexivity.
Qed.

(** The loop of the gap fill never touches a loaded row: it only appends
    rows whose key the table lacks. *)
Lemma gap_fill_loop_frame E self n klines :
  forall st w,
    snd (for_each (gap_fill_kline E self n) klines st w) = w /\
    match fst (for_each (gap_fill_kline E self n) klines st w) with
    | Ok st' =>
        loaded (fst st') = loaded (fst st) /\
        exists added,
          pending (fst st') = pending (fst st) ++ added /\
          Forall (fun a => query_first (timestamp_turkey a) (self_symbol self)
                             (self_interval self) (loaded (fst st)) = None)
            added
    | Raise _ => True
    end.
Proof.
  induction klines as [|k klines IH]; intros st w.
  - simpl. split; [reflexivity |]. split; [reflexivity |].
    exists []. rewrite app_nil_r. auto.
  - cbn [for_each]. unfold bind. rewrite gap_fill_kline_eq.
    destruct (db_down E n); [simpl; auto |]. cbv zeta.
    match goal with
    | |- context [query_first ?a ?b ?c (loaded (fst st))] =>
        destruct (query_first a b c (loaded (fst st))) eqn:Hq
    end.
    + apply IH.
    + specialize (IH ({| loaded := loaded (fst st);
                         pending := pending (fst st) ++
                           [float_row self (k_open_time k) (k_open k)
                              (k_high k) (k_low k) (k_close k) (k_volume k)] |},
                      S (snd st)) w).
      destruct IH as [Hw IH]. split; [exact Hw |].
      destruct (fst (for_each _ _ _ _)) as [st' |]; [| exact I].
      cbn [fst loaded pending] in IH.
      destruct IH as (Hl & added & Hp & Hall).
      split; [exact Hl |].
      eexists (_ :: added). rewrite Hp, <- app_assoc. split; [reflexivity |].
      constructor; [exact Hq | exact Hall].
Qed.

Lemma gap_fill_save_frame E self klines w :
  exists added,
    table (snd (gap_fill_save E self klines w)) = table w ++ added /\
    Forall (fun a => query_first (timestamp_turkey a) (self_symbol self)
                       (self_interval self) (table w) = None) added.
Proof.
  unfold gap_fill_save, get_session, begin_session.
  unfold bind at 1. cbn [fst snd]. unfold try_except. unfold bind at 1.
  pose proof (gap_fill_loop_frame E self (sessions w) klines
                ({| loaded := table w; pending := [] |}, 0%nat) (opened w))
    as [Hw H].
  unfold opened in *.
  destruct (for_each _ _ _ _) as [[st' | e] w1]; cbn [fst snd] in *; subst w1.
  - destruct H as (Hl & added & Hp & Hall). cbn [app] in Hp.
    unfold bind, commit.
    destruct (flush_error _ _); simpl.
    + exists []. rewrite app_nil_r. auto.
    + rewrite Hl, Hp. exists added. auto.
  - simpl. exists []. rewrite app_nil_r. auto.
Qed.

(** Whenever it finds a gap, the gap fill stops at line 282 on the unbound
    name [now]: it issues no REST call and changes no row. *)
Lemma fill_missing_no_effect E self w :
  exists w',
    fill_missing_candles_before_start E self w = (Ok tt, w') /\
    table w' = table w /\
    requests w' = requests w.
Proof.
  unfold fill_missing_candles_before_start, get_session, begin_session,
    try_except, bind, query, now, raise, ret, logger.
  cbn [fst snd sessions loaded].
  destruct (db_down E (sessions w)).
  - eexists. split; [reflexivity |]. split; reflexivity.
  - destruct (max_timestamp_turkey _ _ _) as [last_record|].
    + cbv zeta. destruct (_ <? 1).
      * eexists. split; [reflexivity |]. split; reflexivity.
      * unfold load_name. cbn [find app module_globals fst snd String.eqb
                                 Ascii.eqb Bool.eqb].
        eexists. split; [reflexivity |]. split; reflexivity.
    + eexists. split; [reflexivity |]. split; reflexivity.
Qed.

(** The claim of C10 fails in its last clause for a candle the table
    cannot hold: the table holds the row of [T0], and the backfill path
    saves a closed candle of that boundary whose volume is
    1000000000000.00000000.  The commit raises DataError and the row is
    left as it was, not overwritten with the incoming values. *)
Lemma C10_refused_overwrite :
  let E := Scenario.healthy (Scenario.T0 + timedelta.hours 1) in
  let w := Scenario.fresh [Scenario.row_T0] in
  let p := Scenario.price 1 in
  let k := mkKline (Scenario.T0 / 1000) p p p p
             (mkDecimal 100000000000000000000 8)
             (Scenario.T0 / 1000 + 299999) in
  boundary k = Scenario.T0 + timedelta.hours 3 /\
  is_closed (clock E 0) k = true /\
  fst (save_to_database E Scenario.btc [k] w) = Raise DataError /\
  query_first (boundary k) "BTCUSDT" "5m"
    (table (snd (save_to_database E Scenario.btc [k] w)))
  = Some Scenario.row_T0 /\
  volume Scenario.row_T0 <> Str (k_volume k).
Proof.
  cbv zeta. split; [reflexivity |]. split; [reflexivity |].
  split; [vm_compute; reflexivity |].
  split; [vm_compute; reflexivity |].
  discriminate.
Qed.

(** C10. Frame of the gap fill: for every boundary key already in the
    table, the storing session of the pre-stream gap fill leaves the row
    under that key as it was, appending rows only under keys the table
    lacks, and so does the whole routine
    [fill_missing_candles_before_start]; whereas [save_to_database]
    (backfill) and [save_kline_to_database] (live stream), given a closed
    candle of that key, a reachable database and numbers the
    [Numeric(20, 8)] columns accept, overwrite the row with the incoming
    values: the open time and the five numbers of the candle, as strings
    on the backfill path and as floats on the live path. *)
Theorem C10_gap_fill_frame E self w ts r :
  query_first ts (self_symbol self) (self_interval self) (table w) = Some r ->
  (forall klines,
      query_first ts (self_symbol self) (self_interval self)
        (table (snd (gap_fill_save E self klines w))) = Some r /\
      exists added,
        table (snd (gap_fill_save E self klines w)) = table w ++ added /\
        Forall (fun a => query_first (timestamp_turkey a) (self_symbol self)
                           (self_interval self) (table w) = None) added) /\
  query_first ts (self_symbol self) (self_interval self)
    (table (snd (fill_missing_candles_before_start E self w))) = Some r /\
  (forall k,
      boundary k = ts ->
      db_down E (sessions w) = false ->
      is_closed (clock E (clock_reads w)) k = true ->
      kline_fits k = true ->
      exists r',
        query_first ts (self_symbol self) (self_interval self)
          (table (snd (save_to_database E self [k] w))) = Some r' /\
        timestamp_utc r' = fromtimestamp_ms (k_open_time k) /\
        open r' = Str (k_open k) /\
        high r' = Str (k_high k) /\
        low r' = Str (k_low k) /\
        close r' = Str (k_close k) /\
        volume r' = Str (k_volume k)) /\
  (forall msg,
      fromtimestamp_ms (ws_t (ws_k msg)) + timedelta.hours 3 = ts ->
      ws_x (ws_k msg) = true ->
      db_down E (sessions w) = false ->
      floats_fit (ws_o (ws_k msg)) (ws_h (ws_k msg)) (ws_l (ws_k msg))
        (ws_c (ws_k msg)) (ws_v (ws_k msg)) = true ->
      exists r',
        query_first ts (self_symbol self) (self_interval self)
          (table (snd (save_kline_to_database E self msg w))) = Some r' /\
        timestamp_utc r' = fromtimestamp_ms (ws_t (ws_k msg)) /\
        open r' = Float (float_of_decimal (ws_o (ws_k msg))) /\
        high r' = Float (float_of_decimal (ws_h (ws_k msg))) /\
        low r' = Float (float_of_decimal (ws_l (ws_k msg))) /\
        close r' = Float (float_of_decimal (ws_c (ws_k msg))) /\
        volume r' = Float (float_of_decimal (ws_v (ws_k msg)))).
Proof.
  intros Hr. split; [| split; [| split]].
  - intros klines.
    destruct (gap_fill_save_frame E self klines w) as (added & Ht & Hall).
    split; [| exists added; auto].
    rewrite Ht. apply query_first_app_Some, Hr.
  - destruct (fill_missing_no_effect E self w) as (w' & Hrun & Ht & _).
    rewrite Hrun. cbn [snd]. rewrite Ht. exact Hr.
  - intros k Hk Hup Hc Hfit. subst ts.
    rewrite (save_to_database_update E self k w r Hup Hc Hfit Hr).
    cbn [snd table].
    exists (from_binance_kline k (self_symbol self) (self_interval self)).
    split; [eapply query_first_update_first; eauto |].
    repeat (split; [reflexivity |]). reflexivity.
  - intros msg Hk Hx Hup Hfit.
    rewrite (save_kline_to_database_closed E self msg w Hx Hup Hfit).
    cbv zeta. cbn [snd].
    change (timestamp_turkey
              (float_row self (ws_t (ws_k msg)) (ws_o (ws_k msg))
                 (ws_h (ws_k msg)) (ws_l (ws_k msg)) (ws_c (ws_k msg))
                 (ws_v (ws_k msg))))
      with (fromtimestamp_ms (ws_t (ws_k msg)) + timedelta.hours 3).
    rewrite Hk, Hr. cbn [table with_table].
    exists (float_row self (ws_t (ws_k msg)) (ws_o (ws_k msg))
              (ws_h (ws_k msg)) (ws_l (ws_k msg)) (ws_c (ws_k msg))
              (ws_v (ws_k msg))).
    split; [eapply query_first_update_first; eauto |].
    repeat (split; [reflexivity |]). reflexivity.
Qed.

Lemma C10_gap_fill_frame_witness :
  let E := Scenario.healthy (Scenario.T0 + timedelta.hours 1) in
  let w := Scenario.fresh [Scenario.row_T0] in
  let k := Scenario.candle (Scenario.T0 / 1000) (Scenario.price 1) in
  query_first (Scenario.T0 + timedelta.hours 3) "BTCUSDT" "5m"
    (table (snd (gap_fill_save E Scenario.btc [k] w)))
  = Some Scenario.row_T0 /\
  exists r',
    query_first (Scenario.T0 + timedelta.hours 3) "BTCUSDT" "5m"
      (table (snd (save_to_database E Scenario.btc [k] w))) = Some r' /\
    timestamp_utc r' = fromtimestamp_ms (k_open_time k) /\
    open r' = Str (k_open k) /\
    high r' = Str (k_high k) /\
    low r' = Str (k_low k) /\
    close r' = Str (k_close k) /\
    volume r' = Str (k_volume k).
Proof.
  cbv zeta.
  destruct (C10_gap_fill_frame
              (Scenario.healthy (Scenario.T0 + timedelta.hours 1))
              Scenario.btc (Scenario.fresh [Scenario.row_T0])
              (Scenario.T0 + timedelta.hours 3) Scenario.row_T0 eq_refl)
    as (H1 & _ & H3 & _).
  split.
  - exact (proj1 (H1 [Scenario.candle (Scenario.T0 / 1000)
                        (Scenario.price 1)])).
  - exact (H3 (Scenario.candle (Scenario.T0 / 1000) (Scenario.price 1))
              eq_refl eq_refl eq_refl eq_refl).
Defined.

Lemma C3_closed_only_witness :
  let E := Scenario.healthy Scenario.T0 in
  let w := Scenario.fresh [] in
  let open_candle :=
    Scenario.candle (Scenario.T0 / 1000) (Scenario.price 1) in
  let msg :=
    mkWsMessage (Some "kline")
      (mkWsKline (Scenario.T0 / 1000) (Scenario.price 1) (Scenario.price 1)
         (Scenario.price 1) (Scenario.price 1) (Scenario.price 1) false
         "BTCUSDT") in
  (exists w', save_to_database E Scenario.btc [open_candle] w = (Ok 0%nat, w')
              /\ table w' = table w) /\
  handle_message E Scenario.btc (Some msg) w = (Ok tt, w).
Proof.
  cbv zeta.
  destruct (C3_closed_only (Scenario.healthy Scenario.T0) Scenario.btc
              (Scenario.fresh [])) as (_ & H2 & H3).
  split.
  - apply H2. constructor; [vm_compute; reflexivity | constructor].
  - exact (proj2 (H3 (mkWsMessage (Some "kline")
                        (mkWsKline (Scenario.T0 / 1000) (Scenario.price 1)
                           (Scenario.price 1) (Scenario.price 1)
                           (Scenario.price 1) (Scenario.price 1) false
                           "BTCUSDT")) eq_refl)).
Defined.

Lemma C2_idempotent_upsert_witness :
  let E := Scenario.healthy (Scenario.T0 + timedelta.hours 1) in
  let k1 := Scenario.candle (Scenario.T0 / 1000) (Scenario.price 1) in
  let k2 := Scenario.candle (Scenario.T0 / 1000) (Scenario.price 2) in
  exists w1 w2 r,
    save_to_database E Scenario.btc [k1] (Scenario.fresh []) = (Ok 1%nat, w1)
    /\ save_to_database E Scenario.btc [k2] w1 = (Ok 0%nat, w2)
    /\ filter (matches (boundary k1) "BTCUSDT" "5m") (table w2) = [r]
    /\ count_rows (boundary k1) "BTCUSDT" "5m" (table w2) = 1%nat
    /\ timestamp_utc r = fromtimestamp_ms (k_open_time k2)
    /\ open r = Str (k_open k2)
    /\ high r = Str (k_high k2)
    /\ low r = Str (k_low k2)
    /\ close r = Str (k_close k2)
    /\ volume r = Str (k_volume k2).
Proof.
  exact (C2_idempotent_upsert
           (Scenario.healthy (Scenario.T0 + timedelta.hours 1)) Scenario.btc
           (Scenario.candle (Scenario.T0 / 1000) (Scenario.price 1))
           (Scenario.candle (Scenario.T0 / 1000) (Scenario.price 2))
           (Scenario.fresh []) eq_refl eq_refl eq_refl eq_refl eq_refl
           eq_refl eq_refl eq_refl).
Defined.

Lemma C5_forced_progress_witness :
  let stalled := fun (_ : nat) (_ : request) =>
    Ok [Scenario.candle (Scenario.T0 / 1000 - 7200000) (Scenario.price 1)] in
  let E := {| clock := fun _ => Scenario.T0 + timedelta.hours 2;
              binance := stalled; db_down := fun _ => false |} in
  exists c st' w',
    fetch_range_body E Scenario.btc (Scenario.T0 + timedelta.hours 2)
      {| current_start := Scenario.T0; iteration := 0; total_saved := 0 |}
      (Scenario.fresh []) = (Ok (c, st'), w') /\
    Scenario.T0 < current_start st'.
Proof.
  cbv zeta.
  refine (proj1 (C5_forced_progress
                   {| clock := fun _ => Scenario.T0 + timedelta.hours 2;
                      binance := fun _ _ =>
                        Ok [Scenario.candle (Scenario.T0 / 1000 - 7200000)
                              (Scenario.price 1)];
                      db_down := fun _ => false |}
                   Scenario.btc (Scenario.T0 + timedelta.hours 2))
                {| current_start := Scenario.T0; iteration := 0;
                   total_saved := 0 |}
                (Scenario.fresh []) _ _ eq_refl _).
  constructor; [vm_compute; discriminate | constructor].
Defined.

(** ** Where the code departs from the specification *)

(** C1. The table holds the candle of [T0] and the clock stands one hour
    later, so eleven closed candles are missing and the exchange would
    return them; [fill_missing_candles_before_start] detects the gap, then
    reads the unbound name [now] (line 282), and its handler logs the
    NameError: no REST call is issued and the table is left as it was. *)
Theorem C1_gap_fill_stops_on_unbound_name :
  let E := Scenario.healthy (Scenario.T0 + timedelta.hours 1) in
  let w := Scenario.fresh [Scenario.row_T0] in
  (exists k page,
      binance E 0
        {| req_symbol := "BTCUSDT"; req_interval := "5m";
           start_str := timestamp_ms (Scenario.T0 + timedelta.minutes 5);
           end_str := timestamp_ms (Scenario.T0 + timedelta.hours 1);
           limit := 1000 |} = Ok (k :: page) /\
      is_closed (Scenario.T0 + timedelta.hours 1) k = true /\
      query_first (boundary k) "BTCUSDT" "5m" (table w) = None) /\
  load_name [("now_utc", Datetime (Scenario.T0 + timedelta.hours 1))] "now" w
  = (Raise (NameError "now"), w) /\
  fill_missing_candles_before_start E Scenario.btc w
  = (Ok tt,
     {| table := [Scenario.row_T0]; clock_reads := 1; requests := [];
        sessions := 1;
        log := [(ERROR, "Error filling missing candles")] |}).
Proof.
  cbv zeta. split; [| split].
  - eexists _, _. split; [vm_compute; reflexivity |].
    split; vm_compute; reflexivity.
  - reflexivity.
  - vm_compute. reflexivity.
Qed.

(** C9. A closed stream message whose volume is "1234567890.12345678":
    the live path stores [float] of it, the binary64 number
    5178153039816375 * 2^-22, which is not the decimal supplied and is also
    what the different volume "1234567890.12345679" is stored as; the
    backfill path stores the decimal string itself, and a live upsert of
    the same boundary then replaces that exact value by the float.  Of the
    float the server keeps 1234567890.12345670 (its [repr] rounded to 8
    places), of the string the decimal supplied. *)
Theorem C9_live_path_stores_binary64 :
  let v := mkDecimal 123456789012345678 8 in
  let v' := mkDecimal 123456789012345679 8 in
  let p := Scenario.price 4200000000000 in
  let E := Scenario.healthy (Scenario.T0 + timedelta.hours 1) in
  let msg := fun x =>
    mkWsMessage (Some "kline")
      (mkWsKline (Scenario.T0 / 1000) p p p p x true "BTCUSDT") in
  let k := mkKline (Scenario.T0 / 1000) p p p p v
             (Scenario.T0 / 1000 + 299999) in
  let live := fun x w =>
    map volume (table (snd (save_kline_to_database E Scenario.btc (msg x) w)))
  in
  let backfilled := snd (save_to_database E Scenario.btc [k]
                           (Scenario.fresh [])) in
  live v (Scenario.fresh []) = [Float (Finite 5178153039816375 (-22))] /\
  (exists q,
      numeric_value (Float (float_of_decimal v)) = Some q /\
      ~ Qeq q (decimal_value v)) /\
  v <> v' /\
  live v' (Scenario.fresh []) = live v (Scenario.fresh []) /\
  map volume (table backfilled) = [Str v] /\
  live v backfilled = [Float (Finite 5178153039816375 (-22))] /\
  numeric_value (Float (float_of_decimal v))
  = Some (123456789012345670 # 100000000) /\
  numeric_value (Str v) = Some (123456789012345678 # 100000000).
Proof.
  cbv zeta. split; [vm_compute; reflexivity |].
  split.
  - eexists. split; [vm_compute; reflexivity |].
    vm_compute. discriminate.
  - split; [discriminate |].
    split; [vm_compute; reflexivity |].
    split; [vm_compute; reflexivity |].
    split; [vm_compute; reflexivity |].
    split; vm_compute; reflexivity.
Qed.

(** * Further properties of the collectors *)

(** ** The unique constraint *)

Lemma matches_key ts sym tf r :
  matches ts sym tf r = true <-> key r = (ts, sym, tf).
Proof.
  rewrite matches_spec. unfold key. split.
  - intros (H1 & H2 & H3). congruence.
  - intros H. inversion H. auto.
Qed.

Lemma existsb_matches_false ts sym tf rows :
  existsb (matches ts sym tf) rows = false <->
  ~ In (ts, sym, tf) (map key rows).
Proof.
  induction rows as [|r rows IH]; simpl.
  - tauto.
  - rewrite orb_false_iff, IH. split.
    + intros [Hm Hn] [Hk | Hin]; [| tauto].
      apply matches_key in Hk. congruence.
    + intros H. split; [| tauto].
      destruct (matches ts sym tf r) eqn:Hm; [| reflexivity].
      apply matches_key in Hm. tauto.
Qed.

Lemma update_first_keys ts sym tf new rows :
  map key (update_first ts sym tf new rows) = map key rows.
Proof.
  induction rows as [|r rows IH]; simpl; [reflexivity |].
  destruct (matches ts sym tf r); simpl; [reflexivity | now rewrite IH].
Qed.

(** A commit that passes the constraint check leaves a table that
    satisfies the constraint. *)
Lemma violates_unique_false rows news :
  unique_keys rows ->
  violates_unique rows news = false ->
  unique_keys (rows ++ news).
Proof.
  revert rows. induction news as [|n news IH]; intros rows Hu Hv.
  - rewrite app_nil_r. exact Hu.
  - cbn [violates_unique] in Hv. apply orb_false_iff in Hv.
    destruct Hv as [Hn Hrest].
    replace (rows ++ n :: news) with ((rows ++ [n]) ++ news)
      by (rewrite <- app_assoc; reflexivity).
    apply IH; [| exact Hrest].
    unfold unique_keys. rewrite map_app. cbn [map].
    apply existsb_matches_false in Hn.
    assert (H : NoDup (key n :: map key rows))
      by (constructor; [exact Hn | exact Hu]).
    eapply Permutation_NoDup; [| exact H].
    apply Permutation_cons_append.
Qed.

Lemma update_first_foreign self ts new rows :
  filter (foreign self)
    (update_first ts (self_symbol self) (self_interval self) new rows)
  = filter (foreign self) rows.
Proof.
  induction rows as [|r rows IH]; simpl; [reflexivity |].
  destruct (matches ts (self_symbol self) (self_interval self) r) eqn:Hm.
  - apply matches_spec in Hm. destruct Hm as (_ & Hs & Hf).
    simpl. unfold foreign. simpl.
    rewrite Hs, Hf, !String.eqb_refl. reflexivity.
  - simpl. rewrite IH. reflexivity.
Qed.

Lemma update_first_offset ts sym tf new rows :
  timestamp_turkey new = ts -> offset_ok new ->
  Forall offset_ok rows ->
  Forall offset_ok (update_first ts sym tf new rows).
Proof.
  intros Ht Hn Hall. induction Hall as [|r rows Hr Hrows IH]; simpl.
  - constructor.
  - destruct (matches ts sym tf r) eqn:Hm.
    + constructor; [| exact Hrows].
      apply matches_spec in Hm. destruct Hm as (Hk & _ & _).
      unfold offset_ok in *. cbn [timestamp_turkey timestamp_utc].
      rewrite Hk, <- Ht. exact Hn.
    + constructor; assumption.
Qed.

Lemma from_binance_kline_offset k sym tf :
  offset_ok (from_binance_kline k sym tf).
Proof. reflexivity. Qed.

Lemma from_binance_kline_foreign self k :
  foreign self (from_binance_kline k (self_symbol self) (self_interval self))
  = false.
Proof. unfold foreign. simpl. rewrite !String.eqb_refl. reflexivity. Qed.

(** What the loop of [save_to_database] can do to its session. *)
Lemma for_each_save_inv E self n t klines :
  forall st w,
    snd (for_each (save_kline E self n t) klines st w) = w /\
    match fst (for_each (save_kline E self n t) klines st w) with
    | Ok st' =>
        map key (loaded (sess st')) = map key (loaded (sess st)) /\
        filter (foreign self) (loaded (sess st'))
        = filter (foreign self) (loaded (sess st)) /\
        (Forall offset_ok (loaded (sess st)) ->
         Forall offset_ok (loaded (sess st'))) /\
        exists added,
          pending (sess st') = pending (sess st) ++ added /\
          saved_count st' = (saved_count st + List.length added)%nat /\
          Forall (fun a => foreign self a = false /\ offset_ok a) added
    | Raise e =>
        e = OperationalError /\ db_down E n = true /\
        existsb (is_closed t) klines = true
    end.
Proof.
  induction klines as [|k klines IH]; intros st w.
  - simpl. split; [reflexivity |]. repeat split; auto.
    exists []. rewrite app_nil_r. repeat split; auto.
  - cbn [for_each existsb]. unfold bind.
    destruct (is_closed t k) eqn:Hk.
    + rewrite (save_kline_closed _ _ _ _ _ _ _ Hk).
      destruct (db_down E n) eqn:Hdb; [simpl; auto |].
      cbv zeta.
      match goal with
      | |- context [query_first ?a ?b ?c (loaded (sess st))] =>
          destruct (query_first a b c (loaded (sess st))) eqn:Hq
      end.
      * match goal with
        | |- context [for_each _ klines ?s w] => specialize (IH s w)
        end.
        destruct IH as [Hw IH]. split; [exact Hw |].
        destruct (fst (for_each _ _ _ _)) as [st' | e]; [| tauto].
        cbn [sess loaded pending saved_count] in IH.
        destruct IH as (Hkeys & Hfor & Hoff & Hadd).
        cbn [symbol timeframe from_binance_kline] in *.
        rewrite update_first_keys in Hkeys.
        rewrite update_first_foreign in Hfor.
        split; [exact Hkeys |]. split; [exact Hfor |].
        split; [| exact Hadd].
        intros Hall. apply Hoff.
        apply update_first_offset; auto. reflexivity.
      * match goal with
        | |- context [for_each _ klines ?s w] => specialize (IH s w)
        end.
        destruct IH as [Hw IH]. split; [exact Hw |].
        destruct (fst (for_each _ _ _ _)) as [st' | e]; [| tauto].
        cbn [sess loaded pending saved_count] in IH.
        destruct IH as (Hkeys & Hfor & Hoff & added & Hp & Hc & Hall).
        split; [exact Hkeys |]. split; [exact Hfor |].
        split; [exact Hoff |].
        eexists (_ :: added). rewrite Hp, <- app_assoc.
        split; [reflexivity |]. split; [cbn [List.length]; lia |].
        constructor; [| exact Hall].
        split; [apply from_binance_kline_foreign
               | apply from_binance_kline_offset].
    + rewrite (save_kline_open _ _ _ _ _ _ _ Hk).
      match goal with
      | |- context [for_each _ klines ?s w] => specialize (IH s w)
      end.
      cbn [orb]. exact IH.
Qed.

Lemma for_each_save_world E self n t klines st w :
  snd (for_each (save_kline E self n t) klines st w) = w.
Proof. apply for_each_save_inv. Qed.

(** The whole effect of [save_to_database] on the world. *)
Lemma save_to_database_effect E self klines w :
  requests (snd (save_to_database E self klines w)) = requests w /\
  match fst (save_to_database E self klines w) with
  | Ok n =>
      exists updated added,
        table (snd (save_to_database E self klines w)) = updated ++ added /\
        map key updated = map key (table w) /\
        filter (foreign self) updated = filter (foreign self) (table w) /\
        (Forall offset_ok (table w) -> Forall offset_ok updated) /\
        n = List.length added /\
        Forall (fun a => foreign self a = false /\ offset_ok a) added /\
        violates_unique updated added = false
  | Raise e =>
      table (snd (save_to_database E self klines w)) = table w /\
      (e = OperationalError \/ e = IntegrityError \/ e = DataError)
  end.
Proof.
  rewrite save_to_database_unfold.
  match goal with
  | |- context [for_each ?f klines ?s ?w1] =>
      pose proof (for_each_save_inv E self (sessions w)
                    (clock E (clock_reads w)) klines s w1) as [Hw H];
      destruct (for_each f klines s w1) as [[st' | e] w2]
  end; cbn [fst snd] in *; subst w2.
  - cbn [sess loaded pending saved_count] in H.
    destruct H as (Hkeys & Hfor & Hoff & added & Hp & Hc & Hall).
    cbn [app] in Hp. cbn [Nat.add] in Hc.
    cbn [finish_save].
    destruct (flush_error _ _) as [e |] eqn:Hv; cbn [fst snd table requests].
    + unfold with_log. cbn [table requests].
      destruct (flush_error_cases _ _ _ Hv) as [-> | ->]; auto.
    + split; [reflexivity |].
      apply flush_error_unique in Hv.
      exists (loaded (sess st')), added. rewrite Hp in *. repeat split; auto.
  - cbn [finish_save fst snd]. unfold with_log. cbn [table requests].
    destruct H as (He & _). auto.
Qed.

(** ** Lifting a property of one save to the whole reconciliation *)

Section Lifting.
Variable E : Env.
Variable self : Collector.
Variable R : list OHLCVData -> list OHLCVData -> Prop.
Hypothesis R_refl : forall t, R t t.
Hypothesis R_trans : forall a b c, R a b -> R b c -> R a c.
Hypothesis R_save :
  forall klines w,
    R (table w) (table (snd (save_to_database E self klines w))).

Lemma fetch_range_body_lift end_time st w :
  R (table w) (table (snd (fetch_range_body E self end_time st w))).
Proof.
  destruct (binance E (List.length (requests w))
              (page_request self (current_start st) end_time))
    as [[|k page] | e] eqn:Hb.
  - rewrite (fetch_range_body_empty _ _ _ _ _ Hb).
    destruct (Qlt_bool _ _); apply R_refl.
  - rewrite (fetch_range_body_page _ _ _ _ _ _ _ Hb).
    pose proof (R_save (k :: page)
                  (with_request w
                     (page_request self (current_start st) end_time))) as H.
    destruct (save_to_database _ _ _ _) as [[saved | e] w'];
      cbn [snd table with_request] in H.
    + cbv zeta. destruct (_ <=? current_start st); exact H.
    + exact H.
  - rewrite (fetch_range_body_error _ _ _ _ _ _ Hb). apply R_refl.
Qed.

Lemma while_loop_lift fuel end_time :
  forall st w,
    R (table w) (table (snd (while_loop E self fuel end_time st w))).
Proof.
  induction fuel as [|fuel IH]; intros st w; cbn [while_loop].
  - apply R_refl.
  - destruct (loop_guard end_time st); [| apply R_refl].
    unfold bind.
    pose proof (fetch_range_body_lift end_time st w) as Hb.
    destruct (fetch_range_body E self end_time st w) as [[[c st1] | e] w1];
      cbn [fst snd] in *; [| exact Hb].
    destruct c; [| exact Hb].
    eapply R_trans; [exact Hb | apply IH].
Qed.

Lemma fetch_range_lift start_time end_time w :
  R (table w) (table (snd (fetch_range E self start_time end_time w))).
Proof.
  unfold fetch_range, bind.
  pose proof (while_loop_lift max_iterations end_time
                {| current_start := start_time; iteration := 0;
                   total_saved := 0 |} w) as H.
  destruct (while_loop _ _ _ _ _ _) as [[st' | e] w']; exact H.
Qed.

Lemma backfill_data_lift days w :
  R (table w) (table (snd (backfill_data E self days w))).
Proof.
  rewrite backfill_data_unfold, get_last_record_time_eq.
  destruct (db_down E (sessions w)).
  - apply (fetch_range_lift _ _ (ticked (with_log (opened w) _))).
  - destruct (max_timestamp_turkey _ _ _) as [last|]; cbv zeta.
    + destruct (fst (backfill_start_time _ _ _));
        (destruct (Qlt_bool _ _); [apply R_refl |]).
      * apply (fetch_range_lift _ _ (with_log (ticked (opened w)) _)).
      * apply (fetch_range_lift _ _ (ticked (opened w))).
    + apply (fetch_range_lift _ _ (ticked (opened w))).
Qed.
End Lifting.

(** ** Counting the new rows *)

Lemma save_to_database_count E self klines w :
  match fst (save_to_database E self klines w) with
  | Ok n =>
      List.length (table (snd (save_to_database E self klines w)))
      = (List.length (table w) + n)%nat
  | Raise _ => table (snd (save_to_database E self klines w)) = table w
  end.
Proof.
  destruct (save_to_database_effect E self klines w) as [_ H].
  destruct (fst (save_to_database E self klines w)) as [n | e].
  - destruct H as (updated & added & Ht & Hkeys & _ & _ & Hn & _).
    rewrite Ht, length_app, Hn.
    apply (f_equal (@List.length _)) in Hkeys.
    rewrite !length_map in Hkeys. lia.
  - apply H.
Qed.

Lemma fetch_range_body_count E self end_time st w :
  exists c st',
    fst (fetch_range_body E self end_time st w) = Ok (c, st') /\
    (List.length (table (snd (fetch_range_body E self end_time st w)))
     + total_saved st
     = List.length (table w) + total_saved st')%nat.
Proof.
  destruct (binance E (List.length (requests w))
              (page_request self (current_start st) end_time))
    as [[|k page] | e] eqn:Hb.
  - rewrite (fetch_range_body_empty _ _ _ _ _ Hb).
    destruct (Qlt_bool _ _); eexists _, _; split; reflexivity.
  - rewrite (fetch_range_body_page _ _ _ _ _ _ _ Hb).
    pose proof (save_to_database_count E self (k :: page)
                  (with_request w
                     (page_request self (current_start st) end_time))) as H.
    destruct (save_to_database _ _ _ _) as [[saved | e] w'];
      cbn [fst snd table with_request] in H.
    + cbv zeta. destruct (_ <=? current_start st);
        eexists _, _; (split; [reflexivity |]);
        cbn [snd table with_log total_saved skipped]; lia.
    + eexists _, _. split; [reflexivity |].
      cbn [snd table with_log total_saved skipped]. rewrite H. reflexivity.
  - rewrite (fetch_range_body_error _ _ _ _ _ _ Hb).
    eexists _, _. split; reflexivity.
Qed.

Lemma while_loop_count E self fuel end_time :
  forall st w,
    exists st',
      fst (while_loop E self fuel end_time st w) = Ok st' /\
      (List.length (table (snd (while_loop E self fuel end_time st w)))
       + total_saved st
       = List.length (table w) + total_saved st')%nat.
Proof.
  induction fuel as [|fuel IH]; intros st w; cbn [while_loop].
  - exists st. split; reflexivity.
  - destruct (loop_guard end_time st); [| exists st; split; reflexivity].
    unfold bind.
    destruct (fetch_range_body_count E self end_time st w)
      as (c & st1 & Hres & Hcount).
    destruct (fetch_range_body E self end_time st w) as [r w1].
    cbn [fst snd] in *. subst r. cbn [fst snd].
    destruct c.
    + destruct (IH st1 w1) as (st' & Hres' & Hcount').
      exists st'. split; [exact Hres' | lia].
    + exists st1. split; [reflexivity | exact Hcount].
Qed.

Lemma fetch_range_count E self start_time end_time w :
  exists n,
    fst (fetch_range E self start_time end_time w) = Ok n /\
    List.length (table (snd (fetch_range E self start_time end_time w)))
    = (List.length (table w) + n)%nat.
Proof.
  unfold fetch_range, bind.
  destruct (while_loop_count E self max_iterations end_time
              {| current_start := start_time; iteration := 0;
                 total_saved := 0 |} w) as (st' & Hres & Hcount).
  destruct (while_loop _ _ _ _ _ _) as [r w']. cbn [fst snd] in *. subst r.
  exists (total_saved st'). split; [reflexivity |].
  unfold ret. cbn [snd total_saved] in *. lia.
Qed.

Lemma backfill_data_count E self days w :
  exists n,
    fst (backfill_data E self days w) = Ok n /\
    List.length (table (snd (backfill_data E self days w)))
    = (List.length (table w) + n)%nat.
Proof.
  rewrite backfill_data_unfold, get_last_record_time_eq.
  destruct (db_down E (sessions w)).
  - apply (fetch_range_count E self _ _ (ticked (with_log (opened w) _))).
  - destruct (max_timestamp_turkey _ _ _) as [last|]; cbv zeta.
    + destruct (fst (backfill_start_time _ _ _));
        (destruct (Qlt_bool _ _);
         [exists 0%nat; split; [reflexivity | cbn; lia] |]).
      * apply (fetch_range_count E self _ _
                 (with_log (ticked (opened w)) _)).
      * apply (fetch_range_count E self _ _ (ticked (opened w))).
    + apply (fetch_range_count E self _ _ (ticked (opened w))).
Qed.

(** ** The fetch loop after a page error *)

(** C6, amended. When fetching one page raises an error, the Range Fetcher
    logs it, forces the cursor on by the fixed skip of one hour and
    continues with the count inserted so far; if the cursor has then
    reached or passed [end_time] the loop is left with that count.
    [fetch_range] never raises: it returns the count of the state the loop
    is left with, which is the number of rows inserted. *)
Theorem C6_page_error_skips E self end_time st w e :
  binance E (List.length (requests w))
    (page_request self (current_start st) end_time) = Raise e ->
  let logged :=
    with_log (with_request w (page_request self (current_start st) end_time))
      [(ERROR, "Error fetching historical data");
       (ERROR, "Error fetching range")] in
  fetch_range_body E self end_time st w
  = (Ok (if end_time <=? current_start st + timedelta.hours 1
         then Break else Continue,
         skipped st (total_saved st)),
     logged) /\
  (loop_guard end_time st = true ->
   forall fuel,
     while_loop E self (S fuel) end_time st w
     = if end_time <=? current_start st + timedelta.hours 1
       then (Ok (skipped st (total_saved st)), logged)
       else while_loop E self fuel end_time (skipped st (total_saved st))
              logged) /\
  (forall start_time w0,
      exists st' w',
        while_exec E self end_time
          {| current_start := start_time; iteration := 0; total_saved := 0 |}
          w0 st' w' /\
        fetch_range E self start_time end_time w0
        = (Ok (total_saved st'), w') /\
        List.length (table w')
        = (List.length (table w0) + total_saved st')%nat).
Proof.
  intros H logged.
  pose proof (fetch_range_body_error E self end_time st w e H) as Hbody.
  split; [exact Hbody |]. split.
  - intros Hg fuel. cbn [while_loop]. rewrite Hg. unfold bind.
    rewrite Hbody. cbn [fst snd].
    destruct (end_time <=? current_start st + timedelta.hours 1);
      reflexivity.
  - intros start_time w0.
    destruct (fetch_range_terminates E self start_time end_time w0)
      as (st' & w' & Hexec & _ & Hrun).
    destruct (fetch_range_count E self start_time end_time w0)
      as (n & Hres & Hlen).
    rewrite Hrun in Hres, Hlen. cbn [fst snd] in Hres, Hlen.
    injection Hres as <-.
    exists st', w'. split; [exact Hexec |]. split; [exact Hrun | exact Hlen].
Qed.

Lemma C6_page_error_skips_witness :
  exists r,
    fetch_range_body
      (Scenario.api_outage Scenario.T0) Scenario.btc
      (Scenario.T0 + timedelta.hours 2)
      {| current_start := Scenario.T0; iteration := 0; total_saved := 0 |}
      (Scenario.fresh []) = (Ok (Continue, fst r), snd r).
Proof.
  eexists (_, _).
  exact (proj1 (C6_page_error_skips
                  (Scenario.api_outage Scenario.T0) Scenario.btc
                  (Scenario.T0 + timedelta.hours 2)
                  {| current_start := Scenario.T0; iteration := 0;
                     total_saved := 0 |}
                  (Scenario.fresh []) BinanceAPIException eq_refl)).
Defined.

(** ** What the reconciliation keeps *)

Lemma save_to_database_unique E self klines w :
  unique_keys (table w) ->
  unique_keys (table (snd (save_to_database E self klines w))).
Proof.
  intros Hu. destruct (save_to_database_effect E self klines w) as [_ H].
  destruct (fst (save_to_database E self klines w)) as [n | e].
  - destruct H as (updated & added & Ht & Hkeys & _ & _ & _ & _ & Hv).
    rewrite Ht. apply violates_unique_false; [| exact Hv].
    unfold unique_keys in *. rewrite Hkeys. exact Hu.
  - destruct H as [Ht _]. rewrite Ht. exact Hu.
Qed.

Lemma save_to_database_foreign E self klines w :
  filter (foreign self) (table (snd (save_to_database E self klines w)))
  = filter (foreign self) (table w).
Proof.
  destruct (save_to_database_effect E self klines w) as [_ H].
  destruct (fst (save_to_database E self klines w)) as [n | e].
  - destruct H as (updated & added & Ht & _ & Hfor & _ & _ & Hall & _).
    rewrite Ht, filter_app, Hfor.
    replace (filter (foreign self) added) with (@nil OHLCVData);
      [apply app_nil_r |].
    symmetry. clear - Hall. induction Hall as [|a l [Ha _] _ IH]; simpl;
      [reflexivity | rewrite Ha; exact IH].
  - destruct H as [Ht _]. rewrite Ht. reflexivity.
Qed.

Lemma save_to_database_offset E self klines w :
  Forall offset_ok (table w) ->
  Forall offset_ok (table (snd (save_to_database E self klines w))).
Proof.
  intros Hall. destruct (save_to_database_effect E self klines w) as [_ H].
  destruct (fst (save_to_database E self klines w)) as [n | e].
  - destruct H as (updated & added & Ht & _ & _ & Hoff & _ & Hadd & _).
    rewrite Ht. apply Forall_app. split; [auto |].
    eapply Forall_impl; [| exact Hadd]. intros a [_ Ha]. exact Ha.
  - destruct H as [Ht _]. rewrite Ht. exact Hall.
Qed.

Lemma save_to_database_keys E self klines w :
  incl (map key (table w))
    (map key (table (snd (save_to_database E self klines w)))).
Proof.
  destruct (save_to_database_effect E self klines w) as [_ H].
  destruct (fst (save_to_database E self klines w)) as [n | e].
  - destruct H as (updated & added & Ht & Hkeys & _).
    rewrite Ht, map_app, Hkeys. apply incl_appl, incl_refl.
  - destruct H as [Ht _]. rewrite Ht. apply incl_refl.
Qed.

(** X1. The unique constraint on (timestamp_turkey, symbol, timeframe) is
    an invariant of the backfill path: from a table without duplicate
    keys, [save_to_database] on any page, [fetch_range] on any range and
    [backfill_data] leave a table without duplicate keys, whatever the
    exchange answers and whether or not the database fails. *)
Theorem X1_unique_keys_preserved E self w :
  unique_keys (table w) ->
  (forall klines,
      unique_keys (table (snd (save_to_database E self klines w)))) /\
  (forall start_time end_time,
      unique_keys
        (table (snd (fetch_range E self start_time end_time w)))) /\
  (forall days, unique_keys (table (snd (backfill_data E self days w)))).
Proof.
  intros Hu.
  assert (Hsave : forall klines w0,
             unique_keys (table w0) ->
             unique_keys (table (snd (save_to_database E self klines w0))))
    by (intros; apply save_to_database_unique; assumption).
  split; [| split].
  - intros klines. apply Hsave, Hu.
  - intros start_time end_time.
    apply (fetch_range_lift E self
             (fun a b => unique_keys a -> unique_keys b)); auto.
  - intros days.
    apply (backfill_data_lift E self
             (fun a b => unique_keys a -> unique_keys b)); auto.
Qed.

Lemma X1_unique_keys_preserved_witness :
  unique_keys
    (table (snd (backfill_data (Scenario.healthy Scenario.T0) Scenario.btc 1
                   (Scenario.fresh [Scenario.row_T0])))).
Proof.
  refine (proj2 (proj2 (X1_unique_keys_preserved
                          (Scenario.healthy Scenario.T0) Scenario.btc
                          (Scenario.fresh [Scenario.row_T0]) _)) 1).
  constructor; [intros [] | constructor].
Defined.

(** X2. Isolation of symbols: a collector never inserts, changes or
    removes a row of another symbol or interval.  The rows that are not of
    the collector's (symbol, interval), in table order, are the same before
    and after [save_to_database], [fetch_range] and [backfill_data]. *)
Theorem X2_other_symbols_untouched E self w :
  (forall klines,
      filter (foreign self) (table (snd (save_to_database E self klines w)))
      = filter (foreign self) (table w)) /\
  (forall start_time end_time,
      filter (foreign self)
        (table (snd (fetch_range E self start_time end_time w)))
      = filter (foreign self) (table w)) /\
  (forall days,
      filter (foreign self) (table (snd (backfill_data E self days w)))
      = filter (foreign self) (table w)).
Proof.
  split; [| split].
  - intros klines. apply save_to_database_foreign.
  - intros start_time end_time.
    symmetry.
    apply (fetch_range_lift E self
             (fun a b => filter (foreign self) a = filter (foreign self) b));
      [reflexivity | intros; congruence |].
    intros. symmetry. apply save_to_database_foreign.
  - intros days. symmetry.
    apply (backfill_data_lift E self
             (fun a b => filter (foreign self) a = filter (foreign self) b));
      [reflexivity | intros; congruence |].
    intros. symmetry. apply save_to_database_foreign.
Qed.

(** X3. The fixed offset: if every row of the table has
    [timestamp_turkey = timestamp_utc + 3 hours], so has every row after
    [save_to_database], [fetch_range] and [backfill_data]; an update
    rewrites [timestamp_utc] consistently with the key it keeps. *)
Theorem X3_offset_preserved E self w :
  Forall offset_ok (table w) ->
  (forall klines,
      Forall offset_ok (table (snd (save_to_database E self klines w)))) /\
  (forall start_time end_time,
      Forall offset_ok
        (table (snd (fetch_range E self start_time end_time w)))) /\
  (forall days,
      Forall offset_ok (table (snd (backfill_data E self days w)))).
Proof.
  intros Hall.
  split; [| split].
  - intros klines. apply save_to_database_offset, Hall.
  - intros start_time end_time.
    apply (fetch_range_lift E self
             (fun a b => Forall offset_ok a -> Forall offset_ok b)); auto.
    intros. apply save_to_database_offset. assumption.
  - intros days.
    apply (backfill_data_lift E self
             (fun a b => Forall offset_ok a -> Forall offset_ok b)); auto.
    intros. apply save_to_database_offset. assumption.
Qed.

Lemma X3_offset_preserved_witness :
  Forall offset_ok
    (table (snd (backfill_data (Scenario.healthy Scenario.T0) Scenario.btc 1
                   (Scenario.fresh [Scenario.row_T0])))).
Proof.
  refine (proj2 (proj2 (X3_offset_preserved
                          (Scenario.healthy Scenario.T0) Scenario.btc
                          (Scenario.fresh [Scenario.row_T0]) _)) 1).
  constructor; [reflexivity | constructor].
Defined.

(** X4. The returned count is the number of new rows and nothing is ever
    deleted: [save_to_database] returning [n] has lengthened the table by
    exactly [n] rows, and when it raises the table is as before;
    [fetch_range] and [backfill_data] always return a count [n], the table
    is then exactly [n] rows longer, and every key stored before is still
    stored. *)
Theorem X4_count_is_new_rows E self w :
  (forall klines,
      match fst (save_to_database E self klines w) with
      | Ok n =>
          List.length (table (snd (save_to_database E self klines w)))
          = (List.length (table w) + n)%nat
      | Raise _ => table (snd (save_to_database E self klines w)) = table w
      end) /\
  (forall start_time end_time,
      exists n,
        fst (fetch_range E self start_time end_time w) = Ok n /\
        List.length (table (snd (fetch_range E self start_time end_time w)))
        = (List.length (table w) + n)%nat /\
        incl (map key (table w))
          (map key (table (snd (fetch_range E self start_time end_time w)))))
  /\
  (forall days,
      exists n,
        fst (backfill_data E self days w) = Ok n /\
        List.length (table (snd (backfill_data E self days w)))
        = (List.length (table w) + n)%nat /\
        incl (map key (table w))
          (map key (table (snd (backfill_data E self days w))))).
Proof.
  split; [| split].
  - intros klines. apply save_to_database_count.
  - intros start_time end_time.
    destruct (fetch_range_count E self start_time end_time w)
      as (n & Hres & Hlen).
    exists n. split; [exact Hres |]. split; [exact Hlen |].
    apply (fetch_range_lift E self
             (fun a b => incl (map key a) (map key b)));
      [intros; apply incl_refl | intros; eapply incl_tran; eauto |].
    intros. apply save_to_database_keys.
  - intros days.
    destruct (backfill_data_count E self days w) as (n & Hres & Hlen).
    exists n. split; [exact Hres |]. split; [exact Hlen |].
    apply (backfill_data_lift E self
             (fun a b => incl (map key a) (map key b)));
      [intros; apply incl_refl | intros; eapply incl_tran; eauto |].
    intros. apply save_to_database_keys.
Qed.

(** ** Which candles a page inserts *)

Lemma existsb_matches_keys ts sym tf rows rows' :
  map key rows = map key rows' ->
  existsb (matches ts sym tf) rows = existsb (matches ts sym tf) rows'.
Proof.
  intros Hk.
  destruct (existsb (matches ts sym tf) rows) eqn:H1,
           (existsb (matches ts sym tf) rows') eqn:H2; try reflexivity.
  - apply existsb_matches_false in H2. rewrite <- Hk in H2.
    apply existsb_matches_false in H2. congruence.
  - apply existsb_matches_false in H1. rewrite Hk in H1.
    apply existsb_matches_false in H1. congruence.
Qed.

Lemma query_first_existsb ts sym tf rows :
  existsb (matches ts sym tf) rows
  = match query_first ts sym tf rows with Some _ => true | None => false end.
Proof.
  unfold query_first. induction rows as [|r rows IH]; simpl; [reflexivity |].
  destruct (matches ts sym tf r); [reflexivity | exact IH].
Qed.

(** With the database up the loop of [save_to_database] never raises and
    queues exactly the fresh candles, in page order. *)
Lemma for_each_save_pending E self n t klines :
  db_down E n = false ->
  forall st w,
    exists st',
      for_each (save_kline E self n t) klines st w = (Ok st', w) /\
      map key (loaded (sess st')) = map key (loaded (sess st)) /\
      pending (sess st')
      = pending (sess st)
        ++ map (fun k => from_binance_kline k (self_symbol self)
                           (self_interval self))
             (fresh_candles self t (loaded (sess st)) klines) /\
      saved_count st'
      = (saved_count st
         + List.length (fresh_candles self t (loaded (sess st)) klines))%nat.
Proof.
  intros Hup. induction klines as [|k klines IH]; intros st w.
  - exists st. cbn. rewrite app_nil_r. repeat split; auto.
  - cbn [for_each]. unfold bind, fresh_candles. cbn [filter].
    fold (fresh_candles self t (loaded (sess st)) klines).
    destruct (is_closed t k) eqn:Hk.
    + rewrite (save_kline_closed _ _ _ _ _ _ _ Hk), Hup. cbv zeta.
      change (timestamp_turkey (from_binance_kline k (self_symbol self)
                                  (self_interval self))) with (boundary k).
      cbn [symbol timeframe from_binance_kline andb].
      rewrite query_first_existsb.
      destruct (query_first _ _ _ (loaded (sess st))) eqn:Hq; cbn [negb].
      * match goal with
        | |- context [for_each _ klines ?s w] =>
            destruct (IH s w) as (st' & Hrun & Hkeys & Hp & Hc)
        end.
        cbn [sess loaded pending saved_count] in *.
        rewrite update_first_keys in Hkeys.
        exists st'. split; [exact Hrun |]. split; [exact Hkeys |].
        unfold fresh_candles in *.
        erewrite filter_ext in Hp, Hc
          by (intros a; erewrite existsb_matches_keys;
              [reflexivity | apply update_first_keys]).
        split; assumption.
      * match goal with
        | |- context [for_each _ klines ?s w] =>
            destruct (IH s w) as (st' & Hrun & Hkeys & Hp & Hc)
        end.
        cbn [sess loaded pending saved_count] in *.
        exists st'. split; [exact Hrun |]. split; [exact Hkeys |].
        rewrite Hp, Hc, <- app_assoc. cbn [map app List.length].
        split; [reflexivity | lia].
    + rewrite (save_kline_open _ _ _ _ _ _ _ Hk). cbn [andb].
      match goal with
      | |- context [for_each _ klines ?s w] =>
          destruct (IH s w) as (st' & Hrun & Hkeys & Hp & Hc)
      end.
      cbn [sess loaded pending saved_count] in *.
      exists st'. auto.
Qed.

(** The constraint check of a commit passes exactly when the new rows
    have distinct keys, none of them a key of a loaded row. *)
Lemma violates_unique_spec rows news :
  violates_unique rows news = false <->
  NoDup (map key news) /\
  (forall n, In n news -> ~ In (key n) (map key rows)).
Proof.
  revert rows. induction news as [|n news IH]; intros rows.
  - simpl. split; [intros _; split; [constructor | tauto] | reflexivity].
  - cbn [violates_unique map]. rewrite orb_false_iff, IH.
    change (timestamp_turkey n, symbol n, timeframe n) with (key n).
    rewrite existsb_matches_false.
    change (timestamp_turkey n, symbol n, timeframe n) with (key n).
    split.
    + intros (Hn & Hnd & Hfresh). split.
      * constructor; [| exact Hnd].
        intros Hin. apply in_map_iff in Hin. destruct Hin as (m & Hkm & Hm).
        apply (Hfresh m Hm). rewrite map_app. apply in_or_app. right.
        left. symmetry. exact Hkm.
      * intros m [<- | Hm]; [exact Hn |].
        intros Hin. apply (Hfresh m Hm). rewrite map_app.
        apply in_or_app. left. exact Hin.
    + intros (Hnd & Hfresh). inversion Hnd as [|? ? Hnotin Hnd']; subst.
      split; [apply Hfresh; left; reflexivity |].
      split; [exact Hnd' |].
      intros m Hm Hin. rewrite map_app in Hin. apply in_app_or in Hin.
      destruct Hin as [Hin | [Hk | []]].
      * apply (Hfresh m); [right; exact Hm | exact Hin].
      * apply Hnotin. rewrite Hk. apply in_map. exact Hm.
Qed.

Lemma NoDup_map_boundary sym tf (l : list kline) :
  NoDup (map key (map (fun k => from_binance_kline k sym tf) l)) <->
  NoDup (map boundary l).
Proof.
  induction l as [|k l IH]; simpl.
  - split; constructor.
  - split; intros H; inversion H as [|? ? Hn Hd]; subst;
      (constructor; [| apply IH; exact Hd]); intros Hin; apply Hn.
    + apply in_map_iff in Hin. destruct Hin as (k' & Hb & Hk').
      rewrite map_map. apply in_map_iff. exists k'. split; [| exact Hk'].
      unfold key. cbn [timestamp_turkey symbol timeframe from_binance_kline].
      fold (boundary k'). fold (boundary k). rewrite Hb. reflexivity.
    + rewrite map_map in Hin. apply in_map_iff in Hin.
      destruct Hin as (k' & Hb & Hk'). apply in_map_iff. exists k'.
      split; [| exact Hk']. unfold key in Hb.
      cbn [timestamp_turkey symbol timeframe from_binance_kline] in Hb.
      fold (boundary k') in Hb. fold (boundary k) in Hb. congruence.
Qed.

(** The rows a session has loaded stay committed rows or rows that fit
    their columns, when every closed candle of the page fits. *)
Lemma for_each_save_written E self n t committed klines :
  Forall (fun k => kline_fits k = true) (filter (is_closed t) klines) ->
  forall st w,
    Forall (fun r => In r committed \/ storable r = true)
      (loaded (sess st)) ->
    match fst (for_each (save_kline E self n t) klines st w) with
    | Ok st' =>
        Forall (fun r => In r committed \/ storable r = true)
          (loaded (sess st'))
    | Raise _ => True
    end.
Proof.
  induction klines as [|k klines IH]; intros Hfit st w Hl.
  - exact Hl.
  - cbn [for_each filter] in *. unfold bind.
    destruct (is_closed t k) eqn:Hk.
    + inversion Hfit as [|? ? Hfk Hfit']; subst.
      rewrite (save_kline_closed _ _ _ _ _ _ _ Hk).
      destruct (db_down E n); [exact I |]. cbv zeta.
      destruct (query_first _ _ _ _).
      * apply (IH Hfit'). cbn [sess loaded].
        apply update_first_written; [exact Hfk | exact Hl].
      * apply (IH Hfit'). exact Hl.
    + rewrite (save_kline_open _ _ _ _ _ _ _ Hk). apply (IH Hfit). exact Hl.
Qed.

(** An error of the INSERTs of rows that all fit is a repeated key. *)
Lemma insert_error_storable rows news e :
  forallb storable news = true ->
  insert_error rows news = Some e -> e = IntegrityError.
Proof.
  revert rows. induction news as [|n news IH]; intros rows; simpl;
    [discriminate |].
  intros Hs. apply andb_true_iff in Hs. destruct Hs as [Hn Hs].
  rewrite Hn. cbn [negb].
  destruct (existsb _ rows); [| apply IH; exact Hs].
  intros H. injection H as <-. reflexivity.
Qed.

Lemma holds_strings_from_binance_kline self k :
  holds_strings self k
    (from_binance_kline k (self_symbol self) (self_interval self)).
Proof. unfold holds_strings. repeat (split; [reflexivity |]). reflexivity. Qed.

Lemma Forall2_holds_strings self klines :
  Forall2 (holds_strings self) klines
    (map (fun k => from_binance_kline k (self_symbol self)
                     (self_interval self)) klines).
Proof.
  induction klines as [|k klines IH]; simpl; constructor;
    [apply holds_strings_from_binance_kline | exact IH].
Qed.

Lemma forallb_storable_klines sym tf klines :
  forallb storable (map (fun k => from_binance_kline k sym tf) klines)
  = forallb kline_fits klines.
Proof.
  induction klines as [|k klines IH]; simpl; [reflexivity |].
  rewrite IH. reflexivity.
Qed.

(** X5. With the database reachable, a page inserts exactly its fresh
    candles (closed at the clock reading, boundary not yet in the table),
    in page order, each as the exchange sent it, and returns their number,
    provided the numbers of every closed candle of the page fit the
    [Numeric(20, 8)] columns and the boundaries of the fresh candles are
    pairwise distinct.  If two fresh candles of such a page share a
    boundary the commit violates the unique constraint (the session does
    not autoflush, so the second existence query cannot see the first
    pending row): [save_to_database] raises IntegrityError and the whole
    page is rolled back.  If a fresh candle has a number the columns
    refuse, [save_to_database] raises as well and the whole page is
    rolled back. *)
Theorem X5_page_inserts_fresh_candles E self klines w :
  db_down E (sessions w) = false ->
  let t := clock E (clock_reads w) in
  let fresh := fresh_candles self t (table w) klines in
  (Forall (fun k => kline_fits k = true) (filter (is_closed t) klines) ->
   NoDup (map boundary fresh) ->
   exists updated added,
     save_to_database E self klines w
     = (Ok (List.length fresh),
        with_table (ticked (opened w)) (updated ++ added)) /\
     map key updated = map key (table w) /\
     Forall2 (holds_strings self) fresh added) /\
  (Forall (fun k => kline_fits k = true) (filter (is_closed t) klines) ->
   ~ NoDup (map boundary fresh) ->
   fst (save_to_database E self klines w) = Raise IntegrityError /\
   table (snd (save_to_database E self klines w)) = table w) /\
  ((exists k, In k fresh /\ kline_fits k = false) ->
   exists e,
     fst (save_to_database E self klines w) = Raise e /\
     table (snd (save_to_database E self klines w)) = table w).
Proof.
  intros Hup t fresh.
  rewrite save_to_database_unfold. fold t.
  match goal with
  | |- context [for_each ?f klines ?s ?w1] =>
      destruct (for_each_save_pending E self (sessions w) t klines Hup s w1)
        as (st' & Hrun & Hkeys & Hp & Hc);
      pose proof (for_each_save_written E self (sessions w) t (table w)
                    klines) as Hwr;
      specialize (fun H => Hwr H s w1)
  end.
  rewrite Hrun in *. cbn [sess loaded pending saved_count app Nat.add fst] in *.
  fold fresh in Hp, Hc. cbn [finish_save table]. rewrite Hc.
  set (rows := map (fun k => from_binance_kline k (self_symbol self)
                               (self_interval self)) fresh) in *.
  assert (Hv : violates_unique (loaded (sess st')) rows = false
               <-> NoDup (map boundary fresh)).
  { unfold rows.
    rewrite violates_unique_spec, NoDup_map_boundary. split; [tauto |].
    intros Hnd. split; [exact Hnd |].
    intros n Hin. apply in_map_iff in Hin. destruct Hin as (k & <- & Hk).
    unfold fresh, fresh_candles in Hk. apply filter_In in Hk.
    destruct Hk as [_ Hk]. apply andb_true_iff in Hk.
    destruct Hk as [_ Hk]. apply negb_true_iff in Hk.
    rewrite Hkeys. apply existsb_matches_false. exact Hk. }
  assert (Hfresh : Forall (fun k => kline_fits k = true)
                     (filter (is_closed t) klines) ->
                   forallb storable rows = true).
  { intros Hfit. unfold rows. rewrite forallb_storable_klines.
    apply forallb_forall. intros k Hk.
    rewrite Forall_forall in Hfit. apply Hfit.
    unfold fresh, fresh_candles in Hk. apply filter_In in Hk.
    destruct Hk as [Hin Hk]. apply andb_true_iff in Hk.
    apply filter_In. tauto. }
  unfold flush_error. rewrite Hp.
  split; [| split].
  - intros Hfit Hnd.
    rewrite written_storable by (apply (Hwr Hfit), committed_rows).
    replace (insert_error (loaded (sess st')) rows) with (@None exn)
      by (symmetry; apply insert_error_None; split;
          [apply Hfresh, Hfit | apply Hv, Hnd]).
    exists (loaded (sess st')), rows.
    split; [reflexivity |]. split; [exact Hkeys |].
    apply Forall2_holds_strings.
  - intros Hfit Hdup.
    rewrite written_storable by (apply (Hwr Hfit), committed_rows).
    destruct (insert_error (loaded (sess st')) rows) as [e |] eqn:He.
    + rewrite (insert_error_storable _ _ _ (Hfresh Hfit) He).
      split; reflexivity.
    + exfalso. apply Hdup, Hv. apply insert_error_None in He. tauto.
  - intros (k & Hk & Hfit).
    destruct (forallb storable (written _ _));
      [| eexists; split; reflexivity].
    destruct (insert_error (loaded (sess st')) rows) as [e |] eqn:He;
      [eexists; split; reflexivity |].
    exfalso. apply insert_error_None in He. destruct He as [He _].
    unfold rows in He. rewrite forallb_storable_klines in He.
    rewrite forallb_forall in He. rewrite (He k Hk) in Hfit. discriminate.
Qed.

Lemma X5_page_inserts_fresh_candles_witness :
  let E := Scenario.healthy (Scenario.T0 + timedelta.hours 1) in
  let k := Scenario.candle (Scenario.T0 / 1000) (Scenario.price 1) in
  fst (save_to_database E Scenario.btc [k; k] (Scenario.fresh []))
  = Raise IntegrityError /\
  exists added,
    table (snd (save_to_database E Scenario.btc [k] (Scenario.fresh [])))
    = added /\
    Forall2 (holds_strings Scenario.btc) [k] added.
Proof.
  cbv zeta. split.
  - refine (proj1 (proj1 (proj2 (X5_page_inserts_fresh_candles
                            (Scenario.healthy
                               (Scenario.T0 + timedelta.hours 1))
                            Scenario.btc
                            [Scenario.candle (Scenario.T0 / 1000)
                               (Scenario.price 1);
                             Scenario.candle (Scenario.T0 / 1000)
                               (Scenario.price 1)]
                            (Scenario.fresh []) eq_refl)) _ _)).
    + repeat constructor.
    + intros H. inversion H as [|? ? Hn _]. apply Hn. left. reflexivity.
  - destruct (proj1 (X5_page_inserts_fresh_candles
                       (Scenario.healthy (Scenario.T0 + timedelta.hours 1))
                       Scenario.btc
                       [Scenario.candle (Scenario.T0 / 1000)
                          (Scenario.price 1)]
                       (Scenario.fresh []) eq_refl))
      as (u & added & Hrun & Hkeys & Hrows).
    + repeat constructor.
    + constructor; [intros [] | constructor].
    + rewrite Hrun. cbn [snd table with_table].
      destruct u; [| discriminate].
      exists added. split; [reflexivity | exact Hrows].
Defined.

(** ** A database that cannot be reached *)

Lemma for_each_save_db_down E self n t klines :
  db_down E n = true ->
  forall st w,
    snd (for_each (save_kline E self n t) klines st w) = w /\
    if existsb (is_closed t) klines
    then fst (for_each (save_kline E self n t) klines st w)
         = Raise OperationalError
    else exists st',
        fst (for_each (save_kline E self n t) klines st w) = Ok st' /\
        sess st' = sess st /\ saved_count st' = saved_count st.
Proof.
  intros Hdown. induction klines as [|k klines IH]; intros st w.
  - cbn. split; [reflexivity |]. exists st. auto.
  - cbn [for_each existsb]. unfold bind.
    destruct (is_closed t k) eqn:Hk.
    + rewrite (save_kline_closed _ _ _ _ _ _ _ Hk), Hdown. cbn. auto.
    + rewrite (save_kline_open _ _ _ _ _ _ _ Hk). cbn [orb].
      match goal with
      | |- context [for_each _ klines ?s w] => specialize (IH s w)
      end.
      exact IH.
Qed.

Lemma save_to_database_db_down E self klines w :
  db_down E (sessions w) = true ->
  table (snd (save_to_database E self klines w)) = table w /\
  fst (save_to_database E self klines w)
  = if existsb (is_closed (clock E (clock_reads w))) klines
    then Raise OperationalError else Ok 0%nat.
Proof.
  intros Hdown. rewrite save_to_database_unfold.
  match goal with
  | |- context [for_each ?f klines ?s ?w1] =>
      pose proof (for_each_save_db_down E self (sessions w)
                    (clock E (clock_reads w)) klines Hdown s w1) as [Hw H];
      destruct (for_each f klines s w1) as [r w2]
  end.
  cbn [fst snd] in *. subst w2.
  destruct (existsb _ klines).
  - subst r. cbn. auto.
  - destruct H as (st' & -> & Hs & Hc). cbn [finish_save].
    rewrite Hs, Hc. cbn [table]. rewrite flush_error_clean.
    cbn. rewrite app_nil_r. auto.
Qed.

(** ** Upserts: lookup after save, and the last writer *)

Lemma holds_floats_float_row self open_time o h l c v :
  holds_floats self open_time o h l c v (float_row self open_time o h l c v).
Proof. unfold holds_floats. repeat (split; [reflexivity |]). reflexivity. Qed.

Lemma save_to_database_lookup E self k w :
  db_down E (sessions w) = false ->
  is_closed (clock E (clock_reads w)) k = true ->
  kline_fits k = true ->
  exists r,
    query_first (boundary k) (self_symbol self) (self_interval self)
      (table (snd (save_to_database E self [k] w))) = Some r /\
    holds_strings self k r.
Proof.
  intros Hup Hk Hfit.
  exists (from_binance_kline k (self_symbol self) (self_interval self)).
  split; [| apply holds_strings_from_binance_kline].
  destruct (query_first (boundary k) (self_symbol self) (self_interval self)
              (table w)) as [r|] eqn:Hq.
  - rewrite (save_to_database_update E self k w r Hup Hk Hfit Hq).
    cbn [snd table].
    eapply query_first_update_first; eauto.
  - rewrite (save_to_database_insert E self k w Hup Hk Hfit Hq).
    cbn [snd table].
    rewrite (query_first_app_None _ _ _ _ _ Hq).
    unfold query_first. cbn [find].
    replace (matches _ _ _ _) with true; [reflexivity |].
    symmetry. apply matches_spec. auto.
Qed.

Lemma save_kline_to_database_lookup E self msg w :
  db_down E (sessions w) = false ->
  ws_x (ws_k msg) = true ->
  floats_fit (ws_o (ws_k msg)) (ws_h (ws_k msg)) (ws_l (ws_k msg))
    (ws_c (ws_k msg)) (ws_v (ws_k msg)) = true ->
  exists r,
    query_first (fromtimestamp_ms (ws_t (ws_k msg)) + timedelta.hours 3)
      (self_symbol self) (self_interval self)
      (table (snd (save_kline_to_database E self msg w))) = Some r /\
    holds_floats self (ws_t (ws_k msg)) (ws_o (ws_k msg)) (ws_h (ws_k msg))
      (ws_l (ws_k msg)) (ws_c (ws_k msg)) (ws_v (ws_k msg)) r.
Proof.
  intros Hup Hx Hfit.
  rewrite (save_kline_to_database_closed E self msg w Hx Hup Hfit).
  cbv zeta. cbn [snd table with_table].
  set (ohlcv := float_row self (ws_t (ws_k msg)) (ws_o (ws_k msg))
                  (ws_h (ws_k msg)) (ws_l (ws_k msg)) (ws_c (ws_k msg))
                  (ws_v (ws_k msg))).
  change (timestamp_turkey ohlcv)
    with (fromtimestamp_ms (ws_t (ws_k msg)) + timedelta.hours 3).
  exists ohlcv. split; [| apply holds_floats_float_row].
  destruct (query_first _ _ _ (table w)) as [r|] eqn:Hq.
  - eapply query_first_update_first; eauto.
  - rewrite (query_first_app_None _ _ _ _ _ Hq).
    unfold query_first. cbn [find].
    replace (matches _ _ _ _) with true; [reflexivity |].
    symmetry. apply matches_spec. auto.
Qed.

(** X7. Upserts are read back, and the last writer wins: after a closed
    candle whose numbers the [Numeric(20, 8)] columns accept is saved with
    the database reachable, the row found under its boundary holds that
    candle, whether the key was stored before or not: its five numbers as
    the strings of the exchange on the backfill path, as the floats of
    those strings on the live path (these are the objects handed to the
    columns; [numeric_value] is what the server returns for each).  So
    when both paths write one boundary, the row holds the numbers of
    whichever wrote last. *)
Theorem X7_last_writer_wins E self k msg w :
  ws_t (ws_k msg) = k_open_time k ->
  ws_x (ws_k msg) = true ->
  is_closed (clock E (clock_reads w)) k = true ->
  db_down E (sessions w) = false ->
  db_down E (S (sessions w)) = false ->
  kline_fits k = true ->
  floats_fit (ws_o (ws_k msg)) (ws_h (ws_k msg)) (ws_l (ws_k msg))
    (ws_c (ws_k msg)) (ws_v (ws_k msg)) = true ->
  let found := fun w' =>
    query_first (boundary k) (self_symbol self) (self_interval self)
      (table w') in
  let strings := holds_strings self k in
  let floats :=
    holds_floats self (ws_t (ws_k msg)) (ws_o (ws_k msg)) (ws_h (ws_k msg))
      (ws_l (ws_k msg)) (ws_c (ws_k msg)) (ws_v (ws_k msg)) in
  (exists r, found (snd (save_to_database E self [k] w)) = Some r /\
             strings r) /\
  (exists r, found (snd (save_kline_to_database E self msg w)) = Some r /\
             floats r) /\
  (exists r, found (snd (save_kline_to_database E self msg
                           (snd (save_to_database E self [k] w)))) = Some r /\
             floats r) /\
  (exists r, found (snd (save_to_database E self [k]
                           (snd (save_kline_to_database E self msg w))))
             = Some r /\
             strings r).
Proof.
  intros Ht Hx Hk Hup1 Hup2 Hfit Hfloat found strings floats.
  assert (Hb : fromtimestamp_ms (ws_t (ws_k msg)) + timedelta.hours 3
               = boundary k) by (unfold boundary; congruence).
  unfold found, strings, floats. split; [| split; [| split]].
  - apply save_to_database_lookup; assumption.
  - rewrite <- Hb. apply save_kline_to_database_lookup; assumption.
  - rewrite <- Hb.
    apply save_kline_to_database_lookup; [| exact Hx | exact Hfloat].
    destruct (query_first (boundary k) (self_symbol self)
                (self_interval self) (table w)) as [r|] eqn:Hq.
    + rewrite (save_to_database_update E self k w r Hup1 Hk Hfit Hq).
      exact Hup2.
    + rewrite (save_to_database_insert E self k w Hup1 Hk Hfit Hq).
      exact Hup2.
  - rewrite (save_kline_to_database_closed E self msg w Hx Hup1 Hfloat).
    cbv zeta. cbn [snd]. apply save_to_database_lookup.
    + exact Hup2.
    + exact Hk.
    + exact Hfit.
Qed.

Lemma X7_last_writer_wins_witness :
  let E := Scenario.healthy (Scenario.T0 + timedelta.hours 1) in
  let p := Scenario.price 4200000000000 in
  let k := Scenario.candle (Scenario.T0 / 1000) p in
  let msg :=
    mkWsMessage (Some "kline")
      (mkWsKline (Scenario.T0 / 1000) p p p p p true "BTCUSDT") in
  exists r,
    query_first (boundary k) "BTCUSDT" "5m"
      (table (snd (save_to_database E Scenario.btc [k]
                     (snd (save_kline_to_database E Scenario.btc msg
                             (Scenario.fresh []))))))
    = Some r /\
    holds_strings Scenario.btc k r.
Proof.
  cbv zeta.
  exact (proj2 (proj2 (proj2
    (X7_last_writer_wins
       (Scenario.healthy (Scenario.T0 + timedelta.hours 1)) Scenario.btc
       (Scenario.candle (Scenario.T0 / 1000) (Scenario.price 4200000000000))
       (mkWsMessage (Some "kline")
          (mkWsKline (Scenario.T0 / 1000) (Scenario.price 4200000000000)
             (Scenario.price 4200000000000) (Scenario.price 4200000000000)
             (Scenario.price 4200000000000) (Scenario.price 4200000000000)
             true "BTCUSDT"))
       (Scenario.fresh []) eq_refl eq_refl eq_refl eq_refl eq_refl
       eq_refl eq_refl)))).
Defined.

(** ** The live stream *)

Lemma live_session_rows self ohlcv rows :
  loaded (live_session self ohlcv rows) ++ pending (live_session self ohlcv rows)
  = live_upsert self ohlcv rows.
Proof.
  unfold live_session, live_upsert.
  destruct (query_first _ _ _ rows); cbn [loaded pending];
    [apply app_nil_r | reflexivity].
Qed.

(** A row that fits its columns, of the collector's symbol and interval,
    is not refused. *)
Lemma live_refused_fits self ohlcv rows :
  storable ohlcv = true ->
  symbol ohlcv = self_symbol self ->
  timeframe ohlcv = self_interval self ->
  live_refused self ohlcv rows = false.
Proof.
  intros Hs Hsym Htf. unfold live_refused, live_session, flush_error.
  destruct (query_first _ _ _ rows) eqn:Hq; cbn [loaded pending insert_error].
  - rewrite written_storable
      by (apply update_first_written; [exact Hs | apply committed_rows]).
    reflexivity.
  - rewrite written_committed, Hs, Hsym, Htf. cbn [negb].
    rewrite (query_first_None_existsb _ _ _ _ Hq). reflexivity.
Qed.

Lemma save_kline_to_database_cases E self msg w :
  save_kline_to_database E self msg w
  = if negb (ws_x (ws_k msg)) then (Ok false, w)
    else if db_down E (sessions w)
            || live_refused self (message_row self msg) (table w)
         then (Ok false,
               with_log (opened w)
                 [(ERROR, "Database session error");
                  (ERROR, "Error saving kline to database")])
         else (Ok true,
               with_table (opened w)
                 (live_upsert self (message_row self msg) (table w))).
Proof.
  destruct (ws_x (ws_k msg)) eqn:Hx; cbn [negb];
    [| apply save_kline_to_database_open, Hx].
  unfold save_kline_to_database, try_except. rewrite Hx. cbn [negb].
  unfold bind at 1. unfold get_session, begin_session.
  unfold bind at 1. cbn [fst snd]. unfold try_except.
  unfold bind at 1. unfold query at 1. cbn [sessions].
  destruct (db_down E (sessions w)) eqn:Hdb; cbn [orb].
  - unfold raise, bind, logger, ret, with_log, opened.
    simpl. rewrite <- app_assoc. reflexivity.
  - unfold ret at 1. cbn [loaded pending app].
    unfold live_refused, live_upsert, live_session, commit.
    fold (message_row self msg).
    change (timestamp_turkey (message_row self msg))
      with (fromtimestamp_ms (ws_t (ws_k msg)) + timedelta.hours 3).
    cbn [table].
    destruct (query_first _ _ _ (table w)) eqn:Hq;
      destruct (flush_error _ _); cbn [loaded pending];
      unfold raise, bind, logger, ret, with_log, with_table, opened;
      simpl; rewrite <- ?app_assoc, ?app_nil_r; reflexivity.
Qed.

Lemma handle_message_cases E self message w :
  handle_message E self message w
  = match message with
    | None => (Ok tt, with_log w [(ERROR, "Error decoding WebSocket message")])
    | Some data =>
        match ws_e data with
        | Some e =>
            if String.eqb e "kline" && ws_x (ws_k data)
            then (Ok tt, snd (save_kline_to_database E self data w))
            else (Ok tt, w)
        | None => (Ok tt, w)
        end
    end.
Proof.
  unfold handle_message, try_except.
  destruct message as [data|]; [| reflexivity].
  destruct (ws_e data) as [e|]; [| reflexivity].
  destruct (String.eqb e "kline"); [| reflexivity].
  destruct (ws_x (ws_k data)) eqn:Hx; [| reflexivity].
  cbn [andb]. unfold bind. rewrite save_kline_to_database_cases.
  rewrite Hx. cbn [negb].
  destruct (db_down E (sessions w) || live_refused _ _ _); reflexivity.
Qed.

Lemma message_row_key self msg :
  key (message_row self msg)
  = (fromtimestamp_ms (ws_t (ws_k msg)) + timedelta.hours 3,
     self_symbol self, self_interval self).
Proof. reflexivity. Qed.

Lemma update_first_idem ts sym tf new rows :
  update_first ts sym tf new (update_first ts sym tf new rows)
  = update_first ts sym tf new rows.
Proof.
  induction rows as [|r rows IH]; simpl; [reflexivity |].
  destruct (matches ts sym tf r) eqn:Hm.
  - simpl. unfold matches at 1. cbn [timestamp_turkey symbol timeframe].
    fold (matches ts sym tf r). rewrite Hm. reflexivity.
  - simpl. rewrite Hm, IH. reflexivity.
Qed.

Lemma live_upsert_idem self ohlcv rows :
  symbol ohlcv = self_symbol self ->
  timeframe ohlcv = self_interval self ->
  live_upsert self ohlcv (live_upsert self ohlcv rows)
  = live_upsert self ohlcv rows.
Proof.
  intros Hs Hf. unfold live_upsert at 2 3.
  destruct (query_first _ _ _ rows) as [r|] eqn:Hq.
  - unfold live_upsert.
    rewrite (query_first_update_first _ _ _ ohlcv rows r Hq eq_refl Hs Hf).
    apply update_first_idem.
  - unfold live_upsert. rewrite (query_first_app_None _ _ _ _ _ Hq).
    unfold query_first. cbn [find].
    assert (Hm : matches (timestamp_turkey ohlcv) (self_symbol self)
                   (self_interval self) ohlcv = true)
      by (apply matches_spec; auto).
    rewrite Hm. rewrite (update_first_app_None _ _ _ _ _ _ Hq).
    rewrite (update_first_hit _ _ _ _ _ _ Hm); auto.
Qed.

Lemma live_upsert_effect self ohlcv rows :
  symbol ohlcv = self_symbol self ->
  timeframe ohlcv = self_interval self ->
  offset_ok ohlcv ->
  (unique_keys rows -> unique_keys (live_upsert self ohlcv rows)) /\
  filter (foreign self) (live_upsert self ohlcv rows)
  = filter (foreign self) rows /\
  (Forall offset_ok rows -> Forall offset_ok (live_upsert self ohlcv rows)) /\
  incl (map key rows) (map key (live_upsert self ohlcv rows)) /\
  (List.length rows <= List.length (live_upsert self ohlcv rows)
   <= S (List.length rows))%nat.
Proof.
  intros Hs Hf Ho. unfold live_upsert.
  destruct (query_first _ _ _ rows) as [r|] eqn:Hq.
  - split; [| split; [| split; [| split]]].
    + unfold unique_keys. rewrite update_first_keys. auto.
    + apply update_first_foreign.
    + intros Hall. apply update_first_offset; auto.
    + rewrite update_first_keys. apply incl_refl.
    + assert (Hl : List.length (update_first (timestamp_turkey ohlcv)
                                  (self_symbol self) (self_interval self)
                                  ohlcv rows) = List.length rows).
      { rewrite <- (length_map key), update_first_keys, length_map.
        reflexivity. }
      lia.
  - split; [| split; [| split; [| split]]].
    + intros Hu. unfold unique_keys. rewrite map_app. cbn [map].
      eapply Permutation_NoDup; [apply Permutation_cons_append |].
      constructor; [| exact Hu].
      apply query_first_None_existsb in Hq.
      apply existsb_matches_false in Hq.
      unfold key. rewrite Hs, Hf. exact Hq.
    + rewrite filter_app. cbn [filter]. unfold foreign at 2.
      rewrite Hs, Hf, !String.eqb_refl. cbn. apply app_nil_r.
    + intros Hall. apply Forall_app. split; [exact Hall |].
      constructor; [exact Ho | constructor].
    + rewrite map_app. apply incl_appl, incl_refl.
    + rewrite length_app. cbn [List.length]. lia.
Qed.

(** X8. Duplicate delivery is harmless: with the database reachable,
    storing the same stream message a second time leaves the table exactly
    as the first time left it (and a message whose candle is not closed
    changes nothing either time). *)
Theorem X8_live_upsert_idempotent E self msg w :
  db_down E (sessions w) = false ->
  db_down E (S (sessions w)) = false ->
  table (snd (save_kline_to_database E self msg
                (snd (save_kline_to_database E self msg w))))
  = table (snd (save_kline_to_database E self msg w)).
Proof.
  intros Hup1 Hup2.
  rewrite (save_kline_to_database_cases E self msg w).
  destruct (ws_x (ws_k msg)) eqn:Hx; cbn [negb].
  - rewrite Hup1. cbn [orb].
    destruct (live_refused self (message_row self msg) (table w)) eqn:Hr;
      cbn [snd]; rewrite save_kline_to_database_cases, Hx;
      cbn [negb with_table with_log opened sessions table]; rewrite Hup2;
      cbn [orb].
    + rewrite Hr. reflexivity.
    + destruct (live_refused self (message_row self msg)
                  (live_upsert self (message_row self msg) (table w)));
        cbn [snd table with_table with_log opened];
        [reflexivity | apply live_upsert_idem; reflexivity].
  - cbn [snd]. rewrite save_kline_to_database_cases, Hx. reflexivity.
Qed.

Lemma X8_live_upsert_idempotent_witness :
  let E := Scenario.healthy Scenario.T0 in
  let p := Scenario.price 4200000000000 in
  let msg :=
    mkWsMessage (Some "kline")
      (mkWsKline (Scenario.T0 / 1000) p p p p p true "BTCUSDT") in
  table (snd (save_kline_to_database E Scenario.btc msg
                (snd (save_kline_to_database E Scenario.btc msg
                        (Scenario.fresh [])))))
  = table (snd (save_kline_to_database E Scenario.btc msg
                  (Scenario.fresh []))).
Proof.
  cbv zeta.
  exact (X8_live_upsert_idempotent (Scenario.healthy Scenario.T0)
           Scenario.btc
           (mkWsMessage (Some "kline")
              (mkWsKline (Scenario.T0 / 1000)
                 (Scenario.price 4200000000000)
                 (Scenario.price 4200000000000)
                 (Scenario.price 4200000000000)
                 (Scenario.price 4200000000000)
                 (Scenario.price 4200000000000) true "BTCUSDT"))
           (Scenario.fresh []) eq_refl eq_refl).
Defined.

Lemma save_kline_to_database_table E self msg w :
  table (snd (save_kline_to_database E self msg w)) = table w \/
  table (snd (save_kline_to_database E self msg w))
  = live_upsert self (message_row self msg) (table w).
Proof.
  rewrite save_kline_to_database_cases.
  destruct (negb _); [left; reflexivity |].
  destruct (db_down E (sessions w) || live_refused _ _ _); [left | right];
    reflexivity.
Qed.

Lemma handle_message_effect E self message w :
  exists w',
    handle_message E self message w = (Ok tt, w') /\
    requests w' = requests w /\
    (unique_keys (table w) -> unique_keys (table w')) /\
    filter (foreign self) (table w') = filter (foreign self) (table w) /\
    (Forall offset_ok (table w) -> Forall offset_ok (table w')) /\
    incl (map key (table w)) (map key (table w')) /\
    (List.length (table w) <= List.length (table w')
     <= S (List.length (table w)))%nat.
Proof.
  assert (Hsame : forall w', table w' = table w -> requests w' = requests w ->
            requests w' = requests w /\
            (unique_keys (table w) -> unique_keys (table w')) /\
            filter (foreign self) (table w') = filter (foreign self) (table w)
            /\ (Forall offset_ok (table w) -> Forall offset_ok (table w')) /\
            incl (map key (table w)) (map key (table w')) /\
            (List.length (table w) <= List.length (table w')
             <= S (List.length (table w)))%nat).
  { intros w' Ht Hr. rewrite Ht. repeat split; auto using incl_refl. }
  rewrite handle_message_cases.
  destruct message as [data|];
    [| eexists; split; [reflexivity | apply Hsame; reflexivity]].
  destruct (ws_e data) as [e|];
    [| eexists; split; [reflexivity | apply Hsame; reflexivity]].
  destruct (String.eqb e "kline" && ws_x (ws_k data));
    [| eexists; split; [reflexivity | apply Hsame; reflexivity]].
  eexists. split; [reflexivity |].
  assert (Hr : requests (snd (save_kline_to_database E self data w))
               = requests w).
  { rewrite save_kline_to_database_cases.
    destruct (negb _); [reflexivity |].
    destruct (db_down E (sessions w) || live_refused _ _ _); reflexivity. }
  destruct (save_kline_to_database_table E self data w) as [Ht | Ht].
  - apply Hsame; assumption.
  - rewrite Ht. split; [exact Hr |].
    apply (live_upsert_effect self (message_row self data) (table w));
      reflexivity.
Qed.

(** X9. No stream message stops the stream or damages the table:
    [handle_message] returns normally on every message (undecodable text,
    other events, open and closed candles) whether or not the database
    answers; it issues no REST request; it adds at most one row and removes
    none; and it keeps the unique constraint, the fixed three-hour offset
    and the rows of every other symbol or interval. *)
Theorem X9_handle_message_safe E self message w :
  exists w',
    handle_message E self message w = (Ok tt, w') /\
    requests w' = requests w /\
    (unique_keys (table w) -> unique_keys (table w')) /\
    filter (foreign self) (table w') = filter (foreign self) (table w) /\
    (Forall offset_ok (table w) -> Forall offset_ok (table w')) /\
    incl (map key (table w)) (map key (table w')) /\
    (List.length (table w) <= List.length (table w')
     <= S (List.length (table w)))%nat.
Proof. apply handle_message_effect. Qed.

(** ** Reconnecting *)

Lemma kept_refl self w : kept self w w.
Proof. unfold kept. repeat split; auto using incl_refl. Qed.

Lemma kept_trans self a b c : kept self a b -> kept self b c -> kept self a c.
Proof.
  unfold kept. intros (H1 & H2 & H3 & H4 & H5) (G1 & G2 & G3 & G4 & G5).
  repeat split; try congruence; auto. eapply incl_tran; eauto.
Qed.

Lemma kept_same self w w' :
  table w' = table w -> requests w' = requests w -> kept self w w'.
Proof.
  intros Ht Hr. unfold kept. rewrite Ht, Hr.
  repeat split; auto using incl_refl.
Qed.

Lemma handle_message_kept E self message w :
  exists w', handle_message E self message w = (Ok tt, w') /\ kept self w w'.
Proof.
  destruct (handle_message_effect E self message w)
    as (w' & Hrun & H1 & H2 & H3 & H4 & H5 & _).
  exists w'. unfold kept. auto 10.
Qed.

Lemma receive_kept E self running messages :
  forall w,
    exists w', receive E self running messages w = (Ok tt, w') /\
               kept self w w'.
Proof.
  induction messages as [|m messages IH]; intros w; cbn [receive].
  - exists w. split; [reflexivity | apply kept_refl].
  - destruct running; cbn [negb].
    + unfold bind.
      destruct (handle_message_kept E self m w) as (w1 & Hrun & Hk).
      rewrite Hrun. destruct (IH w1) as (w2 & Hrun2 & Hk2).
      exists w2. split; [exact Hrun2 | eapply kept_trans; eauto].
    + exists w. split; [reflexivity | apply kept_refl].
Qed.

Lemma on_disconnect_eq l line st w :
  on_disconnect l line st w
  = if (S (retry_count st) <? max_retries)%nat
    then (Ok {| is_running := is_running st;
                retry_count := S (retry_count st);
                attempt := attempt st |},
          with_log w [(l, line)])
    else (Ok {| is_running := false; retry_count := S (retry_count st);
                attempt := attempt st |},
          with_log w
            [(l, line); (ERROR, "Max retries reached. Stopping collector.")]).
Proof.
  unfold on_disconnect, bind, logger, ret, with_log. cbn [log table
    clock_reads requests sessions].
  destruct (S (retry_count st) <? max_retries)%nat; [reflexivity |].
  cbn. rewrite <- app_assoc. reflexivity.
Qed.

Lemma connect_once_kept E self websocket st w :
  exists st' w',
    connect_once E self websocket st w = (Ok st', w') /\
    kept self w w' /\
    attempt st' = S (attempt st) /\
    (forall messages ending,
        websocket (attempt st) = Connected messages ending ->
        is_running st' = is_running st /\ (retry_count st' <= 1)%nat).
Proof.
  unfold connect_once.
  destruct (websocket (attempt st)) as [|messages ending].
  - rewrite on_disconnect_eq. cbn [retry_count is_running attempt].
    destruct (_ <? _)%nat; eexists _, _;
      (split; [reflexivity |]);
      (split; [apply kept_same; reflexivity |]);
      (split; [reflexivity | discriminate]).
  - cbv zeta. unfold bind. cbn [is_running].
    destruct (receive_kept E self (is_running st) messages w)
      as (w1 & Hrun & Hk).
    rewrite Hrun.
    destruct ending; try rewrite on_disconnect_eq;
      cbn [retry_count is_running attempt];
      change (1 <? max_retries)%nat with true; cbv iota;
      eexists _, _; (split; [reflexivity |]);
      (split; [first [exact Hk
                     | eapply kept_trans;
                       [exact Hk | apply kept_same; reflexivity]] |]);
      (split; [reflexivity |]);
      intros ? ? _; cbn; split; auto.
Qed.

Lemma stream_loop_kept E self websocket fuel :
  forall st w,
    exists r w',
      stream_loop E self websocket fuel st w = (Ok r, w') /\ kept self w w'.
Proof.
  induction fuel as [|fuel IH]; intros st w; cbn [stream_loop].
  - destruct (_ && _); eexists _, _; split;
      try reflexivity; apply kept_refl.
  - destruct (_ && _);
      [| eexists _, _; split; [reflexivity | apply kept_refl]].
    unfold bind.
    destruct (connect_once_kept E self websocket st w)
      as (st1 & w1 & Hrun & Hk & _).
    rewrite Hrun. destruct (IH st1 w1) as (r & w2 & Hrun2 & Hk2).
    exists r, w2. split; [exact Hrun2 | eapply kept_trans; eauto].
Qed.

(** Consecutive failed connection attempts, up to the cap. *)
Lemma stream_loop_failures E self websocket n :
  forall st w fuel,
    is_running st = true ->
    (retry_count st + S n = max_retries)%nat ->
    (forall i, (i <= n)%nat -> websocket (attempt st + i)%nat = ConnectFailed)
    -> (S n <= fuel)%nat ->
    exists w',
      stream_loop E self websocket fuel st w
      = (Ok (Some {| is_running := false; retry_count := max_retries;
                     attempt := (attempt st + S n)%nat |}), w') /\
      table w' = table w /\ requests w' = requests w /\
      sessions w' = sessions w.
Proof.
  induction n as [|n IH]; intros st w fuel Hrun Hcount Hfail Hfuel.
  - destruct fuel as [|fuel]; [lia |]. cbn [stream_loop].
    rewrite Hrun.
    replace (retry_count st <? max_retries)%nat with true
      by (symmetry; apply Nat.ltb_lt; lia).
    cbn [andb]. unfold bind, connect_once.
    specialize (Hfail 0%nat (Nat.le_refl _)). rewrite Nat.add_0_r in Hfail.
    rewrite Hfail, on_disconnect_eq. cbn [retry_count is_running attempt].
    replace (S (retry_count st) <? max_retries)%nat with false
      by (symmetry; apply Nat.ltb_ge; lia).
    replace (S (retry_count st)) with max_retries by lia.
    replace (attempt st + 1)%nat with (S (attempt st)) by lia.
    destruct fuel; cbn [stream_loop is_running andb]; eexists;
      (split; [reflexivity |]); auto.
  - destruct fuel as [|fuel]; [lia |]. cbn [stream_loop].
    rewrite Hrun.
    replace (retry_count st <? max_retries)%nat with true
      by (symmetry; apply Nat.ltb_lt; lia).
    cbn [andb]. unfold bind, connect_once.
    pose proof (Hfail 0%nat (Nat.le_0_l _)) as H0.
    rewrite Nat.add_0_r in H0.
    rewrite H0, on_disconnect_eq. cbn [retry_count is_running attempt].
    replace (S (retry_count st) <? max_retries)%nat with true
      by (symmetry; apply Nat.ltb_lt; lia).
    match goal with
    | |- context [stream_loop _ _ _ fuel ?s ?w1] =>
        destruct (IH s w1 fuel) as (w' & Hres & Ht & Hr & Hs)
    end; cbn [is_running retry_count attempt]; try lia; try exact Hrun.
    + intros i Hi. replace (S (attempt st) + i)%nat
        with (attempt st + S i)%nat by lia.
      apply Hfail. lia.
    + exists w'. rewrite Hres. cbn [attempt is_running retry_count].
      replace (S (attempt st) + S n)%nat with (attempt st + S (S n))%nat
        by lia.
      split; [reflexivity |]. cbn [table requests sessions with_log] in *.
      auto.
Qed.

(** X10. Reconnect bound: entered running, if the first five calls of
    [websockets.connect] fail, [connect_and_stream] makes exactly these
    five attempts, sets [self.is_running] to false and returns; no row and
    no request is touched on the way. *)
Theorem X10_reconnect_bound E self websocket w fuel :
  (forall i, (i < 5)%nat -> websocket i = ConnectFailed) ->
  (5 <= fuel)%nat ->
  exists w',
    connect_and_stream E self websocket fuel true w
    = (Ok (Some {| is_running := false; retry_count := 5; attempt := 5 |}),
       w') /\
    table w' = table w /\ requests w' = requests w.
Proof.
  intros Hfail Hfuel. unfold connect_and_stream.
  destruct (stream_loop_failures E self websocket 4
              {| is_running := true; retry_count := 0; attempt := 0 |}
              w fuel) as (w' & Hres & Ht & Hr & _);
    cbn [is_running retry_count attempt]; auto.
  - intros i Hi. apply Hfail. cbn. lia.
  - exists w'. auto.
Qed.

Lemma X10_reconnect_bound_witness :
  exists w',
    connect_and_stream (Scenario.healthy Scenario.T0) Scenario.btc
      (fun _ => ConnectFailed) 7 true (Scenario.fresh [])
    = (Ok (Some {| is_running := false; retry_count := 5; attempt := 5 |}),
       w').
Proof.
  destruct (X10_reconnect_bound (Scenario.healthy Scenario.T0) Scenario.btc
              (fun _ => ConnectFailed) (Scenario.fresh []) 7
              (fun _ _ => eq_refl)) as (w' & H & _).
  - repeat constructor.
  - exists w'. exact H.
Defined.

(** X11. The retry counter is reset by every connection that is
    established: if every call of [websockets.connect] succeeds, however
    each connection then ends (closed by the peer, dropped with an
    exception, even at once with no message), [connect_and_stream] never
    reaches "Max retries" and is still looping after any number of
    attempts. *)
Theorem X11_no_bound_once_connected E self websocket w fuel :
  (forall i, exists messages ending,
      websocket i = Connected messages ending) ->
  fst (connect_and_stream E self websocket fuel true w) = Ok None.
Proof.
  intros Hconn. unfold connect_and_stream.
  assert (H : forall st w0,
             is_running st = true -> (retry_count st <= 1)%nat ->
             fst (stream_loop E self websocket fuel st w0) = Ok None).
  { induction fuel as [|fuel IH]; intros st w0 Hrun Hcount;
      cbn [stream_loop]; rewrite Hrun;
      replace (retry_count st <? max_retries)%nat with true
        by (symmetry; apply Nat.ltb_lt; unfold max_retries; lia);
      cbn [andb]; [reflexivity |].
    unfold bind.
    destruct (connect_once_kept E self websocket st w0)
      as (st1 & w1 & Hres & _ & _ & Hst).
    rewrite Hres.
    destruct (Hconn (attempt st)) as (messages & ending & Hc).
    destruct (Hst messages ending Hc) as [Hr1 Hc1].
    apply IH; [congruence | exact Hc1]. }
  apply H; cbn; auto.
Qed.

Lemma X11_no_bound_once_connected_witness :
  fst (connect_and_stream (Scenario.healthy Scenario.T0) Scenario.btc
         (fun _ => Connected [] ConnectionClosed) 100 true
         (Scenario.fresh [])) = Ok None.
Proof.
  exact (X11_no_bound_once_connected (Scenario.healthy Scenario.T0)
           Scenario.btc (fun _ => Connected [] ConnectionClosed)
           (Scenario.fresh []) 100
           (fun _ => ex_intro _ [] (ex_intro _ ConnectionClosed eq_refl))).
Defined.

(** X12. However long the stream runs and whatever it delivers,
    [connect_and_stream] never raises, issues no REST request, and keeps
    the unique constraint, the rows of other symbols and intervals, the
    fixed offset and every key already stored. *)
Theorem X12_stream_keeps_table E self websocket fuel running w :
  exists r w',
    connect_and_stream E self websocket fuel running w = (Ok r, w') /\
    requests w' = requests w /\
    (unique_keys (table w) -> unique_keys (table w')) /\
    filter (foreign self) (table w') = filter (foreign self) (table w) /\
    (Forall offset_ok (table w) -> Forall offset_ok (table w')) /\
    incl (map key (table w)) (map key (table w')).
Proof.
  unfold connect_and_stream.
  destruct (stream_loop_kept E self websocket fuel
              {| is_running := running; retry_count := 0; attempt := 0 |} w)
    as (r & w' & Hrun & Hk).
  exists r, w'. split; [exact Hrun | exact Hk].
Qed.

(** ** The requests of a range *)

Lemma timestamp_ms_mono a b : a <= b -> timestamp_ms a <= timestamp_ms b.
Proof. intros H. unfold timestamp_ms. apply Z.quot_le_mono; lia. Qed.

Lemma save_to_database_requests E self klines w :
  requests (snd (save_to_database E self klines w)) = requests w.
Proof. apply save_to_database_effect. Qed.

(** Every pass issues exactly one request, for the current cursor. *)
Lemma fetch_range_body_requests E self end_time st w :
  exists c st' w',
    fetch_range_body E self end_time st w = (Ok (c, st'), w') /\
    iteration st' = S (iteration st) /\
    current_start st <= current_start st' /\
    requests w'
    = requests w ++ [page_request self (current_start st) end_time].
Proof.
  destruct (binance E (List.length (requests w))
              (page_request self (current_start st) end_time))
    as [[|k page] | e] eqn:Hb.
  - rewrite (fetch_range_body_empty _ _ _ _ _ Hb).
    destruct (Qlt_bool _ _); eexists _, _, _; (split; [reflexivity |]);
      cbn [iteration current_start skipped requests with_log with_request];
      unfold timedelta.hours; repeat split; lia.
  - rewrite (fetch_range_body_page _ _ _ _ _ _ _ Hb).
    pose proof (save_to_database_requests E self (k :: page)
                  (with_request w
                     (page_request self (current_start st) end_time))) as Hr.
    destruct (save_to_database _ _ _ _) as [[saved | e] w'];
      cbn [snd requests with_request] in Hr.
    + cbv zeta. destruct (Z.leb_spec
        (fromtimestamp_ms (k_open_time (last (k :: page) k))
         + timedelta.minutes 5) (current_start st));
        eexists _, _, _; (split; [reflexivity |]);
        cbn [iteration current_start skipped requests with_log];
        unfold timedelta.hours; repeat split; auto; lia.
    + eexists _, _, _. split; [reflexivity |].
      cbn [iteration current_start skipped requests with_log].
      unfold timedelta.hours. repeat split; auto; lia.
  - rewrite (fetch_range_body_error _ _ _ _ _ _ Hb).
    eexists _, _, _. split; [reflexivity |].
    cbn [iteration current_start skipped requests with_log with_request].
    unfold timedelta.hours. repeat split; lia.
Qed.

Lemma while_loop_requests E self fuel end_time :
  forall st w,
    exists st' w' new,
      while_loop E self fuel end_time st w = (Ok st', w') /\
      requests w' = requests w ++ new /\
      (iteration st + List.length new = iteration st')%nat /\
      Forall (page_of_range self (current_start st) end_time) new.
Proof.
  induction fuel as [|fuel IH]; intros st w; cbn [while_loop].
  - exists st, w, []. rewrite app_nil_r. cbn. repeat split; auto.
  - destruct (loop_guard end_time st);
      [| exists st, w, []; rewrite app_nil_r; cbn; repeat split; auto].
    unfold bind.
    destruct (fetch_range_body_requests E self end_time st w)
      as (c & st1 & w1 & Hrun & Hit & Hcur & Hreq).
    rewrite Hrun. cbn [fst snd].
    assert (Hfirst : page_of_range self (current_start st) end_time
                       (page_request self (current_start st) end_time))
      by (unfold page_of_range, page_request; cbn; repeat split; lia).
    destruct c.
    + destruct (IH st1 w1) as (st' & w' & new & Hrun' & Hreq' & Hit' & Hall).
      exists st', w', (page_request self (current_start st) end_time :: new).
      split; [exact Hrun' |]. split.
      * rewrite Hreq', Hreq, <- app_assoc. reflexivity.
      * split; [cbn [List.length]; lia |].
        constructor; [exact Hfirst |].
        eapply Forall_impl; [| exact Hall].
        intros r (H1 & H2 & H3 & H4 & H5). repeat split; auto.
        pose proof (timestamp_ms_mono _ _ Hcur). lia.
    + exists st1, w1, [page_request self (current_start st) end_time].
      split; [reflexivity |]. split; [exact Hreq |].
      split; [cbn [List.length]; lia |].
      constructor; [exact Hfirst | constructor].
Qed.

Lemma fetch_range_requests E self start_time end_time w :
  exists new,
    requests (snd (fetch_range E self start_time end_time w))
    = requests w ++ new /\
    (List.length new <= max_iterations)%nat /\
    Forall (page_of_range self start_time end_time) new /\
    (end_time <= start_time -> new = []).
Proof.
  destruct (fetch_range_terminates E self start_time end_time w)
    as (st' & w' & Hexec & Hbound & Hrun).
  destruct (while_loop_requests E self max_iterations end_time
              {| current_start := start_time; iteration := 0;
                 total_saved := 0 |} w)
    as (st2 & w2 & new & Hrun2 & Hreq & Hit & Hall).
  assert (Heq : st2 = st' /\ w2 = w').
  { unfold fetch_range, bind in Hrun. rewrite Hrun2 in Hrun.
    unfold ret in Hrun. inversion Hrun.
    destruct (while_loop_terminates E self end_time max_iterations
                {| current_start := start_time; iteration := 0;
                   total_saved := 0 |} w)
      as (st3 & w3 & Hrun3 & Hexec3 & _);
      [cbn [iteration]; lia | cbn [iteration]; lia |].
    rewrite Hrun2 in Hrun3. inversion Hrun3. subst.
    eapply while_exec_deterministic; eauto. }
  destruct Heq as [-> ->].
  exists new. rewrite Hrun. cbn [snd iteration current_start] in *.
  split; [exact Hreq |]. split; [lia |]. split; [exact Hall |].
  intros Hempty.
  inversion Hexec as [? ? Hg | ? ? ? ? Hg | ? ? ? ? ? ? Hg]; subst.
  - rewrite <- (app_nil_r (requests w')) in Hreq at 1.
    apply app_inv_head in Hreq. auto.
  - unfold loop_guard in Hg. cbn in Hg.
    destruct (Z.ltb_spec start_time end_time); [lia | discriminate].
  - unfold loop_guard in Hg. cbn in Hg.
    destruct (Z.ltb_spec start_time end_time); [lia | discriminate].
Qed.

(** X13. The requests of [fetch_range]: at most [max_iterations] (500)
    REST calls are issued for a range, none when the range is empty
    ([end_time <= start_time]); every one is for the collector's symbol and
    interval with limit 1000, ends at [end_time], and starts at or after
    [start_time] (in whole milliseconds). *)
Theorem X13_range_requests E self start_time end_time w :
  exists new,
    requests (snd (fetch_range E self start_time end_time w))
    = requests w ++ new /\
    (List.length new <= 500)%nat /\
    Forall (page_of_range self start_time end_time) new /\
    (end_time <= start_time -> new = []).
Proof. apply fetch_range_requests. Qed.

(** The first request of a loop that runs is for its cursor. *)
Lemma while_loop_first_request E self fuel end_time st w :
  loop_guard end_time st = true ->
  exists st' w' rest,
    while_loop E self (S fuel) end_time st w = (Ok st', w') /\
    requests w'
    = requests w ++ page_request self (current_start st) end_time :: rest.
Proof.
  intros Hg. cbn [while_loop]. rewrite Hg. unfold bind.
  destruct (fetch_range_body_requests E self end_time st w)
    as (c & st1 & w1 & Hrun & _ & _ & Hreq).
  rewrite Hrun. cbn [fst snd].
  destruct c.
  - destruct (while_loop_requests E self fuel end_time st1 w1)
      as (st2 & w2 & new & Hrun2 & Hreq2 & _).
    exists st2, w2, new. split; [exact Hrun2 |].
    rewrite Hreq2, Hreq, <- app_assoc. reflexivity.
  - exists st1, w1, []. split; [reflexivity | exact Hreq].
Qed.

(** The first request of a non-empty range is for its start. *)
Lemma fetch_range_first_request E self start_time end_time w :
  start_time < end_time ->
  exists rest,
    requests (snd (fetch_range E self start_time end_time w))
    = requests w ++ page_request self start_time end_time :: rest.
Proof.
  intros Hlt.
  destruct (while_loop_first_request E self 499 end_time
              {| current_start := start_time; iteration := 0;
                 total_saved := 0 |} w)
    as (st' & w' & rest & Hrun & Hreq).
  { unfold loop_guard. cbn [current_start iteration].
    apply andb_true_iff. split; [apply Z.ltb_lt, Hlt | reflexivity]. }
  exists rest. unfold fetch_range, bind.
  change max_iterations with (S 499). rewrite Hrun. exact Hreq.
Qed.

(** ** A database that cannot be reached, throughout *)

(** X6. Total database outage: while the database is unreachable in every
    session, [backfill_data] takes the failed latest-boundary query for an
    empty table and still issues the REST requests of the bootstrap range
    [[t - days, t)] for the clock reading [t] it takes (the first of them,
    when [days] is positive, for the start of that range), stores nothing
    and returns normally, with the count 0. *)
Theorem X6_outage_returns_zero E self days w :
  (forall n, db_down E n = true) ->
  let t := clock E (clock_reads w) in
  fst (backfill_data E self days w) = Ok 0%nat /\
  table (snd (backfill_data E self days w)) = table w /\
  fst (get_last_record_time E self w) = Ok None /\
  exists new,
    requests (snd (backfill_data E self days w)) = requests w ++ new /\
    (List.length new <= 500)%nat /\
    Forall (page_of_range self (t - timedelta.days days) t) new /\
    (0 < days ->
     exists rest,
       new = page_request self (t - timedelta.days days) t :: rest).
Proof.
  intros Hdown t.
  assert (Ht : table (snd (backfill_data E self days w)) = table w).
  { symmetry. apply (backfill_data_lift E self eq); [auto | congruence |].
    intros klines w0. symmetry.
    apply save_to_database_db_down, Hdown. }
  destruct (backfill_data_count E self days w) as (n & Hres & Hlen).
  rewrite Ht in Hlen. replace n with 0%nat in Hres by lia.
  split; [exact Hres |]. split; [exact Ht |].
  split; [rewrite get_last_record_time_eq, Hdown; reflexivity |].
  rewrite backfill_data_unfold, get_last_record_time_eq, Hdown.
  cbv zeta. cbn [clock_reads with_log opened]. fold t.
  match goal with
  | |- context [fetch_range E self ?a ?b ?w0] =>
      destruct (fetch_range_requests E self a b w0)
        as (new & Hreq & Hlen' & Hall & _);
      pose proof (fetch_range_first_request E self a b w0) as Hfirst
  end.
  cbn [requests ticked with_log opened] in *.
  exists new. split; [exact Hreq |]. split; [exact Hlen' |].
  split; [exact Hall |].
  intros Hdays.
  destruct Hfirst as (rest & Hfirst);
    [unfold timedelta.days; lia |].
  exists rest. rewrite Hreq in Hfirst.
  apply app_inv_head in Hfirst. exact Hfirst.
Qed.

Lemma X6_outage_returns_zero_witness :
  let E := {| clock := fun _ => Scenario.T0;
              binance := Scenario.exchange;
              db_down := fun _ => true |} in
  fst (backfill_data E Scenario.btc 1 (Scenario.fresh [Scenario.row_T0]))
  = Ok 0%nat /\
  exists rest,
    requests (snd (backfill_data E Scenario.btc 1
                     (Scenario.fresh [Scenario.row_T0])))
    = page_request Scenario.btc (Scenario.T0 - timedelta.days 1) Scenario.T0
      :: rest.
Proof.
  cbv zeta.
  destruct (X6_outage_returns_zero
              {| clock := fun _ => Scenario.T0;
                 binance := Scenario.exchange;
                 db_down := fun _ => true |}
              Scenario.btc 1 (Scenario.fresh [Scenario.row_T0])
              (fun _ => eq_refl))
    as (H0 & _ & _ & new & Hreq & _ & _ & Hfirst).
  split; [exact H0 |].
  destruct (Hfirst eq_refl) as (rest & ->).
  exists rest. exact Hreq.
Defined.

Lemma page_of_range_weaken self a b end_time r :
  a <= b -> page_of_range self b end_time r -> page_of_range self a end_time r.
Proof.
  intros Hab (H1 & H2 & H3 & H4 & H5). repeat split; auto.
  pose proof (timestamp_ms_mono _ _ Hab). lia.
Qed.

(** X14. The lookback ceiling holds of every request: whatever the table
    holds and whether or not the latest-boundary query fails, every REST
    call [backfill_data] issues asks for a window that ends at the clock
    reading [now] and starts no earlier than [now - days]; there are at
    most 500 of them. *)
Theorem X14_no_request_before_ceiling E self days w :
  let now_ := clock E (clock_reads w) in
  exists new,
    requests (snd (backfill_data E self days w)) = requests w ++ new /\
    (List.length new <= 500)%nat /\
    Forall (page_of_range self (now_ - timedelta.days days) now_) new.
Proof.
  cbv zeta. rewrite backfill_data_unfold, get_last_record_time_eq.
  assert (Hfetch : forall start w0,
             requests w0 = requests w ->
             clock E (clock_reads w) - timedelta.days days <= start ->
             exists new,
               requests (snd (fetch_range E self start
                                (clock E (clock_reads w)) w0))
               = requests w ++ new /\
               (List.length new <= 500)%nat /\
               Forall (page_of_range self
                         (clock E (clock_reads w) - timedelta.days days)
                         (clock E (clock_reads w))) new).
  { intros start w0 Hr Hle.
    destruct (fetch_range_requests E self start (clock E (clock_reads w)) w0)
      as (new & Hreq & Hlen & Hall & _).
    exists new. rewrite <- Hr. split; [exact Hreq |].
    split; [exact Hlen |].
    eapply Forall_impl; [| exact Hall].
    intros r. apply page_of_range_weaken. exact Hle. }
  destruct (db_down E (sessions w)).
  - apply Hfetch; [reflexivity | cbn; lia].
  - destruct (max_timestamp_turkey _ _ _) as [last|]; cbv zeta.
    + cbn [clock_reads opened].
      unfold backfill_start_time.
      destruct (Z.ltb_spec (last - timedelta.hours 3)
                  (clock E (clock_reads w) - timedelta.days days));
        cbn [fst snd];
        (destruct (Qlt_bool _ _);
         [exists []; rewrite app_nil_r; cbn; repeat split; auto; lia |]);
        apply Hfetch; try reflexivity; unfold timedelta.minutes; lia.
    + apply Hfetch; [reflexivity | cbn; lia].
Qed.

Lemma estimated_missing_lt_1 t l :
  t - l < timedelta.minutes 10 ->
  Qlt_bool (estimated_missing t l) 1 = true.
Proof.
  intros H. unfold Qlt_bool. apply negb_true_iff.
  destruct (Qle_bool 1 (estimated_missing t l)) eqn:Hle; [| reflexivity].
  exfalso. apply Qle_bool_iff in Hle.
  rewrite estimated_missing_eq in Hle.
  apply Q.max_le in Hle. destruct Hle as [Hle | Hle].
  - revert Hle. unfold Qle. cbn. lia.
  - revert Hle.
    unfold estimated_missing_raw, timedelta.total_seconds, timedelta.minutes,
      Qle, Qminus, Qplus, Qopp, Qdiv, Qmult, Qinv in *.
    cbn. lia.
Qed.

(** X15. When [backfill_data] fetches: with the latest-boundary query
    answered, an empty table (for the symbol and interval) leads to the
    bootstrap fetch of [[now - days, now)]; a table whose last boundary,
    taken back to native time, is less than ten minutes before [now] is up
    to date, and [backfill_data] returns 0 without any request or write;
    ten minutes or more lead to a fetch that ends at [now]. *)
Theorem X15_when_backfill_fetches E self days w :
  db_down E (sessions w) = false ->
  let now_ := clock E (clock_reads w) in
  let last := max_timestamp_turkey (self_symbol self) (self_interval self)
                (table w) in
  (last = None ->
   backfill_data E self days w
   = fetch_range E self (now_ - timedelta.days days) now_
       (ticked (opened w))) /\
  (forall last_record,
      last = Some last_record ->
      now_ - (last_record - timedelta.hours 3) < timedelta.minutes 10 ->
      fst (backfill_data E self days w) = Ok 0%nat /\
      table (snd (backfill_data E self days w)) = table w /\
      requests (snd (backfill_data E self days w)) = requests w) /\
  (forall last_record,
      last = Some last_record ->
      timedelta.minutes 10 <= now_ - (last_record - timedelta.hours 3) ->
      exists start_time w',
        backfill_data E self days w
        = fetch_range E self start_time now_ w' /\
        now_ - timedelta.days days <= start_time /\
        table w' = table w /\ requests w' = requests w).
Proof.
  intros Hup now_ last.
  rewrite backfill_data_unfold, get_last_record_time_eq, Hup.
  fold last. split; [| split].
  - intros ->. reflexivity.
  - intros last_record -> Hrecent. cbv zeta. cbn [clock_reads opened].
    fold now_. rewrite (estimated_missing_lt_1 _ _ Hrecent).
    destruct (fst (backfill_start_time _ _ _)); cbn; auto.
  - intros last_record -> Hgap. cbv zeta. cbn [clock_reads opened].
    fold now_. rewrite (estimated_missing_ge_1 _ _ Hgap).
    unfold backfill_start_time.
    destruct (Z.ltb_spec (last_record - timedelta.hours 3)
                (now_ - timedelta.days days)); cbn [fst snd];
      eexists _, _; (split; [reflexivity |]);
      (split; [unfold timedelta.minutes; lia |]); cbn; auto.
Qed.

Lemma X15_when_backfill_fetches_witness :
  let E := Scenario.healthy (Scenario.T0 + timedelta.minutes 9) in
  fst (backfill_data E Scenario.btc 180 (Scenario.fresh [Scenario.row_T0]))
  = Ok 0%nat /\
  backfill_data E Scenario.btc 180 (Scenario.fresh [])
  = fetch_range E Scenario.btc
      (Scenario.T0 + timedelta.minutes 9 - timedelta.days 180)
      (Scenario.T0 + timedelta.minutes 9)
      (ticked (opened (Scenario.fresh []))).
Proof.
  cbv zeta.
  destruct (X15_when_backfill_fetches
              (Scenario.healthy (Scenario.T0 + timedelta.minutes 9))
              Scenario.btc 180 (Scenario.fresh [Scenario.row_T0]) eq_refl)
    as (_ & H2 & _).
  destruct (X15_when_backfill_fetches
              (Scenario.healthy (Scenario.T0 + timedelta.minutes 9))
              Scenario.btc 180 (Scenario.fresh []) eq_refl)
    as (H1 & _ & _).
  split.
  - apply (H2 (Scenario.T0 + timedelta.hours 3)); [reflexivity |].
    vm_compute. reflexivity.
  - apply H1. reflexivity.
Defined.

(** ** The estimate in closed form *)

Lemma estimated_missing_raw_form t l :
  estimated_missing_raw t l = ((t - l) * 1 # 300000000).
Proof. reflexivity. Qed.

Lemma estimated_missing_form t l :
  estimated_missing t l
  = if 300000000 <? t - l then (t - l - 300000000 # 300000000) else 0%Q.
Proof.
  rewrite estimated_missing_eq, estimated_missing_raw_form.
  unfold Qmax, GenericMinMax.gmax, Qcompare, Qminus, Qplus, Qopp.
  cbn [Qnum Qden].
  change (Z.pos (300000000 * 1)) with 300000000.
  change (300000000 * 1)%positive with 300000000%positive.
  change (- (1))%Z with (-1).
  destruct (Z.ltb_spec 300000000 (t - l)).
  - replace (0 * 300000000 ?= ((t - l) * 1 * 1 + -1 * 300000000) * 1) with Lt
      by (symmetry; apply Z.compare_lt_iff; lia).
    f_equal. lia.
  - destruct (0 * 300000000 ?= ((t - l) * 1 * 1 + -1 * 300000000) * 1)
      eqn:Hc; try reflexivity.
    rewrite Z.compare_lt_iff in Hc. lia.
Qed.

(** X16. The gap estimate in closed form: for every clock reading and
    last boundary, the number [backfill_data] logs as "estimated missing
    CLOSED candles" is the whole number of five-minute intervals elapsed
    since the last boundary, less one, and never below zero; the test on
    the minute of the hour always succeeds, so the one is always taken
    off. *)
Theorem X16_estimate_closed_form t l :
  py_int (estimated_missing t l)
  = Z.max 0 ((t - l) / timedelta.minutes 5 - 1).
Proof.
  change (timedelta.minutes 5) with 300000000.
  rewrite estimated_missing_form. destruct (Z.ltb_spec 300000000 (t - l)).
  - unfold py_int. cbn [Qnum Qden].
    rewrite Z.quot_div_nonneg by lia.
    replace (t - l - 300000000) with ((t - l) + (-1) * 300000000) by lia.
    rewrite Z.div_add by lia.
    assert (1 <= (t - l) / 300000000) by (apply Z.div_le_lower_bound; lia).
    lia.
  - cbn. assert ((t - l) / 300000000 <= 1).
    { apply Z.lt_succ_r. apply Z.div_lt_upper_bound; lia. }
    lia.
Qed.

(** ** The latest boundary *)

Lemma max_timestamp_turkey_spec sym tf rows :
  match max_timestamp_turkey sym tf rows with
  | Some m =>
      In (m, sym, tf) (map key rows) /\
      (forall t, In (t, sym, tf) (map key rows) -> t <= m)
  | None => forall t, ~ In (t, sym, tf) (map key rows)
  end.
Proof.
  induction rows as [|r rows IH]; cbn [max_timestamp_turkey map].
  - intros t [].
  - destruct (String.eqb (symbol r) sym && String.eqb (timeframe r) tf)
      eqn:Hm.
    + apply andb_true_iff in Hm. destruct Hm as [Hs Hf].
      apply String.eqb_eq in Hs, Hf.
      assert (Hk : forall t, key r = (t, sym, tf) <-> timestamp_turkey r = t).
      { intros t. unfold key. rewrite Hs, Hf. split; congruence. }
      destruct (max_timestamp_turkey sym tf rows) as [m|].
      * destruct IH as [Hin Hmax]. split.
        -- destruct (Z.max_spec (timestamp_turkey r) m) as [[_ ->] | [_ ->]];
             [right; exact Hin | left; apply Hk; reflexivity].
        -- intros t [Ht | Ht]; [apply Hk in Ht | apply Hmax in Ht]; lia.
      * split; [left; apply Hk; reflexivity |].
        intros t [Ht | Ht]; [apply Hk in Ht; lia | elim (IH t Ht)].
    + assert (Hk : forall t, key r <> (t, sym, tf)).
      { intros t Heq. unfold key in Heq. inversion Heq; subst.
        rewrite !String.eqb_refl in Hm. discriminate. }
      destruct (max_timestamp_turkey sym tf rows) as [m|].
      * destruct IH as [Hin Hmax]. split; [right; exact Hin |].
        intros t [Ht | Ht]; [elim (Hk t Ht) | auto].
      * intros t [Ht | Ht]; [elim (Hk t Ht) | elim (IH t Ht)].
Qed.

Lemma max_timestamp_turkey_mono sym tf rows rows' m :
  incl (map key rows) (map key rows') ->
  max_timestamp_turkey sym tf rows = Some m ->
  exists m', max_timestamp_turkey sym tf rows' = Some m' /\ m <= m'.
Proof.
  intros Hincl Hmax.
  pose proof (max_timestamp_turkey_spec sym tf rows) as H.
  rewrite Hmax in H. destruct H as [Hin _]. apply Hincl in Hin.
  pose proof (max_timestamp_turkey_spec sym tf rows') as H'.
  destruct (max_timestamp_turkey sym tf rows') as [m'|].
  - exists m'. split; [reflexivity | apply H', Hin].
  - elim (H' m Hin).
Qed.

(** X17. The latest stored boundary never moves back: for every symbol and
    interval, whatever maximum of [timestamp_turkey] the table holds
    before [backfill_data], or before any run of [connect_and_stream], it
    holds a maximum at least as late afterwards. *)
Theorem X17_latest_boundary_monotone E self sym tf w m :
  max_timestamp_turkey sym tf (table w) = Some m ->
  (forall days,
      exists m',
        max_timestamp_turkey sym tf
          (table (snd (backfill_data E self days w))) = Some m' /\
        m <= m') /\
  (forall websocket fuel running,
      exists m',
        max_timestamp_turkey sym tf
          (table (snd (connect_and_stream E self websocket fuel running w)))
        = Some m' /\
        m <= m').
Proof.
  intros Hmax. split.
  - intros days. eapply max_timestamp_turkey_mono; [| exact Hmax].
    apply (backfill_data_lift E self
             (fun a b => incl (map key a) (map key b)));
      [intros; apply incl_refl | intros; eapply incl_tran; eauto |].
    intros. apply save_to_database_keys.
  - intros websocket fuel running.
    eapply max_timestamp_turkey_mono; [| exact Hmax].
    unfold connect_and_stream.
    destruct (stream_loop_kept E self websocket fuel
                {| is_running := running; retry_count := 0; attempt := 0 |}
                w) as (r & w' & Hrun & Hk).
    rewrite Hrun. apply Hk.
Qed.

Lemma X17_latest_boundary_monotone_witness :
  exists m',
    max_timestamp_turkey "BTCUSDT" "5m"
      (table (snd (backfill_data (Scenario.healthy Scenario.T0)
                     Scenario.btc 1 (Scenario.fresh [Scenario.row_T0]))))
    = Some m' /\
    Scenario.T0 + timedelta.hours 3 <= m'.
Proof.
  exact (proj1 (X17_latest_boundary_monotone (Scenario.healthy Scenario.T0)
                  Scenario.btc "BTCUSDT" "5m"
                  (Scenario.fresh [Scenario.row_T0])
                  (Scenario.T0 + timedelta.hours 3) eq_refl) 1).
Defined.

(** ** The current kline *)

Lemma update_first_other ts sym tf new ts' sym' tf' rows :
  (ts', sym', tf') <> (ts, sym, tf) ->
  query_first ts' sym' tf' (update_first ts sym tf new rows)
  = query_first ts' sym' tf' rows.
Proof.
  intros Hne. unfold query_first.
  induction rows as [|r rows IH]; cbn [update_first find]; [reflexivity |].
  destruct (matches ts sym tf r) eqn:Hm.
  - cbn [find]. apply matches_key in Hm.
    assert (H1 : matches ts' sym' tf' r = false).
    { destruct (matches ts' sym' tf' r) eqn:Hm'; [| reflexivity].
      apply matches_key in Hm'. congruence. }
    rewrite H1. unfold matches at 1.
    cbn [timestamp_turkey symbol timeframe].
    fold (matches ts' sym' tf' r). rewrite H1. reflexivity.
  - cbn [find]. rewrite IH. reflexivity.
Qed.

Lemma live_upsert_other self ohlcv ts' rows :
  symbol ohlcv = self_symbol self ->
  timeframe ohlcv = self_interval self ->
  ts' <> timestamp_turkey ohlcv ->
  query_first ts' (self_symbol self) (self_interval self)
    (live_upsert self ohlcv rows)
  = query_first ts' (self_symbol self) (self_interval self) rows.
Proof.
  intros Hs Hf Hne. unfold live_upsert.
  destruct (query_first (timestamp_turkey ohlcv) _ _ rows).
  - apply update_first_other. congruence.
  - destruct (query_first ts' (self_symbol self) (self_interval self) rows)
      as [r|] eqn:Hq'.
    + apply query_first_app_Some. exact Hq'.
    + rewrite (query_first_app_None _ _ _ _ _ Hq').
      unfold query_first. cbn [find].
      replace (matches ts' (self_symbol self) (self_interval self) ohlcv)
        with false; [reflexivity |].
      symmetry. destruct (matches _ _ _ ohlcv) eqn:Hm; [| reflexivity].
      apply matches_spec in Hm. destruct Hm as [Ht _]. congruence.
Qed.

Lemma live_upsert_lookup self ohlcv rows :
  symbol ohlcv = self_symbol self ->
  timeframe ohlcv = self_interval self ->
  query_first (timestamp_turkey ohlcv) (self_symbol self)
    (self_interval self) (live_upsert self ohlcv rows) = Some ohlcv.
Proof.
  intros Hs Hf. unfold live_upsert.
  destruct (query_first _ _ _ rows) as [r|] eqn:Hq.
  - eapply query_first_update_first; eauto.
  - rewrite (query_first_app_None _ _ _ _ _ Hq).
    unfold query_first. cbn [find].
    replace (matches _ _ _ _) with true; [reflexivity |].
    symmetry. apply matches_spec. auto.
Qed.

Lemma fetch_and_save_current_kline_cases E self answer w :
  fetch_and_save_current_kline E self answer w
  = match answer with
    | Raise e =>
        (Ok (Some false),
         with_log w [(ERROR, "Error fetching current kline")])
    | Ok klines =>
        match rev klines with
        | _ :: closed_kline :: _ =>
            if db_down E (sessions w)
               || live_refused self (kline_float_row self closed_kline)
                    (table w)
            then (Ok (Some false),
                  with_log (opened w)
                    [(ERROR, "Database session error");
                     (ERROR, "Error fetching current kline")])
            else (Ok (Some true),
                  with_table (opened w)
                    (live_upsert self (kline_float_row self closed_kline)
                       (table w)))
        | _ => (Ok None, w)
        end
    end.
Proof.
  unfold fetch_and_save_current_kline, try_except.
  destruct answer as [klines | e]; [| reflexivity].
  unfold bind at 1.
  destruct (rev klines) as [|q [|p rest]]; [reflexivity | reflexivity |].
  unfold bind at 1. unfold get_session, begin_session.
  unfold bind at 1. cbn [fst snd]. unfold try_except.
  unfold bind at 1. unfold query at 1. cbn [sessions].
  destruct (db_down E (sessions w)) eqn:Hdb; cbn [orb].
  - unfold raise, bind, logger, ret, with_log, opened. simpl.
    rewrite <- app_assoc. reflexivity.
  - unfold ret at 1. cbn [loaded pending app].
    fold (kline_float_row self p).
    unfold live_refused, live_upsert, live_session, commit.
    change (timestamp_turkey (kline_float_row self p))
      with (fromtimestamp_ms (k_open_time p) + timedelta.hours 3).
    cbn [table].
    destruct (query_first _ _ _ (table w)) eqn:Hq;
      destruct (flush_error _ _); cbn [loaded pending];
      unfold raise, bind, logger, ret, with_log, with_table, opened;
      simpl; rewrite <- ?app_assoc, ?app_nil_r; reflexivity.
Qed.

(** A row with a number its column refuses, under a key the table lacks,
    fails the commit of its upsert. *)
Lemma live_refused_insert self ohlcv rows :
  storable ohlcv = false ->
  query_first (timestamp_turkey ohlcv) (self_symbol self)
    (self_interval self) rows = None ->
  live_refused self ohlcv rows = true.
Proof.
  intros Hs Hq. unfold live_refused, live_session, flush_error.
  rewrite Hq. cbn [loaded pending insert_error].
  rewrite written_committed, Hs. reflexivity.
Qed.

(** X18. [fetch_and_save_current_kline] stores the second-to-last kline
    of the answer and only that one: given two klines or more, a reachable
    database and numbers that fit the [Numeric(20, 8)] columns as floats,
    it returns True, the row found under the second-to-last kline's
    boundary holds that kline's open time and its five numbers as floats,
    and the row under the last kline's boundary (the candle in progress)
    is what it was.  When a number of that kline is refused as a float and
    its key is not stored yet, the failed commit is logged, the function
    returns False and the table is as it was.  With fewer than two klines
    it returns without a value and does nothing; a failed REST call is
    logged and gives False. *)
Theorem X18_current_kline_is_second_to_last E self w front p q :
  db_down E (sessions w) = false ->
  let run := fetch_and_save_current_kline E self in
  let found := fun ts w' =>
    query_first ts (self_symbol self) (self_interval self) (table w') in
  let fit :=
    floats_fit (k_open p) (k_high p) (k_low p) (k_close p) (k_volume p) in
  (fit = true ->
   fst (run (Ok (front ++ [p; q])) w) = Ok (Some true) /\
   (exists r,
       found (boundary p) (snd (run (Ok (front ++ [p; q])) w)) = Some r /\
       holds_floats self (k_open_time p) (k_open p) (k_high p) (k_low p)
         (k_close p) (k_volume p) r) /\
   (boundary q <> boundary p ->
    found (boundary q) (snd (run (Ok (front ++ [p; q])) w))
    = found (boundary q) w)) /\
  (fit = false ->
   found (boundary p) w = None ->
   run (Ok (front ++ [p; q])) w
   = (Ok (Some false),
      with_log (opened w)
        [(ERROR, "Database session error");
         (ERROR, "Error fetching current kline")])) /\
  run (Ok []) w = (Ok None, w) /\
  run (Ok [q]) w = (Ok None, w) /\
  (forall e,
      run (Raise e) w
      = (Ok (Some false),
         with_log w [(ERROR, "Error fetching current kline")])).
Proof.
  intros Hup run found fit. unfold run, found.
  rewrite !fetch_and_save_current_kline_cases.
  rewrite rev_app_distr. cbn [rev app]. rewrite Hup. cbn [orb].
  split; [| split; [| auto]].
  - intros Hfit.
    rewrite (live_refused_fits self (kline_float_row self p) (table w));
      [| exact Hfit | reflexivity | reflexivity].
    cbn [fst snd table with_table].
    split; [reflexivity |]. split.
    + exists (kline_float_row self p).
      split; [| apply holds_floats_float_row].
      apply (live_upsert_lookup self (kline_float_row self p)); reflexivity.
    + intros Hne.
      apply (live_upsert_other self (kline_float_row self p)); auto.
  - intros Hfit Hq.
    rewrite (live_refused_insert self (kline_float_row self p) (table w));
      [reflexivity | exact Hfit | exact Hq].
Qed.

Lemma X18_current_kline_is_second_to_last_witness :
  let E := Scenario.healthy Scenario.T0 in
  let p := Scenario.candle 0 (Scenario.price 1) in
  let q := Scenario.candle 300000 (Scenario.price 2) in
  fst (fetch_and_save_current_kline E Scenario.btc (Ok [p; q])
         (Scenario.fresh [])) = Ok (Some true) /\
  query_first (boundary q) "BTCUSDT" "5m"
    (table (snd (fetch_and_save_current_kline E Scenario.btc (Ok [p; q])
                   (Scenario.fresh [])))) = None.
Proof.
  cbv zeta.
  destruct (X18_current_kline_is_second_to_last
              (Scenario.healthy Scenario.T0) Scenario.btc (Scenario.fresh [])
              [] (Scenario.candle 0 (Scenario.price 1))
              (Scenario.candle 300000 (Scenario.price 2)) eq_refl)
    as (H & _).
  destruct H as (H1 & _ & H3); [vm_compute; reflexivity |].
  split; [exact H1 |].
  apply H3. vm_compute. discriminate.
Defined.

(** ** The cleanup scripts *)

Lemma test_connection_cases E w :
  test_connection E w
  = if db_down E (sessions w)
    then (Ok false,
          with_log (opened w)
            [(ERROR, "Database session error");
             (ERROR, "Database connection test failed")])
    else (Ok true, opened w).
Proof.
  unfold test_connection, get_session, begin_session, try_except, bind,
    query, raise, ret, logger, with_log, opened.
  cbn [fst snd sessions].
  destruct (db_down E (sessions w)); cbn; [| reflexivity].
  rewrite <- app_assoc. reflexivity.
Qed.

Lemma cleanup_cases E p confirm response w :
  cleanup E p confirm response w
  = if db_down E (sessions w)
    then (Ok false,
          with_log (opened w)
            [(ERROR, "Database session error");
             (ERROR, "Database connection test failed");
             (ERROR, "Database connection failed!")])
    else if db_down E (S (sessions w))
    then (Ok false,
          with_log (opened (opened w))
            [(ERROR, "Database session error");
             (ERROR, "Error during cleanup")])
    else if (List.length (filter p (table w)) =? 0)%nat
    then (Ok true, opened (opened w))
    else if negb confirm && negb (says_yes response)
    then (Ok false, opened (opened w))
    else if db_down E (S (S (sessions w)))
    then (Ok false,
          with_log (opened (opened (opened w)))
            [(ERROR, "Database session error");
             (ERROR, "Error during cleanup")])
    else (Ok true,
          with_table (opened (opened (opened w)))
            (filter (fun r => negb (p r)) (table w))).
Proof.
  unfold cleanup. unfold try_except at 1. unfold bind at 1.
  rewrite test_connection_cases.
  destruct (db_down E (sessions w)) eqn:H1.
  - cbn [negb]. unfold bind, logger, ret, with_log, opened. cbn.
    rewrite <- !app_assoc. reflexivity.
  - cbn [negb]. unfold bind at 1. unfold get_session at 1.
    unfold begin_session at 1. unfold bind at 1. cbn [fst snd].
    unfold try_except at 1. unfold query at 1. cbn [sessions opened].
    destruct (db_down E (S (sessions w))) eqn:H2.
    + unfold raise, bind, logger, ret, with_log, opened. cbn.
      rewrite <- !app_assoc. reflexivity.
    + unfold ret at 1. cbn [loaded table opened].
      destruct (List.length (filter p (table w)) =? 0)%nat;
        [reflexivity |].
      destruct (negb confirm && negb (says_yes response)); [reflexivity |].
      unfold bind at 1. unfold get_session, begin_session.
      unfold bind at 1. cbn [fst snd]. unfold try_except.
      unfold bind at 1. unfold bulk_delete. cbn [sessions].
      destruct (db_down E (S (S (sessions w)))) eqn:H3.
      * unfold raise, bind, logger, ret, with_log, opened. cbn.
        rewrite <- !app_assoc. reflexivity.
      * unfold ret at 1. cbn [snd loaded pending table]. unfold commit.
        cbn [table]. rewrite flush_error_deleted.
        cbn [loaded pending]. unfold ret, with_table, opened.
        cbn. rewrite app_nil_r. reflexivity.
Qed.

Lemma filter_none_selected {A} (p : A -> bool) (l : list A) :
  List.length (filter p l) = 0%nat -> filter (fun r => negb (p r)) l = l.
Proof.
  induction l as [|a l IH]; cbn [filter]; [reflexivity |].
  destruct (p a); cbn [List.length negb]; [discriminate |].
  intros H. rewrite IH by exact H. reflexivity.
Qed.

Lemma cleanup_effect E p confirm response w :
  exists b w',
    cleanup E p confirm response w = (Ok b, w') /\
    requests w' = requests w /\
    (b = false -> table w' = table w) /\
    (table w' = table w \/
     table w' = filter (fun r => negb (p r)) (table w)) /\
    (confirm = false -> says_yes response = false -> table w' = table w) /\
    (db_down E (sessions w) = false ->
     db_down E (S (sessions w)) = false ->
     db_down E (S (S (sessions w))) = false ->
     confirm = true \/ says_yes response = true ->
     b = true /\ table w' = filter (fun r => negb (p r)) (table w)).
Proof.
  rewrite cleanup_cases.
  destruct (db_down E (sessions w)) eqn:H1.
  { eexists _, _. split; [reflexivity |]. cbn [table requests with_log opened].
    split; [reflexivity |]. split; [reflexivity |].
    split; [left; reflexivity |]. split; [reflexivity |].
    intros H. discriminate H. }
  destruct (db_down E (S (sessions w))) eqn:H2.
  { eexists _, _. split; [reflexivity |]. cbn [table requests with_log opened].
    split; [reflexivity |]. split; [reflexivity |].
    split; [left; reflexivity |]. split; [reflexivity |].
    intros _ H. discriminate H. }
  destruct (List.length (filter p (table w)) =? 0)%nat eqn:H0.
  { apply Nat.eqb_eq in H0. apply filter_none_selected in H0.
    eexists _, _. split; [reflexivity |]. cbn [table requests opened].
    split; [reflexivity |]. split; [reflexivity |].
    split; [left; reflexivity |]. split; [reflexivity |].
    intros _ _ _ _. rewrite H0. split; reflexivity. }
  destruct (negb confirm && negb (says_yes response)) eqn:Hc.
  { apply andb_true_iff in Hc. destruct Hc as [Hc1 Hc2].
    apply negb_true_iff in Hc1, Hc2.
    eexists _, _. split; [reflexivity |]. cbn [table requests opened].
    split; [reflexivity |]. split; [reflexivity |].
    split; [left; reflexivity |]. split; [reflexivity |].
    intros _ _ _ [Hy | Hy]; congruence. }
  assert (Hconfirmed : ~ (confirm = false /\ says_yes response = false)).
  { intros [Hn Hs]. rewrite Hn, Hs in Hc. discriminate. }
  destruct (db_down E (S (S (sessions w)))) eqn:H3.
  { eexists _, _. split; [reflexivity |]. cbn [table requests with_log opened].
    split; [reflexivity |]. split; [reflexivity |].
    split; [left; reflexivity |]. split; [reflexivity |].
    intros _ _ H. discriminate H. }
  eexists _, _. split; [reflexivity |].
  cbn [table requests with_table opened].
  split; [reflexivity |]. split; [discriminate |].
  split; [right; reflexivity |]. split; [tauto |].
  intros _ _ _ _. split; reflexivity.
Qed.

(** X19. Deleting one symbol: [cleanup_specific_symbol] never raises and
    issues no REST request; it returns False only with the table
    untouched; unless confirmed (by [--yes] or by the answer "yes" or "y"
    in any letter case) it deletes nothing; and when it is confirmed and
    the database answers in its three sessions it returns True and leaves
    exactly the rows of the other symbols, in order: every row of the
    symbol goes, whatever its interval. *)
Theorem X19_cleanup_specific_symbol E sym confirm response w :
  exists b w',
    cleanup_specific_symbol E sym confirm response w = (Ok b, w') /\
    requests w' = requests w /\
    (b = false -> table w' = table w) /\
    (confirm = false -> says_yes response = false -> table w' = table w) /\
    (db_down E (sessions w) = false ->
     db_down E (S (sessions w)) = false ->
     db_down E (S (S (sessions w))) = false ->
     confirm = true \/ says_yes response = true ->
     b = true /\
     table w' = filter (fun r => negb (String.eqb (symbol r) sym)) (table w)).
Proof.
  unfold cleanup_specific_symbol.
  destruct (cleanup_effect E (fun r => String.eqb (symbol r) sym) confirm
              response w) as (b & w' & Hrun & Hr & Hf & _ & Hn & Hy).
  exists b, w'. auto.
Qed.

(** X20. Deleting everything, then reconciling: after a confirmed
    [cleanup_database] with the database reachable the table is empty, and
    the next [backfill_data] of any collector is the bootstrap fetch of
    [[now - days, now)]. *)
Theorem X20_cleanup_then_bootstrap E self days response w :
  db_down E (sessions w) = false ->
  db_down E (S (sessions w)) = false ->
  db_down E (S (S (sessions w))) = false ->
  let w' := snd (cleanup_database E true response w) in
  let now_ := clock E (clock_reads w) in
  fst (cleanup_database E true response w) = Ok true /\
  table w' = [] /\
  (db_down E (sessions w') = false ->
   backfill_data E self days w'
   = fetch_range E self (now_ - timedelta.days days) now_
       (ticked (opened w'))).
Proof.
  intros H1 H2 H3. cbv zeta. unfold cleanup_database.
  destruct (cleanup_effect E (fun _ => true) true response w)
    as (b & w' & Hrun & _ & _ & _ & _ & Hy).
  destruct (Hy H1 H2 H3 (or_introl eq_refl)) as [-> Ht].
  assert (Hempty : table w' = []).
  { rewrite Ht. clear. induction (table w); auto. }
  rewrite Hrun. cbn [fst snd].
  split; [reflexivity |]. split; [exact Hempty |].
  intros Hup. rewrite backfill_data_unfold, get_last_record_time_eq, Hup.
  rewrite Hempty. cbn [max_timestamp_turkey].
  assert (Hclock : clock_reads w' = clock_reads w).
  { revert Hrun. rewrite cleanup_cases, H1, H2. cbn [negb andb].
    destruct (_ =? _)%nat; [intros H; inversion H; reflexivity |].
    rewrite H3. intros H; inversion H; reflexivity. }
  cbv zeta. cbn [clock_reads opened]. rewrite Hclock. reflexivity.
Qed.

Lemma X20_cleanup_then_bootstrap_witness :
  table (snd (cleanup_database (Scenario.healthy Scenario.T0) true "no"
                (Scenario.fresh [Scenario.row_T0]))) = [].
Proof.
  exact (proj1 (proj2 (X20_cleanup_then_bootstrap
                         (Scenario.healthy Scenario.T0) Scenario.btc 180
                         "no" (Scenario.fresh [Scenario.row_T0])
                         eq_refl eq_refl eq_refl))).
Defined.

(** ** Config *)

Lemma split_nonempty sep s : split sep s <> [].
Proof.
  induction s as [|c s IH]; cbn [split]; [discriminate |].
  destruct (split sep s) as [|piece pieces]; [contradiction |].
  destruct (Ascii.eqb c sep); discriminate.
Qed.

(** X21. [Config.validate] cannot reject the symbol list: [SYMBOLS] is
    the result of [str.split(',')], which is never the empty list (the
    empty environment value gives one empty symbol), so "SYMBOLS is
    required" is never reported and validation fails exactly when
    [DATABASE_URL] is the empty string. *)
Theorem X21_symbols_never_rejected env_SYMBOLS DATABASE_URL :
  config_symbols env_SYMBOLS <> [] /\
  config_symbols EmptyString = [EmptyString] /\
  validate (config_symbols env_SYMBOLS) DATABASE_URL
  = match DATABASE_URL with
    | EmptyString => ValueError ["DATABASE_URL is required"]
    | _ => Valid
    end.
Proof.
  split; [apply split_nonempty |]. split; [reflexivity |].
  unfold validate, config_symbols.
  pose proof (split_nonempty (Ascii.ascii_of_nat 44) env_SYMBOLS) as H.
  destruct (split _ env_SYMBOLS); [contradiction |].
  destruct DATABASE_URL; reflexivity.
Qed.

(** ** The pre-stream gap fill, in general *)

Lemma fill_missing_gap_logged E self w last_record :
  db_down E (sessions w) = false ->
  max_timestamp_turkey (self_symbol self) (self_interval self) (table w)
  = Some last_record ->
  fill_missing_candles_before_start E self w
  = (Ok tt,
     if clock E (clock_reads w) - (last_record - timedelta.hours 3)
        <? timedelta.minutes 10
     then ticked (opened w)
     else with_log (ticked (opened w))
            [(ERROR, "Error filling missing candles")]).
Proof.
  intros Hup Hlast.
  unfold fill_missing_candles_before_start, get_session, begin_session,
    try_except, bind, query, now, raise, ret, logger.
  cbn [fst snd sessions loaded]. rewrite Hup, Hlast. cbv zeta.
  cbn [clock_reads].
  rewrite minute_mod_5.
  set (d := clock E (clock_reads w) - (last_record - timedelta.hours 3)) in *.
  assert (Hq : py_int (timedelta.total_seconds d / 300)
               = Z.quot (d * 1) 300000000) by reflexivity.
  rewrite Hq.
  destruct (Z.ltb_spec d (timedelta.minutes 10)) as [Hlt | Hge];
    unfold timedelta.minutes in *.
  - assert (H1 : Z.quot (d * 1) 300000000 <= 1).
    { destruct (Z.le_gt_cases 0 d) as [Hpos | Hneg].
      - rewrite Z.quot_div_nonneg by lia.
        apply Z.lt_succ_r. apply Z.div_lt_upper_bound; lia.
      - pose proof (Z.quot_le_mono (d * 1) 0 300000000 ltac:(lia) ltac:(lia))
          as H. rewrite Z.quot_0_l in H by lia. lia. }
    destruct (Z.ltb_spec (Z.max 0 (Z.quot (d * 1) 300000000 - 1)) 1);
      [reflexivity | lia].
  - assert (H2 : 2 <= Z.quot (d * 1) 300000000).
    { rewrite Z.quot_div_nonneg by lia.
      apply Z.div_le_lower_bound; lia. }
    destruct (Z.ltb_spec (Z.max 0 (Z.quot (d * 1) 300000000 - 1)) 1);
      [lia | reflexivity].
Qed.

(** X22. The pre-stream gap fill is inert: for every table, clock and
    exchange, [fill_missing_candles_before_start] returns normally having
    issued no REST request and changed no row.  With the database
    reachable and a last boundary stored, it reads the clock once and, when
    that boundary (in native time) is ten minutes old or more, its only
    trace is the logged error of the unbound name; below ten minutes it
    logs nothing. *)
Theorem X22_gap_fill_is_inert E self w :
  (exists w',
      fill_missing_candles_before_start E self w = (Ok tt, w') /\
      table w' = table w /\ requests w' = requests w) /\
  (forall last_record,
      db_down E (sessions w) = false ->
      max_timestamp_turkey (self_symbol self) (self_interval self) (table w)
      = Some last_record ->
      fill_missing_candles_before_start E self w
      = (Ok tt,
         if clock E (clock_reads w) - (last_record - timedelta.hours 3)
            <? timedelta.minutes 10
         then ticked (opened w)
         else with_log (ticked (opened w))
                [(ERROR, "Error filling missing candles")])).
Proof.
  split.
  - apply fill_missing_no_effect.
  - intros last_record Hup Hlast. apply fill_missing_gap_logged; assumption.
Qed.

Lemma X22_gap_fill_is_inert_witness :
  fill_missing_candles_before_start
    (Scenario.healthy (Scenario.T0 + timedelta.days 2)) Scenario.btc
    (Scenario.fresh [Scenario.row_T0])
  = (Ok tt,
     with_log (ticked (opened (Scenario.fresh [Scenario.row_T0])))
       [(ERROR, "Error filling missing candles")]).
Proof.
  exact (proj2 (X22_gap_fill_is_inert
                  (Scenario.healthy (Scenario.T0 + timedelta.days 2))
                  Scenario.btc (Scenario.fresh [Scenario.row_T0]))
           (Scenario.T0 + timedelta.hours 3) eq_refl eq_refl).
Defined.

(** ** Instances of the statements above *)

Lemma X9_handle_message_safe_witness :
  exists w',
    handle_message (Scenario.healthy Scenario.T0) Scenario.btc None
      (Scenario.fresh [Scenario.row_T0]) = (Ok tt, w') /\
    unique_keys (table w').
Proof.
  destruct (X9_handle_message_safe (Scenario.healthy Scenario.T0)
              Scenario.btc None (Scenario.fresh [Scenario.row_T0]))
    as (w' & Hrun & _ & Hu & _).
  exists w'. split; [exact Hrun |].
  apply Hu. constructor; [intros [] | constructor].
Defined.

Lemma X12_stream_keeps_table_witness :
  exists r w',
    connect_and_stream (Scenario.healthy Scenario.T0) Scenario.btc
      (fun _ => Connected [None] EndOfStream) 3 true
      (Scenario.fresh [Scenario.row_T0]) = (Ok r, w') /\
    unique_keys (table w').
Proof.
  destruct (X12_stream_keeps_table (Scenario.healthy Scenario.T0)
              Scenario.btc (fun _ => Connected [None] EndOfStream) 3 true
              (Scenario.fresh [Scenario.row_T0]))
    as (r & w' & Hrun & _ & Hu & _).
  exists r, w'. split; [exact Hrun |].
  apply Hu. constructor; [intros [] | constructor].
Defined.

Lemma X13_range_requests_witness :
  requests (snd (fetch_range (Scenario.healthy Scenario.T0) Scenario.btc
                   Scenario.T0 Scenario.T0 (Scenario.fresh [])))
  = [].
Proof.
  destruct (X13_range_requests (Scenario.healthy Scenario.T0) Scenario.btc
              Scenario.T0 Scenario.T0 (Scenario.fresh []))
    as (new & Hreq & _ & _ & Hempty).
  rewrite Hreq, (Hempty (Z.le_refl _)). reflexivity.
Defined.

Lemma X19_cleanup_specific_symbol_witness :
  exists b w',
    cleanup_specific_symbol (Scenario.healthy Scenario.T0) "BTCUSDT" false
      "YES" (Scenario.fresh [Scenario.row_T0]) = (Ok b, w') /\
    b = true /\ table w' = [].
Proof.
  destruct (X19_cleanup_specific_symbol (Scenario.healthy Scenario.T0)
              "BTCUSDT" false "YES" (Scenario.fresh [Scenario.row_T0]))
    as (b & w' & Hrun & _ & _ & _ & Hy).
  exists b, w'. split; [exact Hrun |].
  exact (Hy eq_refl eq_refl eq_refl (or_intror eq_refl)).
Defined.

(** ** No gap after a fetch from a complete exchange *)

Ltac div_mod_lia := Z.div_mod_to_equations; lia.
Ltac quot_rem_lia := Z.quot_rem_to_equations; lia.

Lemma grid_In n : forall first b,
  In b (grid n first) <->
  exists i, 0 <= i < Z.of_nat n /\ b = first + 300000 * i.
Proof.
  induction n as [|n IH]; intros first b; cbn [grid In].
  - split; [tauto | intros (i & Hi & _); lia].
  - rewrite IH. split.
    + intros [<- | (i & Hi & ->)].
      * exists 0. lia.
      * exists (i + 1). lia.
    + intros (i & Hi & ->).
      destruct (Z.eq_dec i 0) as [-> | Hne]; [left; lia |].
      right. exists (i - 1). lia.
Qed.

Lemma grid_length n first : List.length (grid n first) = n.
Proof.
  revert first. induction n as [|n IH]; intros first; cbn; auto.
Qed.

Lemma grid_last n : forall first d,
  last (grid (S n) first) d = first + 300000 * Z.of_nat n.
Proof.
  induction n as [|n IH]; intros first d.
  - cbn. lia.
  - change (grid (S (S n)) first)
      with (first :: grid (S n) (first + 300000)).
    change (last (first :: grid (S n) (first + 300000)) d)
      with (last (grid (S n) (first + 300000)) d).
    rewrite IH. lia.
Qed.

Lemma grid_NoDup n : forall first, NoDup (grid n first).
Proof.
  induction n as [|n IH]; intros first; cbn [grid]; constructor.
  - rewrite grid_In. intros (i & Hi & Heq). lia.
  - apply IH.
Qed.

Lemma last_map {A B} (f : A -> B) (l : list A) (d : A) :
  last (map f l) (f d) = f (last l d).
Proof.
  induction l as [|a l IH]; [reflexivity |].
  cbn [map]. destruct l as [|a' l]; [reflexivity |].
  cbn [map] in *. exact IH.
Qed.

Lemma NoDup_boundary_filter (p : kline -> bool) (l : list kline) :
  NoDup (map k_open_time l) -> NoDup (map boundary (filter p l)).
Proof.
  induction l as [|k l IH]; cbn [map filter]; intros H; [constructor |].
  inversion H as [|? ? Hn Hd]; subst.
  destruct (p k); [| apply IH, Hd].
  cbn [map]. constructor; [| apply IH, Hd].
  intros Hin. apply Hn. apply in_map_iff in Hin.
  destruct Hin as (k' & Hb & Hk'). apply filter_In in Hk'.
  apply in_map_iff. exists k'. split; [| apply Hk'].
  unfold boundary, fromtimestamp_ms in Hb. lia.
Qed.

(** A page with distinct open times and numbers that fit the columns,
    saved with the database up, is committed, and all its closed candles
    are then stored. *)
Lemma save_to_database_stores E self klines w :
  db_down E (sessions w) = false ->
  NoDup (map k_open_time klines) ->
  Forall (fun k => kline_fits k = true) klines ->
  exists saved w',
    save_to_database E self klines w = (Ok saved, w') /\
    incl (map key (table w)) (map key (table w')) /\
    (forall k,
        In k klines -> is_closed (clock E (clock_reads w)) k = true ->
        stored self (table w') (k_open_time k)).
Proof.
  intros Hup Hnd Hfit.
  rewrite save_to_database_unfold.
  match goal with
  | |- context [for_each ?f klines ?s ?w1] =>
      destruct (for_each_save_pending E self (sessions w)
                  (clock E (clock_reads w)) klines Hup s w1)
        as (st' & Hrun & Hkeys & Hp & Hc);
      pose proof (for_each_save_written E self (sessions w)
                    (clock E (clock_reads w)) (table w) klines
                    (incl_Forall (incl_filter _ klines) Hfit) s w1
                    (committed_rows (table w))) as Hwr
  end.
  rewrite Hrun in *.
  cbn [sess loaded pending saved_count app Nat.add fst] in *.
  set (fresh := fresh_candles self (clock E (clock_reads w)) (table w)
                  klines) in *.
  cbn [finish_save table]. unfold flush_error.
  rewrite (written_storable _ _ Hwr), Hp.
  assert (Hv : violates_unique (loaded (sess st'))
                 (map (fun k => from_binance_kline k (self_symbol self)
                                  (self_interval self)) fresh) = false).
  { apply violates_unique_spec. split.
    - apply NoDup_map_boundary. apply NoDup_boundary_filter. exact Hnd.
    - intros n Hin. apply in_map_iff in Hin. destruct Hin as (k & <- & Hk).
      unfold fresh, fresh_candles in Hk. apply filter_In in Hk.
      destruct Hk as [_ Hk]. apply andb_true_iff in Hk.
      destruct Hk as [_ Hk]. apply negb_true_iff in Hk.
      rewrite Hkeys. apply existsb_matches_false. exact Hk. }
  replace (insert_error _ _) with (@None exn).
  2:{ symmetry. apply insert_error_None. split; [| exact Hv].
      rewrite forallb_storable_klines. apply forallb_forall.
      intros k Hk. rewrite Forall_forall in Hfit. apply Hfit.
      unfold fresh, fresh_candles in Hk. apply filter_In in Hk. tauto. }
  eexists _, _. split; [reflexivity |]. cbn [table].
  split.
  - rewrite map_app, Hkeys. apply incl_appl, incl_refl.
  - intros k Hin Hclosed. unfold stored. rewrite map_app, Hkeys.
    fold (boundary k).
    destruct (existsb (matches (boundary k) (self_symbol self)
                         (self_interval self)) (table w)) eqn:Hex.
    + apply in_or_app. left.
      apply existsb_exists in Hex. destruct Hex as (r & Hr & Hm).
      apply matches_key in Hm.
      assert (Hin' : In (key r) (map key (table w)))
        by (apply in_map; exact Hr).
      rewrite Hm in Hin'. exact Hin'.
    + apply in_or_app. right. rewrite map_map. apply in_map_iff.
      exists k. split; [reflexivity |].
      unfold fresh, fresh_candles. apply filter_In. split; [exact Hin |].
      rewrite Hclosed, Hex. reflexivity.
Qed.

Lemma timestamp_ms_div c : 0 <= c -> timestamp_ms c = c / 1000.
Proof. intros H. unfold timestamp_ms. apply Z.quot_div_nonneg; lia. Qed.

Section NoGap.
Variable E : Env.
Variable self : Collector.
Variables start_time end_time now0 : datetime.
Hypothesis complete : complete_exchange E.
Hypothesis db_up : forall n, db_down E n = false.
Hypothesis clock_after : forall n, now0 <= clock E n.

Lemma range_inv_done st w :
  range_inv self start_time end_time now0 st w ->
  loop_guard end_time st = false ->
  forall b, wanted start_time end_time now0 b -> stored self (table w) b.
Proof.
  intros (Hpos & Hcov & Hleft) Hg b Hb.
  apply Hcov; [exact Hb |].
  destruct Hb as (_ & _ & Hend & _).
  destruct (Z.ltb_spec (current_start st) end_time) as [Hlt | Hge]; [| lia].
  exfalso. unfold loop_guard in Hg. apply andb_false_iff in Hg.
  destruct Hg as [Hg | Hg].
  - destruct (Z.ltb_spec (current_start st) end_time); [discriminate | lia].
  - apply Nat.ltb_ge in Hg. unfold max_iterations in Hg.
    specialize (Hleft Hlt).
    rewrite !timestamp_ms_div in Hleft by lia.
    assert (current_start st / 1000 <= end_time / 1000)
      by (apply Z.div_le_mono; lia).
    lia.
Qed.

Lemma fetch_range_body_no_gap st w :
  range_inv self start_time end_time now0 st w ->
  loop_guard end_time st = true ->
  exists c st' w',
    fetch_range_body E self end_time st w = (Ok (c, st'), w') /\
    match c with
    | Continue => range_inv self start_time end_time now0 st' w'
    | Break =>
        forall b, wanted start_time end_time now0 b ->
                  stored self (table w') b
    end.
Proof.
  intros (Hpos & Hcov & Hleft) Hg.
  assert (Hlt : current_start st < end_time).
  { unfold loop_guard in Hg. apply andb_true_iff in Hg.
    destruct Hg as [Hg _]. apply Z.ltb_lt in Hg. exact Hg. }
  specialize (Hleft Hlt).
  set (c := current_start st) in *.
  set (r := page_request self c end_time).
  destruct (complete (List.length (requests w)) r)
    as (page & Hb & Hopens & Hclose & Hfits).
  unfold window_opens in Hopens.
  change (start_str r) with (timestamp_ms c) in Hopens.
  change (end_str r) with (timestamp_ms end_time) in Hopens.
  change (limit r) with 1000 in Hopens.
  rewrite !timestamp_ms_div in Hopens, Hleft by lia.
  set (cm := c / 1000) in *. set (em := end_time / 1000) in *.
  set (first := (cm + 299999) / 300000 * 300000) in *.
  set (cnt := (em - first) / 300000 + 1) in *.
  assert (Hcm : cm * 1000 <= c < cm * 1000 + 1000)
    by (unfold cm; div_mod_lia).
  assert (Hem : em * 1000 <= end_time < em * 1000 + 1000)
    by (unfold em; div_mod_lia).
  assert (Hfirst : cm <= first < cm + 300000 /\ first mod 300000 = 0)
    by (unfold first; div_mod_lia).
  assert (Hcnt : first + 300000 * (cnt - 1) <= em
                 < first + 300000 * cnt)
    by (unfold cnt; div_mod_lia).
  destruct page as [|k page].
  - (* no candle left in the window *)
    cbn [map] in Hopens.
    assert (Hn : Z.min 1000 cnt <= 0).
    { pose proof (grid_length (Z.to_nat (Z.min 1000 cnt)) first) as Hl.
      rewrite <- Hopens in Hl. cbn in Hl. lia. }
    rewrite (fetch_range_body_empty _ _ _ _ _ Hb). fold c.
    assert (Hshort : Qlt_bool 300 (timedelta.total_seconds (end_time - c))
                     = false).
    { unfold Qlt_bool. apply negb_false_iff. apply Qle_bool_iff.
      unfold timedelta.total_seconds, Qle. cbn [Qnum Qden]. lia. }
    rewrite Hshort.
    eexists _, _, _. split; [reflexivity |].
    intros b Hw. cbn [table with_request].
    apply Hcov; [exact Hw |].
    destruct Hw as (Hal & _ & Hend & _). fold c.
    assert (b < first -> b < cm) by div_mod_lia.
    lia.
  - (* a page of candles *)
    rewrite (fetch_range_body_page _ _ _ _ _ _ _ Hb). fold c. fold r.
    assert (Hnd : NoDup (map k_open_time (k :: page)))
      by (rewrite Hopens; apply grid_NoDup).
    destruct (save_to_database_stores E self (k :: page) (with_request w r)
                (db_up _) Hnd Hfits)
      as (saved & w2 & Hrun & Hincl & Hstored).
    rewrite Hrun. cbv zeta.
    assert (Hlen : Z.of_nat (S (List.length page)) = Z.min 1000 cnt).
    { pose proof (grid_length (Z.to_nat (Z.min 1000 cnt)) first) as Hl.
      rewrite <- Hopens in Hl. cbn [map List.length] in Hl.
      rewrite length_map in Hl. lia. }
    assert (Hlast : k_open_time (last (k :: page) k)
                    = first + 300000 * Z.of_nat (List.length page)).
    { rewrite <- (last_map k_open_time), Hopens.
      replace (Z.to_nat (Z.min 1000 cnt)) with (S (List.length page))
        by lia.
      apply grid_last. }
    rewrite Hlast.
    set (m := Z.of_nat (List.length page)) in *.
    assert (Hm : 0 <= m) by (unfold m; lia).
    unfold fromtimestamp_ms, timedelta.minutes.
    destruct (Z.leb_spec ((first + 300000 * m) * 1000 + 5 * 60000000) c)
      as [Hback | Hfwd]; [lia |].
    eexists _, _, _. split; [reflexivity |].
    unfold range_inv. cbn [current_start iteration].
    split; [lia |]. split.
    + intros b Hw Hbefore.
      destruct (Z.lt_ge_cases (b * 1000) c) as [Hold | Hnew].
      * specialize (Hcov b Hw Hold). unfold stored in *.
        apply Hincl. exact Hcov.
      * destruct Hw as (Hal & Hstart & Hend & Hclosed).
        assert (Hrange : first <= b <= first + 300000 * m)
          by div_mod_lia.
        assert (Hin : In b (map k_open_time (k :: page))).
        { rewrite Hopens. apply grid_In.
          exists ((b - first) / 300000). split; [| div_mod_lia].
          assert (0 <= (b - first) / 300000 <= m) by div_mod_lia.
          lia. }
        apply in_map_iff in Hin. destruct Hin as (k' & Hopen & Hk').
        rewrite <- Hopen. apply Hstored; [exact Hk' |].
        unfold is_closed, fromtimestamp_ms.
        rewrite Forall_forall in Hclose. rewrite (Hclose k' Hk'), Hopen.
        apply Z.leb_le. cbn [clock_reads with_request].
        pose proof (clock_after (clock_reads w)). lia.
    + intros Hmore.
      rewrite !timestamp_ms_div by lia. fold em.
      replace (((first + 300000 * m) * 1000 + 5 * 60000000) / 1000)
        with (first + 300000 * m + 300000) by div_mod_lia.
      destruct (Z.min_spec 1000 cnt) as [[Hfull Hmin] | [Hpart Hmin]];
        rewrite Hmin in Hlen; lia.
Qed.
Lemma while_loop_no_gap fuel :
  forall st w,
    range_inv self start_time end_time now0 st w ->
    (max_iterations - iteration st <= fuel)%nat ->
    forall b, wanted start_time end_time now0 b ->
              stored self
                (table (snd (while_loop E self fuel end_time st w))) b.
Proof.
  induction fuel as [|fuel IH]; intros st w Hinv Hfuel; cbn [while_loop].
  - apply (range_inv_done st w Hinv). unfold loop_guard.
    replace (iteration st <? max_iterations)%nat with false.
    + apply andb_false_r.
    + symmetry. apply Nat.ltb_ge. lia.
  - destruct (loop_guard end_time st) eqn:Hg.
    + destruct (fetch_range_body_no_gap st w Hinv Hg)
        as (c & st' & w' & Hrun & Hc).
      destruct (fetch_range_body_total E self end_time st w)
        as (c2 & st2 & w2 & Hrun2 & Hit & _).
      rewrite Hrun in Hrun2. injection Hrun2 as <- <- <-.
      unfold bind. rewrite Hrun. cbn [fst snd].
      destruct c.
      * apply IH; [exact Hc | lia].
      * exact Hc.
    + apply (range_inv_done st w Hinv Hg).
Qed.
End NoGap.

Lemma candles_opens n : forall first,
  map k_open_time (Scenario.candles n first) = grid n first.
Proof.
  induction n as [|n IH]; intros first; cbn; [reflexivity |].
  f_equal. apply IH.
Qed.

Lemma candles_close n : forall first,
  Forall (fun k => k_close_time k = k_open_time k + 299999)
    (Scenario.candles n first).
Proof.
  induction n as [|n IH]; intros first; cbn; constructor;
    [reflexivity | apply IH].
Qed.

Lemma candles_fit n : forall first,
  Forall (fun k => kline_fits k = true) (Scenario.candles n first).
Proof.
  induction n as [|n IH]; intros first; cbn [Scenario.candles]; constructor;
    [vm_compute; reflexivity | apply IH].
Qed.

Lemma healthy_complete t : complete_exchange (Scenario.healthy t).
Proof.
  intros n r. eexists. split; [reflexivity |]. split; [| split].
  - rewrite candles_opens. unfold window_opens. rewrite Z.min_comm.
    reflexivity.
  - apply candles_close.
  - apply candles_fit.
Qed.

Lemma fetch_range_table E self start_time end_time w :
  table (snd (fetch_range E self start_time end_time w))
  = table (snd (while_loop E self max_iterations end_time
                  {| current_start := start_time; iteration := 0;
                     total_saved := 0 |} w)).
Proof.
  unfold fetch_range, bind.
  destruct (while_loop _ _ _ _ _ _) as [[st' | e] w']; reflexivity.
Qed.

Lemma range_inv_init self start_time end_time now0 w :
  0 <= start_time ->
  timestamp_ms end_time - timestamp_ms start_time < 150000000000 ->
  range_inv self start_time end_time now0
    {| current_start := start_time; iteration := 0; total_saved := 0 |} w.
Proof.
  intros Hpos Hshort. unfold range_inv. cbn [current_start iteration].
  split; [exact Hpos |]. split.
  - intros b (_ & Hstart & _) Hbefore. lia.
  - intros _. lia.
Qed.

(** X23. A fetch of a range leaves no gap.  When the exchange answers each
    request with every five-minute candle of the requested window (up to
    the page limit), each with numbers the [Numeric(20, 8)] columns
    accept, the database answers, the clock never reads earlier
    than [now0], and the range is shorter than 500 full pages
    (500 * 1000 candles), then after [fetch_range start_time end_time]
    every candle that opens on the five-minute grid at or after
    [start_time] and before [end_time], and that had closed by [now0], is
    stored for the collector's symbol and interval. *)
Theorem X23_no_gap_after_fetch_range E self start_time end_time now0 w :
  complete_exchange E ->
  (forall n, db_down E n = false) ->
  (forall n, now0 <= clock E n) ->
  0 <= start_time ->
  timestamp_ms end_time - timestamp_ms start_time < 150000000000 ->
  forall b,
    wanted start_time end_time now0 b ->
    stored self
      (table (snd (fetch_range E self start_time end_time w))) b.
Proof.
  intros Hcomplete Hdb Hclock Hpos Hshort b Hb.
  rewrite fetch_range_table.
  apply (while_loop_no_gap E self start_time end_time now0
           Hcomplete Hdb Hclock);
    [apply range_inv_init; assumption | cbn [iteration]; lia | exact Hb].
Qed.

Lemma X23_no_gap_after_fetch_range_witness :
  wanted (Scenario.T0 - timedelta.hours 1) Scenario.T0 Scenario.T0
    (Scenario.T0 / 1000 - 300000) /\
  stored Scenario.btc
    (table (snd (fetch_range (Scenario.healthy Scenario.T0) Scenario.btc
                   (Scenario.T0 - timedelta.hours 1) Scenario.T0
                   (Scenario.fresh []))))
    (Scenario.T0 / 1000 - 300000).
Proof.
  assert (Hw : wanted (Scenario.T0 - timedelta.hours 1) Scenario.T0
                 Scenario.T0 (Scenario.T0 / 1000 - 300000)).
  { unfold wanted. vm_compute. repeat split; congruence. }
  split; [exact Hw |].
  apply (X23_no_gap_after_fetch_range (Scenario.healthy Scenario.T0)
           Scenario.btc (Scenario.T0 - timedelta.hours 1) Scenario.T0
           Scenario.T0 (Scenario.fresh [])).
  - apply healthy_complete.
  - intros n. reflexivity.
  - intros n. cbn. lia.
  - vm_compute. congruence.
  - vm_compute. reflexivity.
  - exact Hw.
Defined.

(** X24. Bootstrapping leaves no gap.  Under the same assumptions on the
    exchange and the database, when the table holds no row of the
    collector's symbol and interval and the clock never reads earlier than
    the reading [t] that [backfill_data] takes, [backfill_data days]
    (with [0 <= days <= 1736], the 500-page ceiling) stores every candle
    that opens on the five-minute grid in the last [days] days before [t]
    and that had closed by [t]. *)
Theorem X24_bootstrap_no_gap E self days w :
  complete_exchange E ->
  (forall n, db_down E n = false) ->
  max_timestamp_turkey (self_symbol self) (self_interval self) (table w)
  = None ->
  let t := clock E (clock_reads w) in
  (forall n, t <= clock E n) ->
  0 <= days <= 1736 ->
  0 <= t - timedelta.days days ->
  forall b,
    wanted (t - timedelta.days days) t t b ->
    stored self (table (snd (backfill_data E self days w))) b.
Proof.
  intros Hcomplete Hdb Hnone t Hclock Hdays Hpos b Hb.
  rewrite backfill_data_unfold, get_last_record_time_eq, Hdb, Hnone.
  cbv zeta. cbn [clock_reads opened]. fold t.
  rewrite fetch_range_table.
  apply (while_loop_no_gap E self (t - timedelta.days days) t t
           Hcomplete Hdb Hclock);
    [apply range_inv_init; [exact Hpos |]
    | cbn [iteration]; lia | exact Hb].
  unfold timedelta.days in *. rewrite !timestamp_ms_div by lia.
  div_mod_lia.
Qed.

Lemma X24_bootstrap_no_gap_witness :
  wanted (Scenario.T0 - timedelta.days 1) Scenario.T0 Scenario.T0
    (Scenario.T0 / 1000 - 300000) /\
  stored Scenario.btc
    (table (snd (backfill_data (Scenario.healthy Scenario.T0) Scenario.btc 1
                   (Scenario.fresh []))))
    (Scenario.T0 / 1000 - 300000).
Proof.
  assert (Hw : wanted (Scenario.T0 - timedelta.days 1) Scenario.T0
                 Scenario.T0 (Scenario.T0 / 1000 - 300000)).
  { unfold wanted. vm_compute. repeat split; congruence. }
  split; [exact Hw |].
  apply (X24_bootstrap_no_gap (Scenario.healthy Scenario.T0) Scenario.btc 1
           (Scenario.fresh [])).
  - apply healthy_complete.
  - intros n. reflexivity.
  - reflexivity.
  - intros n. cbn. lia.
  - lia.
  - vm_compute. congruence.
  - exact Hw.
Defined.
